(** * Helthtech: the conversational triage pipeline

  A shallow embedding of the analysis pipeline of the repository
  (emotion classifier, sentiment analyser, risk detector, companion reply,
  chat orchestrator and risk-history trend) and the proofs of its
  specification.

  Conventions of the embedding.
  - A Python [str] is a [string]; its characters are read as the code
    points 0..255, and [str.lower], [str.isspace] and the regular
    expression class [\s] are Python's on that range.
  - A Python [float] is the rational [Q] it denotes.  The services (risk
    detector, classifiers, sentiment analyser) work on word counts,
    integer scores and their ratios, which are kept as they are, and
    there [round(x, n)] is rounding half to even at the n-th decimal.
    risk.py averages and scales floats: there every float operation is
    its exact result rounded to the nearest double by [PyFloat.fl]
    (53 bits, ties to even, gradual underflow), and [round] rounds its
    decimal result to a double again.  A float is finite: NaN and the
    infinities are not modelled, and the scores, which lie between 0 and
    100, stay far from overflow.  The built-in [sum] over floats, whose
    rounding differs between versions of the interpreter, is an argument
    of the functions that call it.
  - [None] is [None]; a call that may raise returns a sum with the
    exception as one summand; the data base collections are lists that
    are threaded through the handlers. *)

From Stdlib Require Import List Bool Arith ZArith QArith Qround Qabs Qpower.
From Stdlib Require Import Lia Lqa.
From Stdlib Require Qcanon.
From Stdlib Require Import Sorting.Sorted.
From Stdlib Require Import Ascii String.
Import ListNotations.

Open Scope string_scope.
Open Scope list_scope.

(* ================================================================== *)
(** * Python strings *)
(* ================================================================== *)

Module PyStr.

(** [c.isspace()] for a code point below 256: TAB..CR, FS..US, SPACE,
    NEL and NBSP. *)
Definition is_space (c : ascii) : bool :=
  let n := nat_of_ascii c in
  (((9 <=? n) && (n <=? 13)) || ((28 <=? n) && (n <=? 32))
   || (n =? 133) || (n =? 160))%nat.

(** [c.lower()] for a code point below 256: A..Z and the capital letters
    of the Latin-1 supplement (À..Ö, Ø..Þ) move up by 32. *)
Definition lower_char (c : ascii) : ascii :=
  let n := nat_of_ascii c in
  if (((65 <=? n) && (n <=? 90))
      || ((192 <=? n) && (n <=? 214))
      || ((216 <=? n) && (n <=? 222)))%nat
  then ascii_of_nat (n + 32) else c.

(** [s.lower()] *)
Fixpoint lower (s : string) : string :=
  match s with
  | EmptyString => EmptyString
  | String c s' => String (lower_char c) (lower s')
  end.

(** [s.startswith(p)] *)
Fixpoint starts_with (p s : string) : bool :=
  match p, s with
  | EmptyString, _ => true
  | String _ _, EmptyString => false
  | String a p', String b s' => Ascii.eqb a b && starts_with p' s'
  end.

(** [k in s] for two strings: [k] occurs in [s] as a contiguous run. *)
Fixpoint contains (k s : string) : bool :=
  starts_with k s ||
  match s with
  | EmptyString => false
  | String _ s' => contains k s'
  end.

(** [all(c.isspace() for c in s)] *)
Fixpoint all_space (s : string) : bool :=
  match s with
  | EmptyString => true
  | String c s' => is_space c && all_space s'
  end.

(** [s.lstrip()] *)
Fixpoint lstrip (s : string) : string :=
  match s with
  | EmptyString => EmptyString
  | String c s' => if is_space c then lstrip s' else s
  end.

(** [s.rstrip()] *)
Fixpoint rstrip (s : string) : string :=
  match s with
  | EmptyString => EmptyString
  | String c s' =>
      match rstrip s' with
      | EmptyString => if is_space c then EmptyString else String c EmptyString
      | r => String c r
      end
  end.

(** [s.strip()] *)
Definition strip (s : string) : string := rstrip (lstrip s).

(** [s[:n]] for [n >= 0] *)
Fixpoint take (n : nat) (s : string) : string :=
  match n, s with
  | O, _ => EmptyString
  | _, EmptyString => EmptyString
  | S n', String c s' => String c (take n' s')
  end.

(** The truth value of a string: [bool(s)]. *)
Definition truthy (s : string) : bool :=
  match s with EmptyString => false | _ => true end.

(** [c.upper()] for a code point below 256 whose capital is again one
    code point below 256: a..z and à..ö, ø..þ move down by 32.  The three
    letters whose capital leaves the range (micro sign, sharp s, y with
    diaeresis) are kept; no capital of them occurs in an ASCII word, so
    comparing [s.upper()] with an ASCII word is not affected. *)
Definition upper_char (c : ascii) : ascii :=
  let n := nat_of_ascii c in
  if (((97 <=? n) && (n <=? 122))
      || ((224 <=? n) && (n <=? 246))
      || ((248 <=? n) && (n <=? 254)))%nat
  then ascii_of_nat (n - 32) else c.

(** [s.upper()] *)
Fixpoint upper (s : string) : string :=
  match s with
  | EmptyString => EmptyString
  | String c s' => String (upper_char c) (upper s')
  end.

(** [any(k in s for k in ks)] *)
Definition any_in (ks : list string) (s : string) : bool :=
  existsb (fun k => contains k s) ks.

End PyStr.


(* ================================================================== *)
(** * Python numbers *)
(* ================================================================== *)

Module PyNum.

Definition Qltb (x y : Q) : bool := negb (Qle_bool y x).

(** [max(a, b)]: the first argument unless the second is greater. *)
Definition py_max (a b : Q) : Q := if Qltb a b then b else a.

(** [min(a, b)]: the first argument unless the second is smaller. *)
Definition py_min (a b : Q) : Q := if Qltb b a then b else a.

(** Rounding to the nearest integer, ties to the even one. *)
Definition round_half_even (x : Q) : Z :=
  let f := Qfloor x in
  match (x - inject_Z f ?= 1 # 2)%Q with
  | Lt => f
  | Gt => (f + 1)%Z
  | Eq => if Z.even f then f else (f + 1)%Z
  end.

(** [round(x, ndigits)] *)
Definition py_round (x : Q) (ndigits : nat) : Q :=
  let p := inject_Z (10 ^ Z.of_nat ndigits) in
  Qred (inject_Z (round_half_even (x * p)) / p).

(** The sum of a list of numbers, without any rounding. *)
Definition py_sum (l : list Q) : Q := fold_left Qplus l 0%Q.

(** [l[i:j]] for [0 <= i <= j] *)
Definition slice {A} (i j : nat) (l : list A) : list A :=
  firstn (j - i) (skipn i l).

(** [d.get(key, default)] on a dict with string keys, kept in insertion
    order. *)
Fixpoint dict_get {A} (d : list (string * A)) (key : string) (default : A) : A :=
  match d with
  | [] => default
  | (k, v) :: d' => if String.eqb k key then v else dict_get d' key default
  end.

(** [list(dict.fromkeys(l))]: the first occurrence of every element, in
    order. *)
Fixpoint dedup (l : list string) : list string :=
  match l with
  | [] => []
  | x :: l' => x :: filter (fun y => negb (String.eqb y x)) (dedup l')
  end.

(** The result of a call that may raise. *)
Inductive Outcome (A : Type) : Type :=
| Raised : Outcome A
| Returned : A -> Outcome A.
Arguments Raised {A}.
Arguments Returned {A} _.

End PyNum.

(* ================================================================== *)
(** * Python floats: IEEE 754 binary64, round to nearest, ties to even *)
(* ================================================================== *)

Module PyFloat.
Import PyNum.
Local Open Scope Q_scope.

(** The integer part of the binary logarithm of a positive rational. *)
Definition Qlog2 (a : Q) : Z :=
  let k := (Z.log2 (Qnum a) - Z.log2 (Zpos (Qden a)))%Z in
  if Qle_bool (2 ^ k) a then k else (k - 1)%Z.

(** The exponent of the last place of the doubles around [a > 0]: 53
    significant bits, and never below [2 ^ -1074]. *)
Definition ulp_exp (a : Q) : Z := Z.max (Qlog2 a - 52) (-1074).

(** The double nearest to [a > 0]. *)
Definition fl_pos (a : Q) : Q :=
  let e := ulp_exp a in inject_Z (round_half_even (a / 2 ^ e)) * 2 ^ e.

(** The double nearest to [x], in lowest terms. *)
Definition fl (x : Q) : Q :=
  match x ?= 0 with
  | Eq => 0
  | Gt => Qred (fl_pos x)
  | Lt => Qred (- fl_pos (- x))
  end.

(** [x + y], [x - y], [x * y] and [x / y] on floats (and [n / m] on
    integers, which Python rounds correctly as well). *)
Definition fadd (x y : Q) : Q := fl (x + y).
Definition fsub (x y : Q) : Q := fl (x - y).
Definition fmul (x y : Q) : Q := fl (x * y).
Definition fdiv (x y : Q) : Q := fl (x / y).

(** [round(x, ndigits)] on a float: the decimal nearest to the exact value
    of [x], as a double. *)
Definition round_float (x : Q) (ndigits : nat) : Q := fl (py_round x ndigits).

(** [sum(l)] over floats as CPython computes it up to version 3.11: from
    left to right, every addition rounded. *)
Definition sum_left (l : list Q) : Q := fold_left fadd l 0.

End PyFloat.

(* ================================================================== *)
(** * The fragment of Python's [re] the risk patterns use *)
(* ================================================================== *)

Module Regex.

(** Literal characters, the class [\s], concatenation, alternation and
    repetition; [Void] matches nothing and only arises in derivatives. *)
Inductive regex : Type :=
| Void : regex
| Eps : regex
| Chr : ascii -> regex
| Space : regex
| Cat : regex -> regex -> regex
| Alt : regex -> regex -> regex
| Star : regex -> regex.

(** A literal word. *)
Fixpoint Lit (s : string) : regex :=
  match s with
  | EmptyString => Eps
  | String c s' => Cat (Chr c) (Lit s')
  end.

(** [r?] *)
Definition Opt (r : regex) : regex := Alt r Eps.

(** [r+] *)
Definition Plus (r : regex) : regex := Cat r (Star r).

(** [(?:w1|w2|...)] over literal words. *)
Fixpoint Words (ws : list string) : regex :=
  match ws with
  | [] => Void
  | [w] => Lit w
  | w :: ws' => Alt (Lit w) (Words ws')
  end.

(** The strings a pattern matches in full. *)
Inductive matches : regex -> string -> Prop :=
| MEps : matches Eps ""
| MChr c : matches (Chr c) (String c "")
| MSpace c : PyStr.is_space c = true -> matches Space (String c "")
| MCat r1 r2 s1 s2 :
    matches r1 s1 -> matches r2 s2 -> matches (Cat r1 r2) (s1 ++ s2)
| MAltL r1 r2 s : matches r1 s -> matches (Alt r1 r2) s
| MAltR r1 r2 s : matches r2 s -> matches (Alt r1 r2) s
| MStar0 r : matches (Star r) ""
| MStarS r s1 s2 :
    matches r s1 -> matches (Star r) s2 -> matches (Star r) (s1 ++ s2).

(** Does the pattern match the empty string? *)
Fixpoint nullable (r : regex) : bool :=
  match r with
  | Void => false
  | Eps => true
  | Chr _ => false
  | Space => false
  | Cat r1 r2 => nullable r1 && nullable r2
  | Alt r1 r2 => nullable r1 || nullable r2
  | Star _ => true
  end.

(** What is left of the pattern after reading [c]. *)
Fixpoint deriv (c : ascii) (r : regex) : regex :=
  match r with
  | Void => Void
  | Eps => Void
  | Chr a => if Ascii.eqb a c then Eps else Void
  | Space => if PyStr.is_space c then Eps else Void
  | Cat r1 r2 =>
      if nullable r1
      then Alt (Cat (deriv c r1) r2) (deriv c r2)
      else Cat (deriv c r1) r2
  | Alt r1 r2 => Alt (deriv c r1) (deriv c r2)
  | Star r1 => Cat (deriv c r1) (Star r1)
  end.

(** [re.match(r, s) is not None]: some prefix of [s] matches. *)
Fixpoint match_at (s : string) (r : regex) : bool :=
  nullable r ||
  match s with
  | EmptyString => false
  | String c s' => match_at s' (deriv c r)
  end.

(** [re.search(r, s) is not None]: a match starts somewhere in [s]. *)
Fixpoint search (r : regex) (s : string) : bool :=
  match_at s r ||
  match s with
  | EmptyString => false
  | String _ s' => search r s'
  end.

(** A pattern is [solid] when each of its matches has a character that
    is not white space (used to show that blank texts match nothing). *)
Fixpoint solid (r : regex) : bool :=
  match r with
  | Void => true
  | Eps => false
  | Chr c => negb (PyStr.is_space c)
  | Space => false
  | Cat r1 r2 => solid r1 || solid r2
  | Alt r1 r2 => solid r1 && solid r2
  | Star _ => false
  end.

End Regex.

(* ================================================================== *)
(** * ai_service/risk_detector.py *)
(* ================================================================== *)

Module RiskDetector.
Import PyNum Regex.

Inductive RiskLevel : Type := LOW | MEDIUM | HIGH.

Definition level_name (l : RiskLevel) : string :=
  match l with LOW => "LOW" | MEDIUM => "MEDIUM" | HIGH => "HIGH" end.

Definition HIGH_RISK_KEYWORDS : list string :=
  [ "kill myself";
    "want to die";
    "hurt myself";
    "end my life";
    "suicide";
    "self harm";
    "self-harm";
    "cut myself";
    "don't want to live";
    "don't want to be alive";
    "better off dead";
    "no reason to live";
    "end it all";
    "take my own life";
    "overdose" ].

Definition sp : regex := Plus Space.

Local Notation "a ';;' b" := (Cat a b) (at level 61, right associativity).

Definition MEDIUM_RISK_PATTERNS : list regex :=
  [ (* feel(?:ing)?\s+(?:so\s+)?(?:hopeless|worthless|empty|numb) *)
    Lit "feel" ;; Opt (Lit "ing") ;; sp ;; Opt (Lit "so" ;; sp) ;;
      Words ["hopeless"; "worthless"; "empty"; "numb"];
    (* (?:nobody|no\s*one)\s+(?:cares|loves|understands) *)
    Alt (Lit "nobody") (Lit "no" ;; Star Space ;; Lit "one") ;; sp ;;
      Words ["cares"; "loves"; "understands"];
    (* can'?t\s+(?:go on|take it|handle|cope) *)
    Lit "can" ;; Opt (Lit "'") ;; Lit "t" ;; sp ;;
      Words ["go on"; "take it"; "handle"; "cope"];
    (* (?:hate|despise)\s+myself *)
    Words ["hate"; "despise"] ;; sp ;; Lit "myself";
    (* (?:always|constantly)\s+(?:sad|depressed|anxious) *)
    Words ["always"; "constantly"] ;; sp ;;
      Words ["sad"; "depressed"; "anxious"];
    (* (?:nothing|life)\s+(?:matters|has meaning) *)
    Words ["nothing"; "life"] ;; sp ;; Words ["matters"; "has meaning"];
    (* (?:trapped|stuck)\s+(?:in|with) *)
    Words ["trapped"; "stuck"] ;; sp ;; Words ["in"; "with"];
    (* (?:never|won't)\s+get\s+better *)
    Words ["never"; "won't"] ;; sp ;; Lit "get" ;; sp ;; Lit "better";
    (* burden\s+(?:to|on)\s+(?:everyone|others|family) *)
    Lit "burden" ;; sp ;; Words ["to"; "on"] ;; sp ;;
      Words ["everyone"; "others"; "family"] ].

Definition LOW_RISK_PATTERNS : list regex :=
  [ (* (?:stressed|overwhelmed|exhausted) *)
    Words ["stressed"; "overwhelmed"; "exhausted"];
    (* (?:can'?t|unable\s+to)\s+sleep *)
    Alt (Lit "can" ;; Opt (Lit "'") ;; Lit "t") (Lit "unable" ;; sp ;; Lit "to")
      ;; sp ;; Lit "sleep";
    (* (?:lonely|isolated|alone) *)
    Words ["lonely"; "isolated"; "alone"];
    (* (?:worried|anxious)\s+about *)
    Words ["worried"; "anxious"] ;; sp ;; Lit "about";
    (* feeling\s+(?:down|low|blue) *)
    Lit "feeling" ;; sp ;; Words ["down"; "low"; "blue"] ].

Record RiskAssessment : Type := mkRisk
  { level : RiskLevel; score : Q; factors : list string }.

(** The two locals the scans update: [base_score] and [factors]. *)
Record Acc : Type := mkAcc { base_score : Q; acc_factors : list string }.

Definition append (a : Acc) (factor : string) : list string :=
  acc_factors a ++ [factor].

(** One round of the loop over [HIGH_RISK_KEYWORDS]. *)
Definition high_step (text_lower : string) (a : Acc) (keyword : string) : Acc :=
  if PyStr.contains keyword text_lower
  then mkAcc (py_max (base_score a) 85)
             (append a ("High-risk keyword detected: '" ++ keyword ++ "'"))
  else a.

(** One round of the loop over [MEDIUM_RISK_PATTERNS]. *)
Definition medium_step (text_lower : string) (a : Acc) (pattern : regex) : Acc :=
  if search pattern text_lower
  then mkAcc (py_max (base_score a) 55) (append a "Distress pattern detected")
  else a.

(** The loop over [LOW_RISK_PATTERNS], left at the first match. *)
Fixpoint low_scan (text_lower : string) (patterns : list regex) (a : Acc) : Acc :=
  match patterns with
  | [] => a
  | pattern :: rest =>
      if search pattern text_lower
      then mkAcc (if Qltb (base_score a) 40
                  then py_max (base_score a) 25 else base_score a)
                 (append a "Stress indicator detected")
      else low_scan text_lower rest a
  end.

Definition emotion_adjustments : list (string * Z) :=
  [ ("sadness", 15); ("fear", 12); ("anger", 8); ("disgust", 5);
    ("surprise", 0); ("neutral", 0); ("joy", -10) ]%Z.

(** [if emotion: ...] *)
Definition adjust_emotion (emotion : option string) (a : Acc) : Acc :=
  match emotion with
  | None => a
  | Some e =>
      if PyStr.truthy e then
        let adjustment := dict_get emotion_adjustments (PyStr.lower e) 0%Z in
        if (adjustment =? 0)%Z then a
        else mkAcc (base_score a + inject_Z adjustment)
                   (if (0 <? adjustment)%Z
                    then append a ("Negative emotion detected: " ++ e)
                    else acc_factors a)
      else a
  end.

(** [if sentiment is not None: ...].  The literals [-0.6] and [-0.3] are
    read as the rationals -6/10 and -3/10.  A sentiment that is not a
    number compares false with both and behaves like 0; an infinite one
    behaves like a large finite one. *)
Definition adjust_sentiment (sentiment : option Q) (a : Acc) : Acc :=
  match sentiment with
  | None => a
  | Some s =>
      if Qltb s (- (6 # 10)) then
        mkAcc (base_score a + 10) (append a "Very negative sentiment")
      else if Qltb s (- (3 # 10)) then
        mkAcc (base_score a + 5) (append a "Negative sentiment")
      else a
  end.

Definition level_of (final_score : Q) : RiskLevel :=
  if Qle_bool 70 final_score then HIGH
  else if Qle_bool 35 final_score then MEDIUM
  else LOW.

Definition detect_risk (text : string) (emotion : option string)
    (sentiment : option Q) : RiskAssessment :=
  if negb (PyStr.truthy text) then mkRisk LOW 0 []
  else
    let text_lower := PyStr.lower text in
    let a := mkAcc 0 [] in
    let a := fold_left (high_step text_lower) HIGH_RISK_KEYWORDS a in
    let a := fold_left (medium_step text_lower) MEDIUM_RISK_PATTERNS a in
    let a := low_scan text_lower LOW_RISK_PATTERNS a in
    let a := adjust_emotion emotion a in
    let a := adjust_sentiment sentiment a in
    let final_score := py_max 0 (py_min 100 (base_score a)) in
    mkRisk (level_of final_score)
           (py_round final_score 1)
           (dedup (acc_factors a)).

Record Guidance : Type := mkGuidance
  { tone : string; priorities : list string;
    suggest_resources : bool; response_style : string }.

Definition get_risk_response_guidance (risk_level : string) : Guidance :=
  if String.eqb risk_level "HIGH" then
    mkGuidance "calm, supportive, and non-judgmental"
      [ "Acknowledge their feelings without dismissing them";
        "Express care and concern";
        "Gently encourage professional support";
        "Avoid leaving them feeling alone" ]
      true "empathetic_urgent"
  else if String.eqb risk_level "MEDIUM" then
    mkGuidance "warm, validating, and supportive"
      [ "Validate their emotions";
        "Explore their feelings with open questions";
        "Offer coping strategies if appropriate";
        "Maintain connection" ]
      false "empathetic_supportive"
  else
    mkGuidance "friendly, curious, and encouraging"
      [ "Engage naturally";
        "Show interest in their experiences";
        "Provide emotional support";
        "Encourage self-reflection" ]
      false "conversational".

Definition crisis_indicators : list string :=
  [ "kill myself";
    "suicide";
    "want to die";
    "going to hurt myself";
    "end my life";
    "overdose" ].

Definition check_for_crisis (text : string) : bool :=
  let text_lower := PyStr.lower text in
  PyStr.any_in crisis_indicators text_lower.

End RiskDetector.

(* ================================================================== *)
(** * ai_service/emotion_classifier.py *)
(* ================================================================== *)

Module EmotionClassifier.
Import PyNum.

Record EmotionResult : Type := mkEmotion
  { emotion : string; confidence : Q }.

(** One entry of the model's output, [{'label': ..., 'score': ...}]. *)
Record Prediction : Type := mkPrediction
  { label : string; pscore : Q }.

(** An element of the list the pipeline returns: a prediction, or (with
    [top_k]) a list of predictions. *)
Inductive PipelineItem : Type :=
| Single : Prediction -> PipelineItem
| Nested : list Prediction -> PipelineItem.

(** A loaded model: the call [classifier(text)], which may raise. *)
Definition Model : Type := string -> Outcome (list PipelineItem).

(** The value of the global [_emotion_classifier] once it is set. *)
Inductive Classifier : Type :=
| Fallback : Classifier
| Loaded : Model -> Classifier.

(** [get_classifier()]: [g] is the global ([None] before the first call)
    and [load] the outcome of constructing the pipeline. *)
Definition get_classifier (load : Outcome Model) (g : option Classifier)
    : Classifier * option Classifier :=
  match g with
  | Some c => (c, g)
  | None =>
      let c := match load with
               | Returned m => Loaded m
               | Raised => Fallback
               end in
      (c, Some c)
  end.

Definition emotion_keywords : list (string * list string) :=
  [ ("joy", ["happy"; "glad"; "excited"; "wonderful"; "great"; "love";
             "amazing"; "fantastic"; "good"]);
    ("sadness", ["sad"; "unhappy"; "depressed"; "down"; "miserable";
                 "lonely"; "hopeless"; "crying"; "tears"]);
    ("anger", ["angry"; "mad"; "furious"; "annoyed"; "frustrated"; "hate";
               "pissed"]);
    ("fear", ["scared"; "afraid"; "terrified"; "anxious"; "worried";
              "nervous"; "panic"]);
    ("surprise", ["surprised"; "shocked"; "amazed"; "unexpected"; "wow"]);
    ("disgust", ["disgusted"; "gross"; "sick"; "revolting"]) ].

(** The loop of [_fallback_classify] over [emotion_keywords.items()]. *)
Fixpoint first_emotion (items : list (string * list string))
    (text_lower : string) : EmotionResult :=
  match items with
  | [] => mkEmotion "neutral" (5 # 10)
  | (emotion, keywords) :: rest =>
      if PyStr.any_in keywords text_lower
      then mkEmotion emotion (6 # 10)
      else first_emotion rest text_lower
  end.

Definition _fallback_classify (text : string) : EmotionResult :=
  first_emotion emotion_keywords (PyStr.lower text).

(** The body of the [try] block; [Raised] stands for the [IndexError] of
    [results[0][0]] on an empty inner list and for a raising model, and
    [Returned None] for leaving the block without a [return]. *)
Definition try_model (m : Model) (text : string)
    : Outcome (option EmotionResult) :=
  let truncated_text := PyStr.take 512 text in
  match m truncated_text with
  | Raised => Raised
  | Returned [] => Returned None
  | Returned (Nested [] :: _) => Raised
  | Returned (Nested (top_result :: _) :: _)
  | Returned (Single top_result :: _) =>
      Returned (Some (mkEmotion (PyStr.lower (label top_result))
                                (py_round (pscore top_result) 4)))
  end.

Definition classify_emotion (load : Outcome Model) (g : option Classifier)
    (text : string) : EmotionResult * option Classifier :=
  if negb (PyStr.truthy text) || negb (PyStr.truthy (PyStr.strip text))
  then (mkEmotion "neutral" 0, g)
  else
    let (classifier, g') := get_classifier load g in
    match classifier with
    | Fallback => (_fallback_classify text, g')
    | Loaded m =>
        match try_model m text with
        | Returned (Some r) => (r, g')
        | Returned None | Raised => (_fallback_classify text, g')
        end
    end.

Definition EMOTION_SEVERITY : list (string * Z) :=
  [ ("joy", 0); ("surprise", 1); ("neutral", 2); ("anger", 3);
    ("disgust", 3); ("fear", 4); ("sadness", 5) ]%Z.

Definition get_emotion_severity (emotion : string) : Z :=
  dict_get EMOTION_SEVERITY (PyStr.lower emotion) 2%Z.

End EmotionClassifier.

(* ================================================================== *)
(** * ai_service/sentiment_analyzer.py *)
(* ================================================================== *)

Module SentimentAnalyzer.
Import PyNum.

Record SentimentResult : Type := mkSentiment
  { sscore : Q; polarity : string }.

Record Prediction : Type := mkPrediction
  { label : string; pscore : Q }.

Definition Model : Type := string -> Outcome (list Prediction).

(** The value of the global [_sentiment_analyzer] once it is set. *)
Inductive Analyzer : Type :=
| Fallback : Analyzer
| Loaded : Model -> Analyzer.

Definition get_analyzer (load : Outcome Model) (g : option Analyzer)
    : Analyzer * option Analyzer :=
  match g with
  | Some a => (a, g)
  | None =>
      let a := match load with
               | Returned m => Loaded m
               | Raised => Fallback
               end in
      (a, Some a)
  end.

Definition positive_words : list string :=
  [ "good"; "great"; "happy"; "love"; "wonderful"; "amazing";
    "fantastic"; "excellent"; "best"; "beautiful"; "joy"; "hope";
    "better"; "improve"; "grateful"; "thanks"; "helpful" ].

Definition negative_words : list string :=
  [ "bad"; "terrible"; "sad"; "hate"; "awful"; "horrible";
    "worst"; "pain"; "hurt"; "lonely"; "hopeless"; "scared";
    "angry"; "frustrated"; "tired"; "exhausted"; "stressed";
    "anxious"; "worried"; "depressed"; "miserable" ].

(** [sum(1 for word in words if word in text_lower)] *)
Definition count_in (words : list string) (text_lower : string) : Z :=
  Z.of_nat (List.length (filter (fun word => PyStr.contains word text_lower) words)).

Definition _fallback_analyze (text : string) : SentimentResult :=
  let text_lower := PyStr.lower text in
  let positive_count := count_in positive_words text_lower in
  let negative_count := count_in negative_words text_lower in
  let total := (positive_count + negative_count)%Z in
  if (total =? 0)%Z then mkSentiment 0 "neutral"
  else
    let score := inject_Z (positive_count - negative_count)
                 / inject_Z (Z.max total 1) in
    let polarity :=
      if Qltb (2 # 10) score then "positive"
      else if Qltb score (- (2 # 10)) then "negative"
      else "neutral" in
    mkSentiment (py_round score 4) polarity.

(** The body of the [try] block; [Returned None] is leaving it without a
    [return]. *)
Definition try_model (m : Model) (text : string)
    : Outcome (option SentimentResult) :=
  let truncated_text := PyStr.take 512 text in
  match m truncated_text with
  | Raised => Raised
  | Returned [] => Returned None
  | Returned (result :: _) =>
      let label := PyStr.upper (label result) in
      let score := pscore result in
      let (sentiment_score, polarity) :=
        if String.eqb label "POSITIVE"
        then (score, "positive") else (- score, "negative") in
      let polarity :=
        if Qltb (Qabs sentiment_score) (3 # 10) then "neutral" else polarity in
      Returned (Some (mkSentiment (py_round sentiment_score 4) polarity))
  end.

Definition analyze_sentiment (load : Outcome Model) (g : option Analyzer)
    (text : string) : SentimentResult * option Analyzer :=
  if negb (PyStr.truthy text) || negb (PyStr.truthy (PyStr.strip text))
  then (mkSentiment 0 "neutral", g)
  else
    let (analyzer, g') := get_analyzer load g in
    match analyzer with
    | Fallback => (_fallback_analyze text, g')
    | Loaded m =>
        match try_model m text with
        | Returned (Some r) => (r, g')
        | Returned None | Raised => (_fallback_analyze text, g')
        end
    end.

Definition get_sentiment_intensity (score : Q) : string :=
  let abs_score := Qabs score in
  if Qle_bool (8 # 10) abs_score then "very_strong"
  else if Qle_bool (6 # 10) abs_score then "strong"
  else if Qle_bool (4 # 10) abs_score then "moderate"
  else if Qle_bool (2 # 10) abs_score then "mild"
  else "neutral".

End SentimentAnalyzer.

(* ================================================================== *)
(** * ai_service/llm_companion.py *)
(* ================================================================== *)

Module LlmCompanion.
Import PyNum.
Local Open Scope string_scope.

(** An entry of the [messages] array sent to the completion service. *)
Record Message : Type := mkMessage { role : string; content : string }.

(** An entry of [conversation_history]: a dict read with
    [msg.get("role", "user")] and [msg.get("message", "")]. *)
Record Turn : Type := mkTurn
  { turn_role : option string; turn_message : option string }.

(** The remote call [client.chat.completions.create(...)] followed by
    [response.choices[0].message.content]: the text of the first choice,
    or an exception (time out, service error, no choice, no content). *)
Definition Service : Type := list Message -> Outcome string.

(** The value of the global [_client] once it is set. *)
Inductive Client : Type :=
| Mock : Client
| OpenAI : Service -> Client.

(** [get_client()]: [api_key] is the environment variable and [service]
    the service a client built with it reaches. *)
Definition get_client (api_key : string) (service : Service)
    (g : option Client) : Client * option Client :=
  match g with
  | Some c => (c, g)
  | None =>
      let c :=
        if PyStr.truthy api_key
           && negb (String.eqb api_key "your_openai_api_key_here")
        then OpenAI service else Mock in
      (c, Some c)
  end.

Definition nl : string := String (ascii_of_nat 10) "".
Definition dq : string := String (ascii_of_nat 34) "".

(** The lines of a multi-line literal, joined by newlines. *)
Fixpoint lines (l : list string) : string :=
  match l with
  | [] => ""
  | [x] => x
  | x :: l' => x ++ nl ++ lines l'
  end.

Definition COMPANION_SYSTEM_PROMPT : string :=
  lines
    [ "You are a supportive AI companion for teenagers. Your role is to provide emotional support through empathetic conversation.";
      "";
      "CORE PRINCIPLES:";
      "1. NEVER provide medical diagnoses or clinical advice";
      "2. ALWAYS use non-judgmental, validating language";
      "3. Practice reflective listening - mirror back what you hear";
      "4. Ask open-ended questions to encourage sharing";
      "5. Validate emotions before suggesting solutions";
      "6. Be warm, genuine, and age-appropriate";
      "";
      "RESPONSE STYLE:";
      "- Keep responses concise (2-4 sentences typically)";
      "- Use a conversational, friendly tone";
      "- Avoid being preachy or lecturing";
      "- Show you're genuinely listening";
      "";
      "EXAMPLE PHRASES:";
      ("- " ++ dq ++ "That sounds really difficult." ++ dq)%string;
      ("- " ++ dq ++ "I can understand why you'd feel that way." ++ dq)%string;
      ("- " ++ dq ++ "Would you like to tell me more about that?" ++ dq)%string;
      ("- " ++ dq ++ "It's okay to feel this way." ++ dq)%string;
      ("- " ++ dq ++ "I'm here to listen." ++ dq)%string;
      "";
      "IMPORTANT: You are NOT a therapist. If someone shares serious concerns, acknowledge them supportively but never minimize, and gently encourage talking to a trusted adult or professional." ].

Definition HIGH_RISK_ADDENDUM : string :=
  lines
    [ "";
      "CRITICAL: The user may be in distress. Respond with extra care:";
      "- Stay calm and present";
      "- Don't panic or overreact in your response";
      "- Acknowledge their pain without judgment";
      "- Gently encourage reaching out to someone they trust";
      "- Remind them that support is available";
      "- Do NOT leave them feeling alone or dismissed";
      "";
      "If appropriate, you may mention that talking to a school counselor, trusted adult, or calling a helpline like 988 (Suicide & Crisis Lifeline) can help." ].

Definition opt_eqb (o : option string) (s : string) : bool :=
  match o with Some x => String.eqb x s | None => false end.

Definition _generate_mock_response (message : string)
    (emotion risk_level : option string) : string :=
  let message_lower := PyStr.lower message in
  if opt_eqb risk_level "HIGH" then
    "I hear that you're going through something really painful right now. "
    ++ "I want you to know that you're not alone, and what you're feeling matters. "
    ++ "Would it be possible to talk to someone you trust about this? "
    ++ "I'm here to listen, and I care about you."
  else if PyStr.any_in ["hi"; "hello"; "hey"] message_lower then
    "Hey! It's good to hear from you. "
    ++ "How are you feeling today? I'm here if you want to talk about anything."
  else if opt_eqb emotion "sadness" then
    "It sounds like you're going through a tough time. "
    ++ "I'm really sorry you're feeling this way. "
    ++ "Would you like to tell me more about what's been going on?"
  else if opt_eqb emotion "fear" || opt_eqb emotion "anxiety" then
    "That sounds really stressful. It's completely understandable to feel worried. "
    ++ "What's been weighing on your mind the most?"
  else if opt_eqb emotion "anger" then
    "I can hear that you're frustrated. Those feelings are valid. "
    ++ "What happened that's got you feeling this way?"
  else if opt_eqb emotion "joy" then
    "That's wonderful to hear! It sounds like something good is happening. "
    ++ "I'd love to hear more about it!"
  else if opt_eqb risk_level "MEDIUM" then
    "It sounds like things have been really hard lately. "
    ++ "I want you to know that your feelings are valid, and it's okay to not be okay sometimes. "
    ++ "What would feel helpful to talk about right now?"
  else
    "I hear you. That sounds like something worth exploring. "
    ++ "Would you like to tell me more about how you're feeling?".

(** [l[-n:]] for [n > 0] *)
Definition last_n {A} (n : nat) (l : list A) : list A :=
  skipn (List.length l - n) l.

Definition or_default (o : option string) (d : string) : string :=
  match o with Some x => x | None => d end.

(** The [messages] array [generate_response] builds.  (The function also
    computes [guidance = get_risk_response_guidance(risk_level or "LOW")]
    and does not use it.) *)
Definition build_messages (message : string) (emotion risk_level : option string)
    (conversation_history : option (list Turn)) : list Message :=
  let system_prompt :=
    if opt_eqb risk_level "HIGH"
    then COMPANION_SYSTEM_PROMPT ++ nl ++ nl ++ HIGH_RISK_ADDENDUM
    else COMPANION_SYSTEM_PROMPT in
  let history :=
    match conversation_history with
    | Some h =>
        map (fun msg => mkMessage (or_default (turn_role msg) "user")
                                  (or_default (turn_message msg) ""))
            (last_n 6 h)
    | None => []
    end in
  let context_note :=
    match emotion with
    | Some e =>
        if PyStr.truthy e && negb (String.eqb e "neutral")
        then "[User appears to be feeling " ++ e ++ "] " else ""
    | None => ""
    end in
  ([mkMessage "system" system_prompt] ++ history
   ++ [mkMessage "user" (context_note ++ message)])%list.

Definition generate_response (api_key : string) (service : Service)
    (g : option Client) (message : string) (emotion risk_level : option string)
    (conversation_history : option (list Turn)) : string * option Client :=
  let (client, g') := get_client api_key service g in
  match client with
  | Mock => (_generate_mock_response message emotion risk_level, g')
  | OpenAI create =>
      let messages :=
        build_messages message emotion risk_level conversation_history in
      match create messages with
      | Returned content => (PyStr.strip content, g')
      | Raised => (_generate_mock_response message emotion risk_level, g')
      end
  end.

End LlmCompanion.

(* ================================================================== *)
(** * backend/app/api/risk.py *)
(* ================================================================== *)

Module RiskApi.
Import PyNum PyFloat RiskDetector.

(** A document of the [risk_scores] collection as the cursor yields it. *)
Record RiskDoc : Type := mkRiskDoc
  { doc_user_id : string; doc_level : string; doc_score : Q;
    doc_timestamp : Z; doc_factors : option (list string) }.

(** [models.risk.RiskScore] *)
Record RiskScore : Type := mkRiskScore
  { user_id : string; level : RiskLevel; score : Q;
    timestamp : Z; factors : option (list string) }.

(** [models.risk.RiskHistory] *)
Record RiskHistory : Type := mkRiskHistory
  { history_user_id : string; scores : list RiskScore;
    current_level : RiskLevel; trend : option string }.

Definition parse_level (s : string) : option RiskLevel :=
  if String.eqb s "LOW" then Some LOW
  else if String.eqb s "MEDIUM" then Some MEDIUM
  else if String.eqb s "HIGH" then Some HIGH
  else None.

(** The constructor call [RiskScore(...)]: the model validates the level
    literal and [0 <= score <= 100] and raises otherwise. *)
Definition make_RiskScore (doc : RiskDoc) : Outcome RiskScore :=
  match parse_level (doc_level doc) with
  | Some l =>
      if Qle_bool 0 (doc_score doc) && Qle_bool (doc_score doc) 100
      then Returned (mkRiskScore (doc_user_id doc) l (doc_score doc)
                                 (doc_timestamp doc) (doc_factors doc))
      else Raised
  | None => Raised
  end.

(** The [async for] loop that fills [scores]. *)
Fixpoint collect (cursor : list RiskDoc) : Outcome (list RiskScore) :=
  match cursor with
  | [] => Returned []
  | doc :: rest =>
      match make_RiskScore doc with
      | Raised => Raised
      | Returned s =>
          match collect rest with
          | Raised => Raised
          | Returned l => Returned (s :: l)
          end
      end
  end.

(** The block "Determine trend".  [sum] is the built-in [sum] over the
    floats of a list: CPython adds them from left to right up to version
    3.11 ([PyFloat.sum_left]) and carries a compensation term since 3.12;
    the division, the two shifts by 5 and the comparisons are those of
    the doubles. *)
Definition determine_trend (sum : list Q -> Q) (scores : list RiskScore)
    : string :=
  if (5 <=? List.length scores)%nat then
    let recent_avg := fdiv (sum (map score (slice 0 5 scores))) 5 in
    let older_avg :=
      if (5 <? List.length scores)%nat
      then fdiv (sum (map score (slice 5 10 scores)))
                (inject_Z (Z.min 5 (Z.of_nat (List.length (slice 5 10 scores)))))
      else recent_avg in
    if Qltb recent_avg (fsub older_avg 5) then "improving"
    else if Qltb (fadd older_avg 5) recent_avg then "worsening"
    else "stable"
  else "insufficient_data".

(** [get_risk_scores]: [cursor] holds the documents of the user within the
    period, most recent first, as the query returns them. *)
Definition get_risk_scores (sum : list Q -> Q) (user_id : string)
    (cursor : list RiskDoc) : Outcome RiskHistory :=
  match collect cursor with
  | Raised => Raised
  | Returned scores =>
      let current_level :=
        match scores with s :: _ => level s | [] => LOW end in
      Returned (mkRiskHistory user_id scores current_level
                              (Some (determine_trend sum scores)))
  end.

End RiskApi.

(* ================================================================== *)
(** * backend/app/api/chat.py *)
(* ================================================================== *)

Module ChatApi.
Import PyNum RiskDetector.

(** [models.chat.ChatMessage] *)
Record ChatMessage : Type := mkChatMessage
  { cm_user_id : string; cm_message : string }.

(** [models.chat.ChatLogInDB] *)
Record ChatLogInDB : Type := mkChatLog
  { log_user_id : string; log_message : string; log_role : string;
    log_timestamp : Z; log_emotion : option string;
    log_emotion_confidence : option Q; log_sentiment_score : option Q;
    log_sentiment_polarity : option string }.

(** The dict [risk_entry]. *)
Record RiskEntry : Type := mkRiskEntry
  { re_user_id : string; re_level : RiskLevel; re_score : Q;
    re_timestamp : Z; re_factors : list string;
    re_trigger_message : option string }.

(** [models.alert.AlertInDB] *)
Record AlertInDB : Type := mkAlert
  { alert_user_id : string; risk_level : RiskLevel;
    trigger_message : string; created_at : Z; resolved : bool;
    resolved_at : option Z; notes : option string }.

(** [models.chat.ChatResponse] *)
Record ChatResponse : Type := mkChatResponse
  { resp_user_id : string; user_message : string; ai_response : string;
    resp_emotion : option string; resp_emotion_confidence : option Q;
    resp_sentiment_score : option Q; resp_sentiment_polarity : option string;
    resp_risk_level : option string; resp_risk_score : option Q;
    resp_timestamp : Z }.

(** The three collections the handler writes; [insert_one] appends. *)
Record DB : Type := mkDB
  { chat_logs : list ChatLogInDB; risk_scores : list RiskEntry;
    alerts : list AlertInDB }.

(** The module globals of the three services. *)
Record Globals : Type := mkGlobals
  { _emotion_classifier : option EmotionClassifier.Classifier;
    _sentiment_analyzer : option SentimentAnalyzer.Analyzer;
    _client : option LlmCompanion.Client }.

(** What the process finds around it: whether the models load, the API
    key and the completion service. *)
Record Env : Type := mkEnv
  { load_emotion : Outcome EmotionClassifier.Model;
    load_sentiment : Outcome SentimentAnalyzer.Model;
    api_key : string;
    service : LlmCompanion.Service }.

(** Steps 1 to 3 of the handler.  [AI_AVAILABLE] tells whether the import
    of the services succeeded; without them the module's own stand-ins
    are called. *)
Definition analyse (env : Env) (AI_AVAILABLE : bool) (g : Globals)
    (message : string)
    : EmotionClassifier.EmotionResult * SentimentAnalyzer.SentimentResult
      * RiskAssessment * Globals :=
  if AI_AVAILABLE then
    let (emotion_result, ge) :=
      EmotionClassifier.classify_emotion (load_emotion env)
        (_emotion_classifier g) message in
    let emotion := EmotionClassifier.emotion emotion_result in
    let (sentiment_result, gs) :=
      SentimentAnalyzer.analyze_sentiment (load_sentiment env)
        (_sentiment_analyzer g) message in
    let sentiment_score := SentimentAnalyzer.sscore sentiment_result in
    let risk_result := detect_risk message (Some emotion) (Some sentiment_score) in
    (emotion_result, sentiment_result, risk_result, mkGlobals ge gs (_client g))
  else
    (EmotionClassifier.mkEmotion "neutral" (5 # 10),
     SentimentAnalyzer.mkSentiment 0 "neutral",
     mkRisk LOW 10 [], g).

(** The assessment the handler works with for a message. *)
Definition assessment (env : Env) (AI_AVAILABLE : bool) (g : Globals)
    (message : string) : RiskAssessment :=
  snd (fst (analyse env AI_AVAILABLE g message)).

(** Step 4. *)
Definition reply (env : Env) (AI_AVAILABLE : bool) (g : Globals)
    (message emotion : string) (risk_level : RiskLevel) : string * Globals :=
  if AI_AVAILABLE then
    let (ai_response, gc) :=
      LlmCompanion.generate_response (api_key env) (service env) (_client g)
        message (Some emotion) (Some (level_name risk_level)) None in
    (ai_response, mkGlobals (_emotion_classifier g) (_sentiment_analyzer g) gc)
  else
    ("I hear you. That sounds like something worth exploring. Would you like to tell me more about how you're feeling?", g).

(** [send_message]; [now1] and [now2] are the two readings of the clock. *)
Definition send_message (env : Env) (AI_AVAILABLE : bool) (now1 now2 : Z)
    (g : Globals) (db : DB) (chat_message : ChatMessage)
    : ChatResponse * Globals * DB :=
  let user_id := cm_user_id chat_message in
  let message := cm_message chat_message in
  let timestamp := now1 in
  let '(emotion_result, sentiment_result, risk_result, g) :=
    analyse env AI_AVAILABLE g message in
  let emotion := EmotionClassifier.emotion emotion_result in
  let emotion_confidence := EmotionClassifier.confidence emotion_result in
  let sentiment_score := SentimentAnalyzer.sscore sentiment_result in
  let sentiment_polarity := SentimentAnalyzer.polarity sentiment_result in
  let risk_level := level risk_result in
  let risk_score := score risk_result in
  let risk_factors := factors risk_result in
  let (ai_response, g) := reply env AI_AVAILABLE g message emotion risk_level in
  let user_log :=
    mkChatLog user_id message "user" timestamp (Some emotion)
              (Some emotion_confidence) (Some sentiment_score)
              (Some sentiment_polarity) in
  let db := mkDB (chat_logs db ++ [user_log]) (risk_scores db) (alerts db) in
  let ai_log := mkChatLog user_id ai_response "ai" now2 None None None None in
  let db := mkDB (chat_logs db ++ [ai_log]) (risk_scores db) (alerts db) in
  let risk_entry :=
    mkRiskEntry user_id risk_level risk_score timestamp risk_factors
      (match risk_level with
       | MEDIUM | HIGH => Some message
       | LOW => None
       end) in
  let db := mkDB (chat_logs db) (risk_scores db ++ [risk_entry]) (alerts db) in
  let db :=
    match risk_level with
    | HIGH =>
        let alert :=
          mkAlert user_id risk_level message timestamp false None None in
        mkDB (chat_logs db) (risk_scores db) (alerts db ++ [alert])
    | _ => db
    end in
  (mkChatResponse user_id message ai_response (Some emotion)
     (Some emotion_confidence) (Some sentiment_score)
     (Some sentiment_polarity) (Some (level_name risk_level))
     (Some risk_score) timestamp,
   g, db).

End ChatApi.

(* ================================================================== *)
(** * The score of the risk detector in integers *)
(* ================================================================== *)

(** Every value [base_score] takes is an integer.  The functions below
  name the three contributions to it; they are related to [detect_risk]
  by the lemmas of the section that follows, and the theorems about the
  score are then integer arithmetic. *)
Module Points.
Import PyNum Regex RiskDetector.

(** The accumulator after the three scans of the text. *)
Definition after_scans (text_lower : string) : Acc :=
  low_scan text_lower LOW_RISK_PATTERNS
    (fold_left (medium_step text_lower) MEDIUM_RISK_PATTERNS
       (fold_left (high_step text_lower) HIGH_RISK_KEYWORDS (mkAcc 0 []))).

Definition has_high (text_lower : string) : bool :=
  PyStr.any_in HIGH_RISK_KEYWORDS text_lower.

Definition has_medium (text_lower : string) : bool :=
  existsb (fun p => search p text_lower) MEDIUM_RISK_PATTERNS.

Definition has_low (text_lower : string) : bool :=
  existsb (fun p => search p text_lower) LOW_RISK_PATTERNS.

Definition scan_points (text_lower : string) : Z :=
  if has_high text_lower then 85
  else if has_medium text_lower then 55
  else if has_low text_lower then 25
  else 0.

Definition emotion_points (emotion : option string) : Z :=
  match emotion with
  | Some e =>
      if PyStr.truthy e
      then dict_get emotion_adjustments (PyStr.lower e) 0%Z else 0
  | None => 0
  end.

Definition sentiment_points (sentiment : option Q) : Z :=
  match sentiment with
  | Some s =>
      if Qltb s (- (6 # 10)) then 10
      else if Qltb s (- (3 # 10)) then 5 else 0
  | None => 0
  end.

Definition points (text_lower : string) (emotion : option string)
    (sentiment : option Q) : Z :=
  scan_points text_lower + emotion_points emotion + sentiment_points sentiment.

Definition clamp (z : Z) : Z := Z.max 0 (Z.min 100 z).

(** The accumulator [detect_risk] ends with. *)
Definition final_acc (text : string) (emotion : option string)
    (sentiment : option Q) : Acc :=
  adjust_sentiment sentiment
    (adjust_emotion emotion (after_scans (PyStr.lower text))).

End Points.

(* ================================================================== *)
(** * The trend scenario in the words of the specification, sample data *)
(* ================================================================== *)

Module Scenario.
Import PyNum PyFloat RiskDetector RiskApi.

Definition average (l : list Q) : Q :=
  py_sum l / inject_Z (Z.of_nat (List.length l)).

(** The average of the five most recent scores ([scores] is most recent
    first). *)
Definition recent_average (scores : list RiskScore) : Q :=
  average (map score (firstn 5 scores)).

(** The average of the scores before those five. *)
Definition prior_average (scores : list RiskScore) : Q :=
  average (map score (skipn 5 scores)).

(** The scores are whole numbers, as the risk detector and the
    orchestrator store them. *)
Definition whole_scores (scores : list RiskScore) : Prop :=
  Forall (fun s => exists z : Z, score s = inject_Z z) scores.

(** A summation adds up to five whole numbers between 0 and 100 without
    an error: every partial sum is a double, so this holds of the
    built-in [sum] whatever its rounding is. *)
Definition exact_on_scores (sum : list Q -> Q) : Prop :=
  forall zs : list Z,
    (List.length zs <= 5)%nat ->
    Forall (fun z => (0 <= z <= 100)%Z) zs ->
    sum (map inject_Z zs) = inject_Z (fold_left Z.add zs 0%Z).

(** A history that rose from 5 to 20 points ... *)
Definition rising_cursor : list RiskDoc :=
  [ mkRiskDoc "u1" "LOW" 20 7 None; mkRiskDoc "u1" "LOW" 20 6 None;
    mkRiskDoc "u1" "LOW" 20 5 None; mkRiskDoc "u1" "LOW" 20 4 None;
    mkRiskDoc "u1" "LOW" 20 3 None; mkRiskDoc "u1" "LOW" 5 2 None;
    mkRiskDoc "u1" "LOW" 5 1 None ].

Definition rising_scores : list RiskScore :=
  [ mkRiskScore "u1" LOW 20 7 None; mkRiskScore "u1" LOW 20 6 None;
    mkRiskScore "u1" LOW 20 5 None; mkRiskScore "u1" LOW 20 4 None;
    mkRiskScore "u1" LOW 20 3 None; mkRiskScore "u1" LOW 5 2 None;
    mkRiskScore "u1" LOW 5 1 None ].

(** ... and one of two entries. *)
Definition short_cursor : list RiskDoc :=
  [ mkRiskDoc "u1" "HIGH" 90 2 None; mkRiskDoc "u1" "MEDIUM" 40 1 None ].

Definition short_scores : list RiskScore :=
  [ mkRiskScore "u1" HIGH 90 2 None;
    mkRiskScore "u1" MEDIUM 40 1 None ].

(** A history whose recent average (10) is exactly 5 above the prior
    one (5). *)
Definition boundary_cursor : list RiskDoc :=
  [ mkRiskDoc "u1" "LOW" 10 7 None; mkRiskDoc "u1" "LOW" 10 6 None;
    mkRiskDoc "u1" "LOW" 10 5 None; mkRiskDoc "u1" "LOW" 10 4 None;
    mkRiskDoc "u1" "LOW" 10 3 None; mkRiskDoc "u1" "LOW" 5 2 None;
    mkRiskDoc "u1" "LOW" 5 1 None ].

Definition boundary_scores : list RiskScore :=
  [ mkRiskScore "u1" LOW 10 7 None; mkRiskScore "u1" LOW 10 6 None;
    mkRiskScore "u1" LOW 10 5 None; mkRiskScore "u1" LOW 10 4 None;
    mkRiskScore "u1" LOW 10 3 None; mkRiskScore "u1" LOW 5 2 None;
    mkRiskScore "u1" LOW 5 1 None ].

(** A history whose most recent score is the double next to 5, which is
    [5 + 2 ^ -50], after four scores of 5 and two of 0. *)
Definition next_to_five : Q := 5629499534213121 # 1125899906842624.

Definition rounded_cursor : list RiskDoc :=
  [ mkRiskDoc "u1" "LOW" next_to_five 7 None; mkRiskDoc "u1" "LOW" 5 6 None;
    mkRiskDoc "u1" "LOW" 5 5 None; mkRiskDoc "u1" "LOW" 5 4 None;
    mkRiskDoc "u1" "LOW" 5 3 None; mkRiskDoc "u1" "LOW" 0 2 None;
    mkRiskDoc "u1" "LOW" 0 1 None ].

Definition rounded_scores : list RiskScore :=
  [ mkRiskScore "u1" LOW next_to_five 7 None; mkRiskScore "u1" LOW 5 6 None;
    mkRiskScore "u1" LOW 5 5 None; mkRiskScore "u1" LOW 5 4 None;
    mkRiskScore "u1" LOW 5 3 None; mkRiskScore "u1" LOW 0 2 None;
    mkRiskScore "u1" LOW 0 1 None ].

(** Ten whole scores whose recent average (12 / 5) is exactly 5 below the
    older one (37 / 5). *)
Definition ten_scores : list RiskScore :=
  [ mkRiskScore "u1" LOW 12 10 None; mkRiskScore "u1" LOW 0 9 None;
    mkRiskScore "u1" LOW 0 8 None; mkRiskScore "u1" LOW 0 7 None;
    mkRiskScore "u1" LOW 0 6 None; mkRiskScore "u1" LOW 37 5 None;
    mkRiskScore "u1" LOW 0 4 None; mkRiskScore "u1" LOW 0 3 None;
    mkRiskScore "u1" LOW 0 2 None; mkRiskScore "u1" LOW 0 1 None ].

(** A process without models and without an API key: every service is on
    its deterministic path. *)
Definition offline : ChatApi.Env :=
  ChatApi.mkEnv Raised Raised "" (fun _ => Raised).

(** The globals of a process that has not served a request yet. *)
Definition fresh : ChatApi.Globals := ChatApi.mkGlobals None None None.

Definition empty_db : ChatApi.DB := ChatApi.mkDB [] [] [].

End Scenario.

(* ================================================================== *)
(** * Notions that relate the services to each other *)
(* ================================================================== *)

Module Links.
Import PyNum RiskDetector.

(** The labels [_fallback_classify] can answer. *)
Definition emotion_labels : list string :=
  [ "joy"; "sadness"; "anger"; "fear"; "surprise"; "disgust"; "neutral" ].

(** The intensities of [get_sentiment_intensity], weakest first. *)
Definition intensity_rank (intensity : string) : nat :=
  if String.eqb intensity "very_strong" then 4
  else if String.eqb intensity "strong" then 3
  else if String.eqb intensity "moderate" then 2
  else if String.eqb intensity "mild" then 1
  else 0.

(** The document of the [risk_scores] collection that holds [risk_entry],
    as a later query yields it: the level is stored by its name. *)
Definition stored_doc (e : ChatApi.RiskEntry) : RiskApi.RiskDoc :=
  RiskApi.mkRiskDoc (ChatApi.re_user_id e) (level_name (ChatApi.re_level e))
    (ChatApi.re_score e) (ChatApi.re_timestamp e)
    (Some (ChatApi.re_factors e)).

(** The crisis message of the template bank. *)
Definition crisis_reply : string :=
  LlmCompanion._generate_mock_response "" None (Some "HIGH"%string).

End Links.

(* ================================================================== *)
(** * backend/app/api/risk.py: the weekly analysis *)
(* ================================================================== *)

Module RiskAnalysisApi.
Import PyNum PyFloat RiskDetector.

(** A document of [mood_logs], as far as the analysis reads it. *)
Record MoodDoc : Type := mkMoodDoc { mood_score : Z; stress_score : Z }.

(** A document of [chat_logs], as far as the analysis reads it. *)
Record ChatDoc : Type := mkChatDoc { chat_emotion : option string }.

(** [models.risk.RiskAnalysis] *)
Record RiskAnalysis : Type := mkRiskAnalysis
  { user_id : string; overall_risk : RiskLevel; risk_score : Q;
    emotion_factor : Q; sentiment_factor : Q; keyword_factor : Q;
    trend_factor : Q; recommendations : list string }.

Definition negative_emotions : list string :=
  [ "sadness"; "fear"; "anger"; "disgust" ].

(** [x in l] for a string and a list of strings. *)
Definition mem (x : string) (l : list string) : bool :=
  existsb (String.eqb x) l.

(** [max(l)] for a list that is not empty: the first of the greatest. *)
Definition max_of (first : Q) (rest : list Q) : Q :=
  fold_left py_max rest first.

(** [sum(...)] over integers. *)
Definition sum_Z (l : list Z) : Z := fold_left Z.add l 0%Z.

(** The body of [get_risk_analysis]; the three cursors hold the documents
    of the user within the last week.  The literals [0.2], [0.4] and [0.6]
    are the doubles nearest to them; [1.5] and the integers are doubles.
    (The source also computes [avg_risk_score] and does not use it.) *)
Definition get_risk_analysis (user_id : string) (risks : list RiskApi.RiskDoc)
    (moods : list MoodDoc) (chats : list ChatDoc) : RiskAnalysis :=
  let total_mood := sum_Z (map mood_score moods) in
  let total_stress := sum_Z (map stress_score moods) in
  let mood_count := Z.of_nat (List.length moods) in
  let avg_mood :=
    if (mood_count =? 0)%Z then 5
    else fdiv (inject_Z total_mood) (inject_Z mood_count) in
  let avg_stress :=
    if (mood_count =? 0)%Z then 5
    else fdiv (inject_Z total_stress) (inject_Z mood_count) in
  let total_emotions := Z.of_nat (List.length chats) in
  let negative_count :=
    Z.of_nat (List.length
                (filter (fun chat =>
                           match chat_emotion chat with
                           | Some e => mem e negative_emotions
                           | None => false
                           end) chats)) in
  let negative_ratio :=
    if (total_emotions =? 0)%Z then 0
    else fdiv (inject_Z negative_count) (inject_Z total_emotions) in
  let emotion_factor :=
    py_min 100 (fmul (fmul negative_ratio 100) (15 # 10)) in
  let sentiment_factor := py_min 100 (fmul avg_stress 10) in
  let keyword_factor :=
    match map RiskApi.doc_score risks with
    | [] => 0
    | first :: rest => max_of first rest
    end in
  let trend_factor := 50 in
  let overall_score :=
    fadd (fadd (fadd (fmul emotion_factor (fl (2 # 10)))
                     (fmul sentiment_factor (fl (2 # 10))))
               (fmul keyword_factor (fl (4 # 10))))
         (fmul (fsub 100 (fmul avg_mood 10)) (fl (2 # 10))) in
  let overall_risk :=
    if Qle_bool 70 overall_score then HIGH
    else if Qle_bool 40 overall_score then MEDIUM
    else LOW in
  let recommendations :=
    (match overall_risk with
     | HIGH => [ "Immediate professional review recommended";
                 "Consider reaching out to the user directly" ]
     | _ => []
     end)
    ++ (if Qltb 7 avg_stress
        then [ "High stress levels detected - suggest stress management resources" ]
        else [])
    ++ (if Qltb (fl (6 # 10)) negative_ratio
        then [ "Frequent negative emotions - consider mood intervention" ]
        else []) in
  let recommendations :=
    match recommendations with
    | [] => [ "Continue monitoring - no immediate concerns" ]
    | _ => recommendations
    end in
  mkRiskAnalysis user_id overall_risk (round_float overall_score 1)
    (round_float emotion_factor 1) (round_float sentiment_factor 1)
    (round_float keyword_factor 1) (round_float trend_factor 1)
    recommendations.

(** A week of the examples: two mood entries and three messages. *)
Definition sample_moods : list MoodDoc :=
  [ mkMoodDoc 3 8; mkMoodDoc 4 9 ].

Definition sample_chats : list ChatDoc :=
  [ mkChatDoc (Some "sadness"%string); mkChatDoc (Some "joy"%string);
    mkChatDoc (Some "fear"%string) ].

(** A week whose weighted sum is 40 on paper: one risk score of 35, three
    mood entries and two negative messages out of five. *)
Definition forty_risks : list RiskApi.RiskDoc :=
  [ RiskApi.mkRiskDoc "u1" "LOW" 35 1 None ].

Definition forty_moods : list MoodDoc :=
  [ mkMoodDoc 8 6; mkMoodDoc 6 4; mkMoodDoc 6 1 ].

Definition forty_chats : list ChatDoc :=
  [ mkChatDoc (Some "anger"%string); mkChatDoc (Some "surprise"%string);
    mkChatDoc (Some "anger"%string); mkChatDoc (Some "joy"%string);
    mkChatDoc (Some "joy"%string) ].

Definition sample_risks : list RiskApi.RiskDoc :=
  [ RiskApi.mkRiskDoc "u1" "MEDIUM" 55 3 None;
    RiskApi.mkRiskDoc "u1" "HIGH" 85 2 None;
    RiskApi.mkRiskDoc "u1" "LOW" 25 1 None ].

End RiskAnalysisApi.

(* ================================================================== *)
(** * backend/app/api/chat.py: the conversation history *)
(* ================================================================== *)

Module ChatHistoryApi.
Import PyNum ChatApi.

(** [models.chat.ConversationHistory] *)
Record ConversationHistory : Type := mkHistory
  { user_id : string; messages : list ChatLogInDB; total_count : nat }.

(** The constructor call [ChatLogInDB(...)]: the model validates the role
    literal and raises otherwise. *)
Definition make_ChatLogInDB (doc : ChatLogInDB) : Outcome ChatLogInDB :=
  if String.eqb (log_role doc) "user" || String.eqb (log_role doc) "ai"
  then Returned doc else Raised.

(** The [async for] loop that fills [messages]. *)
Fixpoint collect (cursor : list ChatLogInDB) : Outcome (list ChatLogInDB) :=
  match cursor with
  | [] => Returned []
  | doc :: rest =>
      match make_ChatLogInDB doc with
      | Raised => Raised
      | Returned m =>
          match collect rest with
          | Raised => Raised
          | Returned l => Returned (m :: l)
          end
      end
  end.

(** [get_chat_history]: [cursor] holds the documents of the user, latest
    first and cut at [limit], as the query returns them. *)
Definition get_chat_history (user_id : string) (cursor : list ChatLogInDB)
    : Outcome ConversationHistory :=
  match collect cursor with
  | Raised => Raised
  | Returned messages =>
      let messages := rev messages in
      Returned (mkHistory user_id messages (List.length messages))
  end.

(** A cursor of the examples: a reply and the message before it. *)
Definition sample_cursor : list ChatLogInDB :=
  [ mkChatLog "u1" "I hear you." "ai" 12 None None None None;
    mkChatLog "u1" "hello" "user" 11 (Some "neutral"%string) (Some (5 # 10))
      (Some 0) (Some "neutral"%string) ].

End ChatHistoryApi.

(* ================================================================== *)
(** * backend/app/api/alerts.py: reading, resolving and reopening *)
(* ================================================================== *)

Module AlertsApi.
Import PyNum RiskDetector.

(** A document of the [alerts] collection: what [send_message] inserted
    and the [_id] the data base gave it; an object id is kept as the
    string [str(_id)]. *)
Record AlertDoc : Type := mkAlertDoc
  { _id : string; fields : ChatApi.AlertInDB }.

(** The answer of an endpoint: a value, or an [HTTPException]. *)
Inductive Http (A : Type) : Type :=
| Ok : A -> Http A
| HttpError : Z -> string -> Http A.
Arguments Ok {A} _.
Arguments HttpError {A} _ _.

(** The constructor [bson.ObjectId] applied to a string: the object id,
    or [InvalidId].  It belongs to a library outside the repository and is
    an argument of the endpoints below. *)
Definition Parser : Type := string -> Outcome string.

(** [alerts.find_one({"_id": oid})] *)
Fixpoint find_one (oid : string) (alerts : list AlertDoc) : option AlertDoc :=
  match alerts with
  | [] => None
  | doc :: rest =>
      if String.eqb (_id doc) oid then Some doc else find_one oid rest
  end.

(** [alerts.update_one({"_id": oid}, {"$set": ...})]: the first document
    with that [_id] is changed; the result is the matched count and the
    collection. *)
Fixpoint update_one (oid : string)
    (set : ChatApi.AlertInDB -> ChatApi.AlertInDB) (alerts : list AlertDoc)
    : nat * list AlertDoc :=
  match alerts with
  | [] => (0%nat, [])
  | doc :: rest =>
      if String.eqb (_id doc) oid
      then (1%nat, mkAlertDoc (_id doc) (set (fields doc)) :: rest)
      else let (matched_count, rest') := update_one oid set rest in
           (matched_count, doc :: rest')
  end.

(** [get_alert] *)
Definition get_alert (ObjectId : Parser) (alert_id : string)
    (alerts : list AlertDoc) : Http AlertDoc :=
  match ObjectId alert_id with
  | Raised => HttpError 400 "Invalid alert ID"
  | Returned oid =>
      match find_one oid alerts with
      | None => HttpError 404 "Alert not found"
      | Some alert => Ok alert
      end
  end.

(** The dict [resolve_alert] returns. *)
Record Resolved : Type := mkResolved
  { message : string; alert_id : string; resolved_at : Z }.

(** [{"$set": {"resolved": True, "resolved_at": now, "notes": notes}}] *)
Definition set_resolved (now : Z) (notes : option string)
    (a : ChatApi.AlertInDB) : ChatApi.AlertInDB :=
  ChatApi.mkAlert (ChatApi.alert_user_id a) (ChatApi.risk_level a)
    (ChatApi.trigger_message a) (ChatApi.created_at a)
    true (Some now) notes.

(** [{"$set": {"resolved": False, "resolved_at": None}}] *)
Definition set_unresolved (a : ChatApi.AlertInDB) : ChatApi.AlertInDB :=
  ChatApi.mkAlert (ChatApi.alert_user_id a) (ChatApi.risk_level a)
    (ChatApi.trigger_message a) (ChatApi.created_at a)
    false None (ChatApi.notes a).

(** [resolve_alert]; [now1] and [now2] are the two readings of the clock,
    [notes] is [resolve_data.notes]. *)
Definition resolve_alert (ObjectId : Parser) (now1 now2 : Z)
    (alert_id : string) (notes : option string) (alerts : list AlertDoc)
    : Http Resolved * list AlertDoc :=
  match ObjectId alert_id with
  | Raised => (HttpError 400 "Invalid alert ID", alerts)
  | Returned oid =>
      let (matched_count, alerts') :=
        update_one oid (set_resolved now1 notes) alerts in
      if (matched_count =? 0)%nat
      then (HttpError 404 "Alert not found", alerts')
      else (Ok (mkResolved "Alert resolved" alert_id now2), alerts')
  end.

(** [unresolve_alert]; the dict it returns holds the message and the id. *)
Definition unresolve_alert (ObjectId : Parser) (alert_id : string)
    (alerts : list AlertDoc) : Http (string * string) * list AlertDoc :=
  match ObjectId alert_id with
  | Raised => (HttpError 400 "Invalid alert ID", alerts)
  | Returned oid =>
      let (matched_count, alerts') := update_one oid set_unresolved alerts in
      if (matched_count =? 0)%nat
      then (HttpError 404 "Alert not found", alerts')
      else (Ok ("Alert reopened"%string, alert_id), alerts')
  end.

(** A parser for the examples: 24 hexadecimal digits, read in lower
    case. *)
Definition is_hex (c : ascii) : bool :=
  let n := nat_of_ascii c in
  (((48 <=? n) && (n <=? 57)) || ((65 <=? n) && (n <=? 70))
   || ((97 <=? n) && (n <=? 102)))%nat.

Fixpoint all_hex (s : string) : bool :=
  match s with
  | EmptyString => true
  | String c s' => is_hex c && all_hex s'
  end.

Definition hex24 : Parser :=
  fun alert_id =>
    if (String.length alert_id =? 24)%nat && all_hex alert_id
    then Returned (PyStr.lower alert_id) else Raised.

(** Two alerts of the examples. *)
Definition sample_alerts : list AlertDoc :=
  [ mkAlertDoc "65a1b2c3d4e5f60718293a4b"
      (ChatApi.mkAlert "u1" HIGH "I want to die" 10 false None None);
    mkAlertDoc "65a1b2c3d4e5f60718293a4c"
      (ChatApi.mkAlert "u2" HIGH "end it all" 20 false None None) ].

End AlertsApi.

(* ================================================================== *)
(** * Facts about strings *)
(* ================================================================== *)

Section StringFacts.
Import PyStr.
Local Open Scope string_scope.

Lemma append_empty_r (s : string) : s ++ "" = s.
Proof. induction s as [|c s IH]; simpl; [reflexivity | now rewrite IH]. Qed.

Lemma append_assoc (a b c : string) : (a ++ b) ++ c = a ++ (b ++ c).
Proof. induction a as [|x a IH]; simpl; [reflexivity | now rewrite IH]. Qed.

Lemma starts_with_spec (p s : string) :
  starts_with p s = true <-> exists b, s = p ++ b.
Proof.
  revert s; induction p as [|a p IH]; intros s; simpl.
  - split; [intros _; now exists s | reflexivity].
  - destruct s as [|b s].
    + split; [discriminate | intros [t H]; discriminate].
    + rewrite andb_true_iff, Ascii.eqb_eq, IH. split.
      * intros [-> [t ->]]. now exists t.
      * intros [t H]. injection H as -> ->. split; [reflexivity | now exists t].
Qed.

(** [k in s] holds exactly when [s] is [a ++ k ++ b] for some [a], [b]. *)
Lemma contains_spec (k s : string) :
  contains k s = true <-> exists a b, s = a ++ k ++ b.
Proof.
  induction s as [|c s IH]; simpl.
  - rewrite orb_false_r, starts_with_spec. split.
    + intros [b H]. now exists "", b.
    + intros [a [b H]]. destruct a; simpl in H.
      * now exists b.
      * discriminate.
  - rewrite orb_true_iff, starts_with_spec, IH. split.
    + intros [[b H] | [a [b H]]].
      * now exists "", b.
      * exists (String c a), b. simpl. now rewrite H.
    + intros [a [b H]]. destruct a as [|x a]; simpl in H.
      * left. now exists b.
      * right. injection H as _ H. now exists a, b.
Qed.

Lemma contains_trans (k p s : string) :
  contains k p = true -> contains p s = true -> contains k s = true.
Proof.
  rewrite !contains_spec. intros [a [b ->]] [a' [b' ->]].
  exists (a' ++ a), (b ++ b'). now rewrite !append_assoc.
Qed.

Lemma all_space_app (a b : string) :
  all_space (a ++ b) = all_space a && all_space b.
Proof.
  induction a as [|c a IH]; simpl; [reflexivity |].
  now rewrite IH, andb_assoc.
Qed.

(** A run inside a blank string is blank. *)
Lemma all_space_contains (k s : string) :
  all_space s = true -> contains k s = true -> all_space k = true.
Proof.
  intros Hs Hk. apply contains_spec in Hk as [a [b ->]].
  rewrite !all_space_app, !andb_true_iff in Hs. tauto.
Qed.

Lemma any_in_blank (ks : list string) (s : string) :
  all_space s = true ->
  forallb (fun k => negb (all_space k)) ks = true ->
  any_in ks s = false.
Proof.
  intros Hs Hks. unfold any_in.
  destruct (existsb _ ks) eqn:E; [| reflexivity].
  apply existsb_exists in E as [k [Hin Hk]].
  rewrite forallb_forall in Hks. specialize (Hks k Hin).
  now rewrite (all_space_contains k s Hs Hk) in Hks.
Qed.

Lemma is_space_lower_char (c : ascii) :
  is_space c = true -> lower_char c = c.
Proof.
  destruct c as [[] [] [] [] [] [] [] []]; vm_compute; congruence.
Qed.

Lemma lower_blank (s : string) : all_space s = true -> lower s = s.
Proof.
  induction s as [|c s IH]; simpl; [reflexivity |].
  rewrite andb_true_iff. intros [Hc Hs].
  now rewrite (is_space_lower_char c Hc), IH.
Qed.

Lemma lstrip_blank (s : string) : all_space s = true -> lstrip s = "".
Proof.
  induction s as [|c s IH]; simpl; [reflexivity |].
  rewrite andb_true_iff. intros [-> Hs]. now apply IH.
Qed.

Lemma strip_blank (s : string) : all_space s = true -> strip s = "".
Proof. intros H. unfold strip. now rewrite lstrip_blank. Qed.

Lemma rstrip_empty (s : string) : rstrip s = "" -> all_space s = true.
Proof.
  induction s as [|c s IH]; simpl; [reflexivity |].
  destruct (rstrip s); [| discriminate].
  destruct (is_space c); [| discriminate].
  intros _. now apply IH.
Qed.

Lemma lstrip_all_space (s : string) :
  all_space (lstrip s) = all_space s.
Proof.
  induction s as [|c s IH]; simpl; [reflexivity |].
  destruct (is_space c) eqn:E; simpl; [exact IH | now rewrite E].
Qed.

(** [s.strip()] is empty exactly when [s] is blank. *)
Lemma strip_empty_iff (s : string) : strip s = "" <-> all_space s = true.
Proof.
  split; [| apply strip_blank].
  intros H. apply rstrip_empty in H. now rewrite lstrip_all_space in H.
Qed.

End StringFacts.

(* ================================================================== *)
(** * The matcher finds exactly the matches *)
(* ================================================================== *)

Section RegexFacts.
Import PyStr Regex.
Local Open Scope string_scope.

Lemma append_is_empty (a b : string) : a ++ b = "" -> a = "" /\ b = "".
Proof. destruct a; simpl; [auto | discriminate]. Qed.

Lemma matches_empty_nullable (r : regex) (s : string) :
  matches r s -> s = "" -> nullable r = true.
Proof.
  induction 1 as [ | | | r1 r2 s1 s2 _ IH1 _ IH2 | r1 r2 s _ IH
                   | r1 r2 s _ IH | | ]; intros E; simpl; try discriminate;
    try reflexivity.
  - apply append_is_empty in E as [-> ->]. now rewrite IH1, IH2.
  - now rewrite IH.
  - rewrite IH by assumption. apply orb_true_r.
Qed.

Lemma nullable_spec (r : regex) : nullable r = true <-> matches r "".
Proof.
  split; [| intros H; now apply (matches_empty_nullable r "")].
  induction r as [ | | c | | r1 IH1 r2 IH2 | r1 IH1 r2 IH2 | r IH ]; simpl;
    try discriminate.
  - constructor.
  - rewrite andb_true_iff. intros [H1 H2].
    change "" with ("" ++ ""). constructor; auto.
  - rewrite orb_true_iff. intros [H | H].
    + apply MAltL; auto.
    + apply MAltR; auto.
  - constructor.
Qed.

(** Reading one character: from the derivative back to the pattern. *)
Lemma deriv_sound (c : ascii) (r : regex) :
  forall s, matches (deriv c r) s -> matches r (String c s).
Proof.
  induction r as [ | | a | | r1 IH1 r2 IH2 | r1 IH1 r2 IH2 | r IH ];
    simpl; intros s H.
  - inversion H.
  - inversion H.
  - destruct (Ascii.eqb a c) eqn:E; [| inversion H].
    apply Ascii.eqb_eq in E as ->. inversion H; subst. constructor.
  - destruct (is_space c) eqn:E; [| inversion H].
    inversion H; subst. now constructor.
  - assert (forall t, matches (Cat (deriv c r1) r2) t ->
                      matches (Cat r1 r2) (String c t)) as HC.
    { intros t Ht. inversion Ht as [ | | | ? ? s1 s2 Ha Hb | | | | ]; subst.
      change (String c (s1 ++ s2)) with (String c s1 ++ s2).
      constructor; auto. }
    destruct (nullable r1) eqn:N; [| now apply HC].
    inversion H; subst; [now apply HC |].
    change (String c s) with ("" ++ String c s).
    constructor; [now apply nullable_spec | auto].
  - inversion H; subst; [apply MAltL | apply MAltR]; auto.
  - inversion H as [ | | | ? ? s1 s2 Ha Hb | | | | ]; subst.
    change (String c (s1 ++ s2)) with (String c s1 ++ s2).
    apply MStarS; auto.
Qed.

(** Reading one character: from the pattern to the derivative. *)
Lemma deriv_complete (r : regex) (w : string) :
  matches r w -> forall c s, w = String c s -> matches (deriv c r) s.
Proof.
  induction 1 as [ | a | a Ha | r1 r2 s1 s2 H1 IH1 H2 IH2 | r1 r2 s0 H1 IH
                   | r1 r2 s0 H1 IH | r0 | r0 s1 s2 H1 IH1 H2 IH2 ];
    intros c s E; simpl.
  - discriminate.
  - injection E as -> <-. rewrite Ascii.eqb_refl. constructor.
  - injection E as -> <-. rewrite Ha. constructor.
  - destruct s1 as [|x s1]; simpl in E.
    + assert (nullable r1 = true) as -> by now apply nullable_spec.
      apply MAltR. now apply IH2.
    + injection E as -> <-.
      assert (matches (Cat (deriv c r1) r2) (s1 ++ s2)) as HC
          by (constructor; [now apply IH1 | assumption]).
      destruct (nullable r1); [now apply MAltL | assumption].
  - apply MAltL. now apply IH.
  - apply MAltR. now apply IH.
  - discriminate.
  - destruct s1 as [|x s1]; simpl in E.
    + now apply IH2.
    + injection E as -> <-. constructor; [now apply IH1 | assumption].
Qed.

(** [match_at] accepts exactly the strings with a matching prefix. *)
Lemma match_at_spec (s : string) :
  forall r, match_at s r = true <-> exists m b, s = m ++ b /\ matches r m.
Proof.
  induction s as [|c s IH]; intros r; simpl.
  - rewrite orb_false_r, nullable_spec. split.
    + intros H. now exists "", "".
    + intros [m [b [E H]]]. symmetry in E.
      apply append_is_empty in E as [-> _]. assumption.
  - rewrite orb_true_iff, nullable_spec, IH. split.
    + intros [H | [m [b [-> H]]]].
      * now exists "", (String c s).
      * exists (String c m), b. split; [reflexivity | now apply deriv_sound].
    + intros [m [b [E H]]]. destruct m as [|x m]; simpl in E.
      * now left.
      * injection E as <- ->. right. exists m, b.
        split; [reflexivity | now apply (deriv_complete r (String c m))].
Qed.

(** [search] accepts exactly the strings that contain a match. *)
Theorem search_spec (r : regex) (s : string) :
  search r s = true <-> exists a m b, s = a ++ m ++ b /\ matches r m.
Proof.
  induction s as [|c s IH]; cbn [search].
  - rewrite orb_false_r, match_at_spec. split.
    + intros [m [b [E H]]]. now exists "", m, b.
    + intros [a [m [b [E H]]]]. destruct a; simpl in E; [| discriminate].
      now exists m, b.
  - rewrite orb_true_iff, match_at_spec, IH. split.
    + intros [[m [b [E H]]] | [a [m [b [E H]]]]].
      * now exists "", m, b.
      * exists (String c a), m, b. simpl. now rewrite E.
    + intros [a [m [b [E H]]]]. destruct a as [|x a]; simpl in E.
      * left. now exists m, b.
      * injection E as _ E. right. now exists a, m, b.
Qed.

Lemma solid_matches (r : regex) (m : string) :
  matches r m -> solid r = true -> all_space m = false.
Proof.
  induction 1 as [ | a | a Ha | r1 r2 s1 s2 H1 IH1 H2 IH2 | r1 r2 s0 H1 IH
                   | r1 r2 s0 H1 IH | r0 | r0 s1 s2 H1 IH1 H2 IH2 ];
    simpl; intros S; try discriminate.
  - now rewrite (proj1 (negb_true_iff _) S).
  - rewrite all_space_app. apply orb_true_iff in S as [S | S].
    + now rewrite IH1.
    + rewrite IH2 by assumption. apply andb_false_r.
  - apply andb_true_iff in S as [S _]. auto.
  - apply andb_true_iff in S as [_ S]. auto.
Qed.

(** No solid pattern is found in a blank text. *)
Lemma search_blank (r : regex) (s : string) :
  all_space s = true -> solid r = true -> search r s = false.
Proof.
  intros Hs Hr. destruct (search r s) eqn:E; [| reflexivity].
  apply search_spec in E as [a [m [b [-> H]]]].
  rewrite !all_space_app, (solid_matches r m H Hr) in Hs.
  now rewrite andb_false_r in Hs.
Qed.

End RegexFacts.

(* ================================================================== *)
(** * Facts about numbers *)
(* ================================================================== *)

Section NumberFacts.
Import PyNum.
Local Open Scope Q_scope.

Lemma Qle_bool_inject (a b : Z) :
  Qle_bool (inject_Z a) (inject_Z b) = (a <=? b)%Z.
Proof. unfold Qle_bool, inject_Z; simpl. now rewrite !Z.mul_1_r. Qed.

Lemma Qltb_inject (a b : Z) : Qltb (inject_Z a) (inject_Z b) = (a <? b)%Z.
Proof. unfold Qltb. rewrite Qle_bool_inject. symmetry. apply Z.ltb_antisym. Qed.

Lemma Qplus_inject (a b : Z) : inject_Z a + inject_Z b = inject_Z (a + b).
Proof. unfold Qplus, inject_Z; simpl. now rewrite !Z.mul_1_r. Qed.

Lemma py_max_inject (a b : Z) :
  py_max (inject_Z a) (inject_Z b) = inject_Z (Z.max a b).
Proof.
  unfold py_max. rewrite Qltb_inject.
  destruct (Z.ltb_spec a b); f_equal; lia.
Qed.

Lemma py_min_inject (a b : Z) :
  py_min (inject_Z a) (inject_Z b) = inject_Z (Z.min a b).
Proof.
  unfold py_min. rewrite Qltb_inject.
  destruct (Z.ltb_spec b a); f_equal; lia.
Qed.

Lemma round_half_even_inject (z : Z) : round_half_even (inject_Z z) = z.
Proof.
  unfold round_half_even. rewrite Qfloor_Z.
  assert ((inject_Z z - inject_Z z ?= 1 # 2) = Lt) as ->; [| reflexivity].
  rewrite <- Qlt_alt. lra.
Qed.

Lemma Qred_inject (z : Z) : Qred (inject_Z z) = inject_Z z.
Proof. apply Qcanon.Qred_identity. simpl. apply Z.gcd_1_r. Qed.

(** Rounding leaves an integer as it is. *)
Lemma py_round_inject (z : Z) (n : nat) : py_round (inject_Z z) n = inject_Z z.
Proof.
  unfold py_round.
  assert (0 < 10 ^ Z.of_nat n)%Z as Hp by (apply Z.pow_pos_nonneg; lia).
  assert (inject_Z z * inject_Z (10 ^ Z.of_nat n)
          = inject_Z (z * 10 ^ Z.of_nat n)) as ->
      by (unfold Qmult, inject_Z; reflexivity).
  rewrite round_half_even_inject.
  transitivity (Qred (inject_Z z)); [| apply Qred_inject].
  apply Qred_complete. rewrite inject_Z_mult. field.
  intros H. rewrite Zlt_Qlt in Hp. rewrite H in Hp.
  now apply (Qlt_irrefl 0).
Qed.

Lemma round_half_even_bounds (x : Q) :
  (Qfloor x <= round_half_even x <= Qfloor x + 1)%Z.
Proof.
  unfold round_half_even.
  destruct (x - inject_Z (Qfloor x) ?= 1 # 2); [destruct (Z.even _) | |]; lia.
Qed.

(** Rounding to an integer keeps the order. *)
Lemma round_half_even_mono (x y : Q) :
  x <= y -> (round_half_even x <= round_half_even y)%Z.
Proof.
  intros H. pose proof (Qfloor_resp_le x y H) as F.
  pose proof (round_half_even_bounds x) as Bx.
  pose proof (round_half_even_bounds y) as By.
  destruct (Z.eq_dec (Qfloor x) (Qfloor y)) as [E | E]; [| lia].
  unfold round_half_even. rewrite <- E.
  destruct (x - inject_Z (Qfloor x) ?= 1 # 2) eqn:Cx;
    destruct (y - inject_Z (Qfloor x) ?= 1 # 2) eqn:Cy;
    try (destruct (Z.even (Qfloor x))); try lia;
    try rewrite <- Qeq_alt in *; try rewrite <- Qlt_alt in *;
    try rewrite <- Qgt_alt in *; lra.
Qed.

End NumberFacts.

(* ================================================================== *)
(** * Rounding to the nearest double *)
(* ================================================================== *)

Section FloatFacts.
Import PyNum PyFloat.
Local Open Scope Q_scope.

Lemma round_half_even_comp (x y : Q) :
  x == y -> round_half_even x = round_half_even y.
Proof.
  intros E. apply Z.le_antisymm; apply round_half_even_mono; rewrite E; apply Qle_refl.
Qed.

Lemma pow2_pos (e : Z) : 0 < 2 ^ e.
Proof. apply Qpower_0_lt. reflexivity. Qed.

Lemma pow2_add (a b : Z) : 2 ^ (a + b) == 2 ^ a * 2 ^ b.
Proof. apply Qpower_plus. discriminate. Qed.

Lemma pow2_le (a b : Z) : (a <= b)%Z -> 2 ^ a <= 2 ^ b.
Proof. intros H. apply Qpower_le_compat_l; [assumption | discriminate]. Qed.

Lemma pow2_lt_inv (a b : Z) : 2 ^ a < 2 ^ b -> (a < b)%Z.
Proof. intros H. apply (Qpower_lt_compat_l_inv 2); [assumption | reflexivity]. Qed.

Lemma pow2_int (k : Z) : (0 <= k)%Z -> 2 ^ k == inject_Z (2 ^ k).
Proof. intros H. symmetry. apply (Zpower_Qpower 2 k H). Qed.

(** [2 ^ k * a / 2 ^ e] for the scaled value. *)
Lemma pow2_div (k e : Z) : 2 ^ k / 2 ^ e == 2 ^ (k - e).
Proof. symmetry. apply Qpower_minus. discriminate. Qed.

Lemma Qlog2_spec (a : Q) :
  0 < a -> 2 ^ Qlog2 a <= a /\ a < 2 ^ (Qlog2 a + 1).
Proof.
  intros Ha. destruct a as [n d].
  assert (0 < n)%Z as Hn by (unfold Qlt in Ha; simpl in Ha; lia).
  unfold Qlog2. cbn [Qnum Qden].
  pose proof (Z.log2_spec n Hn) as [N1 N2].
  pose proof (Z.log2_spec (Z.pos d) (Pos2Z.is_pos d)) as [D1 D2].
  pose proof (Z.log2_nonneg n) as Nn.
  pose proof (Z.log2_nonneg (Z.pos d)) as Nd.
  set (ln := Z.log2 n) in *. set (ld := Z.log2 (Z.pos d)) in *.
  assert ((n # d) * inject_Z (Z.pos d) == inject_Z n) as E.
  { rewrite Qmake_Qdiv. field. discriminate. }
  assert (0 < inject_Z (Z.pos d)) as Pd by reflexivity.
  assert (forall k, 2 ^ k * inject_Z (Z.pos d) < 2 ^ (k + (ld + 1))) as U.
  { intros k. rewrite pow2_add. apply Qmult_lt_l; [apply pow2_pos |].
    rewrite (pow2_int (ld + 1)) by lia. rewrite <- Zlt_Qlt. exact D2. }
  assert (forall k, 2 ^ (k + ld) <= 2 ^ k * inject_Z (Z.pos d)) as L.
  { intros k. rewrite pow2_add. apply Qmult_le_l; [apply pow2_pos |].
    rewrite (pow2_int ld) by lia. rewrite <- Zle_Qle. exact D1. }
  assert (inject_Z n < 2 ^ (ln + 1)) as N2'.
  { rewrite (pow2_int (ln + 1)) by lia. rewrite <- Zlt_Qlt. exact N2. }
  assert (2 ^ ln <= inject_Z n) as N1'.
  { rewrite (pow2_int ln) by lia. rewrite <- Zle_Qle. exact N1. }
  assert ((n # d) < 2 ^ (ln - ld + 1)) as Up.
  { apply (Qmult_lt_r _ _ (inject_Z (Z.pos d)) Pd). rewrite E.
    eapply Qlt_le_trans; [exact N2' |].
    eapply Qle_trans; [| apply L].
    apply pow2_le. lia. }
  assert (2 ^ (ln - ld - 1) <= (n # d)) as Lo.
  { apply (Qmult_le_r _ _ (inject_Z (Z.pos d)) Pd). rewrite E.
    eapply Qle_trans; [| exact N1'].
    apply Qlt_le_weak. eapply Qlt_le_trans; [apply U |].
    apply pow2_le. lia. }
  destruct (Qle_bool (2 ^ (ln - ld)) (n # d)) eqn:T.
  - apply Qle_bool_iff in T. split; assumption.
  - split; [exact Lo |].
    replace (ln - ld - 1 + 1)%Z with (ln - ld)%Z by lia.
    apply Qnot_le_lt. intros C. apply Qle_bool_iff in C. congruence.
Qed.

Lemma Qlog2_unique (a : Q) (k : Z) :
  2 ^ k <= a -> a < 2 ^ (k + 1) -> Qlog2 a = k.
Proof.
  intros L U.
  assert (0 < a) as Ha by (eapply Qlt_le_trans; [apply (pow2_pos k) | exact L]).
  destruct (Qlog2_spec a Ha) as [L' U'].
  assert (Qlog2 a < k + 1)%Z
    by (apply pow2_lt_inv; eapply Qle_lt_trans; eassumption).
  assert (k < Qlog2 a + 1)%Z
    by (apply pow2_lt_inv; eapply Qle_lt_trans; eassumption).
  lia.
Qed.

Lemma Qlog2_mono (a b : Q) : 0 < a -> a <= b -> (Qlog2 a <= Qlog2 b)%Z.
Proof.
  intros Ha H.
  assert (0 < b) as Hb by (eapply Qlt_le_trans; eassumption).
  destruct (Qlog2_spec a Ha) as [La _]. destruct (Qlog2_spec b Hb) as [_ Ub].
  assert (Qlog2 a < Qlog2 b + 1)%Z; [| lia].
  apply pow2_lt_inv. eapply Qle_lt_trans; [exact La |].
  eapply Qle_lt_trans; eassumption.
Qed.

Lemma Qlog2_below (a : Q) (k : Z) : 0 < a -> a < 2 ^ k -> (Qlog2 a < k)%Z.
Proof.
  intros Ha H. destruct (Qlog2_spec a Ha) as [L _].
  apply pow2_lt_inv. eapply Qle_lt_trans; eassumption.
Qed.

Lemma ulp_exp_mono (a b : Q) : 0 < a -> a <= b -> (ulp_exp a <= ulp_exp b)%Z.
Proof.
  intros Ha H. pose proof (Qlog2_mono a b Ha H). unfold ulp_exp. lia.
Qed.

(** The scaled value [a / 2 ^ e] and the product [m * 2 ^ e]. *)
Lemma scaled_le (a b : Q) (e : Z) : a <= b -> a / 2 ^ e <= b / 2 ^ e.
Proof.
  intros H. apply Qmult_le_compat_r; [assumption |].
  apply Qlt_le_weak, Qinv_lt_0_compat, pow2_pos.
Qed.

Lemma scaled_pow2 (k e : Z) :
  (e <= k)%Z -> round_half_even (2 ^ k / 2 ^ e) = (2 ^ (k - e))%Z.
Proof.
  intros H. rewrite <- (round_half_even_inject (2 ^ (k - e))).
  apply round_half_even_comp. rewrite pow2_div. apply pow2_int. lia.
Qed.

(** The significand of a positive value has at most 53 bits ... *)
Lemma significand_upper (a : Q) :
  0 < a -> (round_half_even (a / 2 ^ ulp_exp a) <= 2 ^ 53)%Z.
Proof.
  intros Ha. destruct (Qlog2_spec a Ha) as [_ U].
  set (e := ulp_exp a).
  assert (Qlog2 a + 1 <= e + 53)%Z as B by (unfold e, ulp_exp; lia).
  change (2 ^ 53)%Z with (2 ^ (e + 53 - e))%Z at 1 || idtac.
  replace (2 ^ 53)%Z with (2 ^ (e + 53 - e))%Z by (f_equal; lia).
  rewrite <- scaled_pow2 by lia.
  apply round_half_even_mono, scaled_le.
  apply Qlt_le_weak. eapply Qlt_le_trans; [exact U | now apply pow2_le].
Qed.

(** ... and exactly 53 in the normal range. *)
Lemma significand_lower (a : Q) :
  0 < a -> ulp_exp a <> (-1074)%Z ->
  (2 ^ 52 <= round_half_even (a / 2 ^ ulp_exp a))%Z.
Proof.
  intros Ha Hn. destruct (Qlog2_spec a Ha) as [L _].
  set (e := ulp_exp a) in *.
  assert (Qlog2 a = e + 52)%Z as B by (unfold e, ulp_exp in *; lia).
  replace (2 ^ 52)%Z with (2 ^ (e + 52 - e))%Z by (f_equal; lia).
  rewrite <- scaled_pow2 by lia.
  apply round_half_even_mono, scaled_le. now rewrite <- B.
Qed.

Lemma significand_nonneg (a : Q) (e : Z) :
  0 <= a -> (0 <= round_half_even (a / 2 ^ e))%Z.
Proof.
  intros Ha. rewrite <- (round_half_even_inject 0).
  apply round_half_even_mono. change (inject_Z 0) with 0.
  apply Qle_shift_div_l; [apply pow2_pos | lra].
Qed.

Lemma fl_pos_nonneg (a : Q) : 0 <= a -> 0 <= fl_pos a.
Proof.
  intros Ha. unfold fl_pos. cbv zeta.
  apply Qmult_le_0_compat; [| apply Qlt_le_weak, pow2_pos].
  change 0 with (inject_Z 0). rewrite <- Zle_Qle.
  now apply significand_nonneg.
Qed.

Lemma fl_pos_mono (x y : Q) : 0 < x -> x <= y -> fl_pos x <= fl_pos y.
Proof.
  intros Hx H.
  assert (0 < y) as Hy by (eapply Qlt_le_trans; eassumption).
  pose proof (ulp_exp_mono x y Hx H) as E.
  unfold fl_pos. cbv zeta.
  set (ex := ulp_exp x) in *. set (ey := ulp_exp y) in *.
  destruct (Z.eq_dec ex ey) as [Q | Q].
  - rewrite Q. apply Qmult_le_compat_r; [| apply Qlt_le_weak, pow2_pos].
    rewrite <- Zle_Qle. apply round_half_even_mono. now apply scaled_le.
  - (* a power of two separates the two values *)
    assert (ey <> -1074)%Z as Ny by (unfold ex, ey, ulp_exp in *; lia).
    pose proof (significand_lower y Hy Ny) as Ly. fold ey in Ly.
    pose proof (significand_upper x Hx) as Ux. fold ex in Ux.
    apply Qle_trans with (2 ^ (ex + 53)).
    + rewrite (Z.add_comm ex 53), pow2_add.
      apply Qmult_le_r; [apply pow2_pos |].
      rewrite (pow2_int 53) by lia. now rewrite <- Zle_Qle.
    + apply Qle_trans with (2 ^ (ey + 52)); [apply pow2_le; lia |].
      rewrite (Z.add_comm ey 52), pow2_add.
      apply Qmult_le_r; [apply pow2_pos |].
      rewrite (pow2_int 52) by lia. now rewrite <- Zle_Qle.
Qed.

Lemma fl_eq (x : Q) :
  fl x == match x ?= 0 with Eq => 0 | Gt => fl_pos x | Lt => - fl_pos (- x) end.
Proof. unfold fl. destruct (x ?= 0); try apply Qred_correct. reflexivity. Qed.

(** Rounding to the nearest double keeps the order. *)
Lemma fl_mono (x y : Q) : x <= y -> fl x <= fl y.
Proof.
  intros H. rewrite !fl_eq.
  destruct (x ?= 0) eqn:Cx; destruct (y ?= 0) eqn:Cy;
    try rewrite <- Qeq_alt in *; try rewrite <- Qlt_alt in *;
    try rewrite <- Qgt_alt in *; try lra.
  - apply fl_pos_nonneg. lra.
  - assert (0 <= fl_pos (- x)) by (apply fl_pos_nonneg; lra). lra.
  - apply Qopp_le_compat. apply fl_pos_mono; lra.
  - assert (0 <= fl_pos (- x)) by (apply fl_pos_nonneg; lra).
    assert (0 <= fl_pos y) by (apply fl_pos_nonneg; lra). lra.
  - apply fl_pos_mono; lra.
Qed.

Lemma fl_comp (x y : Q) : x == y -> fl x = fl y.
Proof.
  intros E. 
  assert (fl x == fl y) as Q
    by (apply Qle_antisym; apply fl_mono; rewrite E; apply Qle_refl).
  unfold fl in *. rewrite <- (Qcompare_comp x y E 0 0 (Qeq_refl 0)) in *.
  destruct (x ?= 0); [reflexivity | |];
    apply Qred_complete; now rewrite !Qred_correct in Q.
Qed.

(** A value [m * 2 ^ e] with [m] of at most 53 bits, and [e] the least
    exponent when [m] has fewer, is a double: rounding leaves it. *)
Lemma fl_pos_exact (m e : Z) :
  (0 < m <= 2 ^ 53)%Z -> (-1074 <= e)%Z ->
  ((2 ^ 52 <= m)%Z \/ e = (-1074)%Z) ->
  fl_pos (inject_Z m * 2 ^ e) == inject_Z m * 2 ^ e.
Proof.
  intros [M0 M1] E N.
  set (v := inject_Z m * 2 ^ e).
  assert (0 < v) as Hv.
  { apply Qmult_lt_0_compat; [| apply pow2_pos].
    change 0 with (inject_Z 0). now rewrite <- Zlt_Qlt. }
  assert (forall k, (m < 2 ^ k)%Z -> (0 <= k)%Z -> v < 2 ^ (k + e)) as Ub.
  { intros k Hk K. unfold v. rewrite pow2_add.
    apply Qmult_lt_r; [apply pow2_pos |].
    rewrite (pow2_int k) by lia. now rewrite <- Zlt_Qlt. }
  assert (forall k, (2 ^ k <= m)%Z -> (0 <= k)%Z -> 2 ^ (k + e) <= v) as Lb.
  { intros k Hk K. unfold v. rewrite pow2_add.
    apply Qmult_le_r; [apply pow2_pos |].
    rewrite (pow2_int k) by lia. now rewrite <- Zle_Qle. }
  destruct (Z.eq_dec m (2 ^ 53)) as [T | T].
  - (* the significand overflowed to the next binade *)
    assert (Qlog2 v = 53 + e)%Z as Lg.
    { apply Qlog2_unique; [apply Lb; lia |].
      replace (53 + e + 1)%Z with (54 + e)%Z by lia. apply Ub; [| lia].
      rewrite T. apply Z.pow_lt_mono_r; lia. }
    unfold fl_pos. cbv zeta. fold v.
    assert (ulp_exp v = e + 1)%Z as -> by (unfold ulp_exp; lia).
    assert (v == 2 ^ (53 + e)) as Ev.
    { unfold v. rewrite T, pow2_add. rewrite (pow2_int 53) by lia. reflexivity. }
    rewrite (round_half_even_comp _ (2 ^ (53 + e) / 2 ^ (e + 1)))
      by (now rewrite Ev).
    rewrite scaled_pow2 by lia.
    rewrite Ev. replace (53 + e - (e + 1))%Z with 52%Z by lia.
    rewrite <- (pow2_int 52) by lia.
    rewrite <- pow2_add.
    replace (52 + (e + 1))%Z with (53 + e)%Z by lia. reflexivity.
  - assert (ulp_exp v = e) as Ue.
    { destruct N as [N | N].
      + assert (Qlog2 v = 52 + e)%Z as Lg.
        { apply Qlog2_unique; [apply Lb; lia |].
          replace (52 + e + 1)%Z with (53 + e)%Z by lia. apply Ub; lia. }
        unfold ulp_exp. lia.
      + destruct (Z.le_gt_cases (2 ^ 52) m) as [G | G].
        * assert (Qlog2 v = 52 + e)%Z as Lg.
          { apply Qlog2_unique; [apply Lb; lia |].
            replace (52 + e + 1)%Z with (53 + e)%Z by lia. apply Ub; lia. }
          unfold ulp_exp. lia.
        * pose proof (Qlog2_below v (52 + e) Hv (Ub 52%Z G ltac:(lia))).
          unfold ulp_exp. lia. }
    unfold fl_pos. cbv zeta. fold v. rewrite Ue.
    rewrite (round_half_even_comp _ (inject_Z m)).
    + now rewrite round_half_even_inject.
    + unfold v. field. apply Qnot_eq_sym, Qlt_not_eq, pow2_pos.
Qed.

Lemma fl_pos_idempotent (a : Q) :
  0 < a -> 0 < fl_pos a -> fl_pos (fl_pos a) == fl_pos a.
Proof.
  intros Ha Hp. unfold fl_pos at 2 3. cbv zeta.
  unfold fl_pos in Hp. cbv zeta in Hp.
  set (e := ulp_exp a) in *. set (m := round_half_even (a / 2 ^ e)) in *.
  assert (0 < m)%Z as M0.
  { destruct (Z.lt_ge_cases 0 m) as [G | G]; [exact G | exfalso].
    apply (Qlt_not_le _ _ Hp).
    rewrite <- (Qmult_0_l (2 ^ e)).
    apply Qmult_le_compat_r; [| apply Qlt_le_weak, pow2_pos].
    change 0 with (inject_Z 0). now rewrite <- Zle_Qle. }
  pose proof (significand_upper a Ha) as U. fold e m in U.
  assert ((2 ^ 52 <= m)%Z \/ e = (-1074)%Z) as N.
  { destruct (Z.eq_dec e (-1074)) as [Q | Q]; [now right | left].
    apply (significand_lower a Ha Q). }
  assert (fl_pos (inject_Z m * 2 ^ e) == inject_Z m * 2 ^ e) as X.
  { apply fl_pos_exact; [lia | unfold e, ulp_exp; lia | exact N]. }
  exact X.
Qed.

Lemma fl_pos_comp (x y : Q) : 0 < x -> x == y -> fl_pos x == fl_pos y.
Proof.
  intros Hx E. apply Qle_antisym; apply fl_pos_mono;
    rewrite <- ?E; try assumption; apply Qle_refl.
Qed.

(** Rounding a double leaves it. *)
Lemma fl_idempotent (x : Q) : fl (fl x) = fl x.
Proof.
  assert (forall p, 0 <= p -> (0 < p -> fl_pos p == p) -> fl (Qred p) = Qred p)
    as Pos.
  { intros p P0 I. rewrite (fl_comp _ p (Qred_correct p)).
    unfold fl. destruct (p ?= 0) eqn:C;
      try rewrite <- Qeq_alt in C; try rewrite <- Qlt_alt in C;
      try rewrite <- Qgt_alt in C.
    - symmetry. now apply (Qred_complete p 0).
    - lra.
    - apply Qred_complete, I, C. }
  assert (forall p, 0 <= p -> (0 < p -> fl_pos p == p)
                    -> fl (Qred (- p)) = Qred (- p)) as Neg.
  { intros p P0 I. rewrite (fl_comp _ (- p) (Qred_correct (- p))).
    unfold fl. destruct (- p ?= 0) eqn:C;
      try rewrite <- Qeq_alt in C; try rewrite <- Qlt_alt in C;
      try rewrite <- Qgt_alt in C.
    - symmetry. now apply (Qred_complete (- p) 0).
    - apply Qred_complete. apply Qopp_comp.
      assert (0 < p) as P by lra.
      rewrite <- (I P) at 2. symmetry. apply fl_pos_comp; [exact P | ring].
    - lra. }
  unfold fl at 2 3. destruct (x ?= 0) eqn:C;
    try rewrite <- Qlt_alt in C; try rewrite <- Qgt_alt in C.
  - reflexivity.
  - assert (0 < - x) as P by lra.
    apply Neg; [apply fl_pos_nonneg; lra |].
    intros H. now apply fl_pos_idempotent.
  - apply Pos; [apply fl_pos_nonneg; lra |].
    intros H. now apply fl_pos_idempotent.
Qed.

(** A value below a double rounds to at most that double, and a value
    above to at least. *)
Lemma fl_le_double (x y : Q) : x <= fl y -> fl x <= fl y.
Proof. intros H. rewrite <- (fl_idempotent y). now apply fl_mono. Qed.

Lemma fl_ge_double (x y : Q) : fl y <= x -> fl y <= fl x.
Proof. intros H. rewrite <- (fl_idempotent y). now apply fl_mono. Qed.


Lemma round_half_even_error (q : Q) :
  Qabs (inject_Z (round_half_even q) - q) <= 1 # 2.
Proof.
  unfold round_half_even.
  pose proof (Qfloor_le q) as L. pose proof (Qlt_floor q) as U.
  rewrite inject_Z_plus in U. change (inject_Z 1) with 1 in U.
  apply Qabs_Qle_condition.
  destruct (q - inject_Z (Qfloor q) ?= 1 # 2) eqn:C;
    [apply Qeq_alt in C; destruct (Z.even (Qfloor q))
    | apply Qlt_alt in C | apply Qgt_alt in C];
    rewrite ?inject_Z_plus; change (inject_Z 1) with 1; split; lra.
Qed.

(** The nearest double is within half a unit in the last place. *)
Lemma fl_pos_error (a : Q) :
  Qabs (fl_pos a - a) <= (1 # 2) * 2 ^ ulp_exp a.
Proof.
  unfold fl_pos. cbv zeta. set (e := ulp_exp a).
  pose proof (pow2_pos e) as P.
  pose proof (round_half_even_error (a / 2 ^ e)) as R.
  assert (inject_Z (round_half_even (a / 2 ^ e)) * 2 ^ e - a
          == (inject_Z (round_half_even (a / 2 ^ e)) - a / 2 ^ e) * 2 ^ e)
    as -> by (field; lra).
  rewrite Qabs_Qmult, (Qabs_pos (2 ^ e)) by lra.
  apply Qmult_le_compat_r; [exact R | lra].
Qed.

(** The doubles of some well-known values: a tenth; a tie between two
    doubles goes to the even one, also below the normal range. *)
Lemma fl_examples :
  fl (1 # 10) = 3602879701896397 # 36028797018963968
  /\ fl (inject_Z (2 ^ 53 + 1)) = inject_Z (2 ^ 53)
  /\ fl (inject_Z (2 ^ 53 + 3)) = inject_Z (2 ^ 53 + 4)
  /\ fl (2 ^ (-1075)) = 0
  /\ fl (3 * 2 ^ (-1075)) = Qred (2 ^ (-1073)).
Proof. repeat split; vm_compute; reflexivity. Qed.

Lemma fl_between (lo hi x : Q) :
  fl lo = lo -> fl hi = hi -> lo <= x <= hi -> lo <= fl x <= hi.
Proof.
  intros Elo Ehi [L H]. split.
  - apply Qle_trans with (fl lo); [rewrite Elo; apply Qle_refl |].
    now apply fl_mono.
  - apply Qle_trans with (fl hi); [| rewrite Ehi; apply Qle_refl].
    now apply fl_mono.
Qed.

(** A property checked on [0 .. n - 1] holds of every integer there. *)
Lemma range_check (P : Z -> bool) (n : nat) :
  forallb P (map Z.of_nat (seq 0 n)) = true ->
  forall z, (0 <= z < Z.of_nat n)%Z -> P z = true.
Proof.
  intros H z B. rewrite forallb_forall in H. apply H.
  rewrite <- (Z2Nat.id z) by lia. apply in_map, in_seq. lia.
Qed.

(** A double is kept in lowest terms. *)
Lemma fl_canonical (x : Q) : Qred (fl x) = fl x.
Proof.
  unfold fl. destruct (x ?= 0); [reflexivity | |]; apply Qcanon.Qred_involutive.
Qed.

(** Two equal rationals in lowest terms are the same term. *)
Lemma fl_exact (x q : Q) : fl x == q -> Qred q = q -> fl x = q.
Proof.
  intros E C. rewrite <- (fl_canonical x), <- C. now apply Qred_complete.
Qed.

(** The whole numbers up to 600 are doubles. *)
Lemma fl_whole (z : Z) : (0 <= z <= 600)%Z -> fl (inject_Z z) = inject_Z z.
Proof.
  intros B.
  assert (forallb (fun z => Qeq_bool (fl (inject_Z z)) (inject_Z z))
                  (map Z.of_nat (seq 0 601)) = true) as T
      by (vm_compute; reflexivity).
  pose proof (range_check _ _ T z ltac:(lia)) as E. cbv beta in E.
  apply Qeq_bool_iff in E. apply fl_exact; [exact E | apply Qred_inject].
Qed.

(** Adding whole scores from left to right never rounds. *)
Lemma fold_fadd_whole (zs : list Z) :
  forall a : Z,
    (0 <= a)%Z -> (a + 100 * Z.of_nat (List.length zs) <= 600)%Z ->
    Forall (fun z => (0 <= z <= 100)%Z) zs ->
    fold_left fadd (map inject_Z zs) (inject_Z a)
    = inject_Z (fold_left Z.add zs a).
Proof.
  induction zs as [|z zs IH]; intros a A B F; [reflexivity |].
  inversion F as [|? ? Hz F']; subst.
  cbn [map fold_left List.length] in *.
  unfold fadd at 2. rewrite Qplus_inject, fl_whole by lia.
  apply IH; [lia | lia | assumption].
Qed.

Lemma py_sum_whole (zs : list Z) :
  forall a : Z,
    fold_left Qplus (map inject_Z zs) (inject_Z a)
    = inject_Z (fold_left Z.add zs a).
Proof.
  induction zs as [|z zs IH]; intros a; [reflexivity |].
  cbn [map fold_left]. rewrite Qplus_inject. apply IH.
Qed.

End FloatFacts.

(* ================================================================== *)
(** * The stages of [detect_risk] *)
(* ================================================================== *)

Section RiskStages.
Import PyStr PyNum Regex RiskDetector Points.
Local Open Scope Z_scope.

Variable text_lower : string.

(** The loop over the high-risk keywords. *)
Lemma high_scan_spec (kws : list string) :
  forall a z, base_score a = inject_Z z ->
  let a' := fold_left (high_step text_lower) kws a in
  base_score a' = inject_Z (if any_in kws text_lower then Z.max z 85 else z)
  /\ acc_factors a'
     = (acc_factors a
        ++ map (fun k => "High-risk keyword detected: '" ++ k ++ "'")%string
               (filter (fun k => contains k text_lower) kws))%list.
Proof.
  induction kws as [|k kws IH]; intros a z Hz; cbn [fold_left filter map].
  - split; [assumption | now rewrite app_nil_r].
  - change (any_in (k :: kws) text_lower)
      with (contains k text_lower || any_in kws text_lower)%bool.
    unfold high_step at 2 4. destruct (contains k text_lower) eqn:E.
    + destruct (IH (mkAcc (py_max (base_score a) 85)
                          (append a ("High-risk keyword detected: '" ++ k ++ "'")))
                   (Z.max z 85)) as [Hb Hf].
      { cbn [base_score]. rewrite Hz. apply (py_max_inject z 85). }
      cbv zeta in Hb, Hf. split.
      * rewrite Hb. f_equal. cbn [orb].
        destruct (any_in kws text_lower); lia.
      * rewrite Hf. unfold append; cbn [acc_factors map].
        now rewrite <- app_assoc.
    + now apply IH.
Qed.

(** The loop over the medium-risk patterns. *)
Lemma medium_scan_spec (pats : list regex) :
  forall a z, base_score a = inject_Z z ->
  let a' := fold_left (medium_step text_lower) pats a in
  base_score a'
  = inject_Z (if existsb (fun p => search p text_lower) pats
              then Z.max z 55 else z)
  /\ acc_factors a'
     = (acc_factors a
        ++ map (fun _ => "Distress pattern detected")
               (filter (fun p => search p text_lower) pats))%list.
Proof.
  induction pats as [|p pats IH]; intros a z Hz;
    cbn [fold_left filter map existsb].
  - split; [assumption | now rewrite app_nil_r].
  - unfold medium_step at 2 4. destruct (search p text_lower) eqn:E.
    + destruct (IH (mkAcc (py_max (base_score a) 55)
                          (append a "Distress pattern detected"))
                   (Z.max z 55)) as [Hb Hf].
      { cbn [base_score]. rewrite Hz. apply (py_max_inject z 55). }
      cbv zeta in Hb, Hf. split.
      * rewrite Hb. f_equal. cbn [orb].
        destruct (existsb (fun p => search p text_lower) pats); lia.
      * rewrite Hf. unfold append; cbn [acc_factors map].
        now rewrite <- app_assoc.
    + now apply IH.
Qed.

(** The loop over the low-risk patterns, with its [break]. *)
Lemma low_scan_spec (pats : list regex) (a : Acc) (z : Z) :
  base_score a = inject_Z z ->
  let a' := low_scan text_lower pats a in
  let found := existsb (fun p => search p text_lower) pats in
  base_score a'
  = inject_Z (if found then (if z <? 40 then Z.max z 25 else z) else z)
  /\ acc_factors a'
     = (acc_factors a
        ++ (if found then ["Stress indicator detected"%string] else []))%list.
Proof.
  intros Hz. induction pats as [|p pats IH]; cbn [low_scan existsb].
  - split; [assumption | now rewrite app_nil_r].
  - destruct (search p text_lower) eqn:E; cbn [orb]; [| exact IH].
    split; [| reflexivity].
    cbn [base_score]. rewrite Hz.
    rewrite (Qltb_inject z 40 : Qltb (inject_Z z) 40%Q = _).
    destruct (z <? 40); [apply (py_max_inject z 25) | reflexivity].
Qed.

(** After the three scans the score is the tier of the strongest match. *)
Lemma after_scans_base :
  base_score (after_scans text_lower) = inject_Z (scan_points text_lower).
Proof.
  unfold after_scans, scan_points, has_high, has_medium, has_low.
  destruct (high_scan_spec HIGH_RISK_KEYWORDS (mkAcc 0 []) 0 eq_refl)
    as [Hh _].
  destruct (medium_scan_spec MEDIUM_RISK_PATTERNS _ _ Hh) as [Hm _].
  destruct (low_scan_spec LOW_RISK_PATTERNS _ _ Hm) as [Hl _].
  cbv zeta in Hl. rewrite Hl. f_equal.
  destruct (any_in HIGH_RISK_KEYWORDS text_lower),
           (existsb (fun p => search p text_lower) MEDIUM_RISK_PATTERNS),
           (existsb (fun p => search p text_lower) LOW_RISK_PATTERNS);
    reflexivity.
Qed.

(** Each tier that matched left a factor. *)
Lemma after_scans_factors :
  acc_factors (after_scans text_lower)
  = (map (fun k => "High-risk keyword detected: '" ++ k ++ "'")%string
         (filter (fun k => contains k text_lower) HIGH_RISK_KEYWORDS)
     ++ map (fun _ => "Distress pattern detected"%string)
            (filter (fun p => search p text_lower) MEDIUM_RISK_PATTERNS)
     ++ (if has_low text_lower
         then ["Stress indicator detected"%string] else []))%list.
Proof.
  unfold after_scans, has_low.
  destruct (high_scan_spec HIGH_RISK_KEYWORDS (mkAcc 0 []) 0 eq_refl)
    as [Hh Fh].
  destruct (medium_scan_spec MEDIUM_RISK_PATTERNS _ _ Hh) as [Hm Fm].
  destruct (low_scan_spec LOW_RISK_PATTERNS _ _ Hm) as [_ Fl].
  cbv zeta in Fl, Fm, Fh. rewrite Fl, Fm, Fh.
  cbn [acc_factors]. rewrite app_nil_l, <- app_assoc. reflexivity.
Qed.

Lemma filter_nil_existsb {A} (f : A -> bool) (l : list A) :
  filter f l = [] -> existsb f l = false.
Proof.
  induction l as [|x l IH]; simpl; [reflexivity |].
  destruct (f x); [discriminate | exact IH].
Qed.

(** No factor after the scans: nothing matched and the score is 0. *)
Lemma after_scans_no_factor :
  acc_factors (after_scans text_lower) = [] -> scan_points text_lower = 0.
Proof.
  rewrite after_scans_factors. intros H.
  apply app_eq_nil in H as [H1 H2]. apply app_eq_nil in H2 as [H2 H3].
  apply map_eq_nil in H1, H2. apply filter_nil_existsb in H1, H2.
  unfold scan_points, has_high, has_medium, any_in. rewrite H1, H2.
  destruct (has_low text_lower); [discriminate | reflexivity].
Qed.

End RiskStages.

(* ================================================================== *)
(** * [detect_risk] in integers *)
(* ================================================================== *)

Section RiskScore.
Import PyStr PyNum Regex RiskDetector Points.
Local Open Scope Z_scope.

Lemma adjust_emotion_base (emotion : option string) (a : Acc) (z : Z) :
  base_score a = inject_Z z ->
  base_score (adjust_emotion emotion a) = inject_Z (z + emotion_points emotion).
Proof.
  intros Hz. unfold adjust_emotion, emotion_points.
  destruct emotion as [e|]; [destruct (truthy e) |];
    try (rewrite Hz; f_equal; lia).
  destruct (Z.eqb_spec (dict_get emotion_adjustments (lower e) 0) 0) as [E|E].
  - rewrite E, Hz. f_equal. lia.
  - cbn [base_score]. rewrite Hz. apply Qplus_inject.
Qed.

Lemma adjust_emotion_factors (emotion : option string) (a : Acc) :
  exists l, acc_factors (adjust_emotion emotion a) = (acc_factors a ++ l)%list.
Proof.
  unfold adjust_emotion.
  destruct emotion as [e|]; [destruct (truthy e) |];
    try (exists []; now rewrite app_nil_r).
  destruct (dict_get emotion_adjustments (lower e) 0 =? 0);
    [exists []; now rewrite app_nil_r |].
  cbn [acc_factors]. destruct (0 <? _); [| exists []; now rewrite app_nil_r].
  eexists. reflexivity.
Qed.

Lemma adjust_sentiment_base (sentiment : option Q) (a : Acc) (z : Z) :
  base_score a = inject_Z z ->
  base_score (adjust_sentiment sentiment a)
  = inject_Z (z + sentiment_points sentiment).
Proof.
  intros Hz. unfold adjust_sentiment, sentiment_points.
  destruct sentiment as [s|]; [| rewrite Hz; f_equal; lia].
  destruct (Qltb s (- (6 # 10))); [| destruct (Qltb s (- (3 # 10)))];
    cbn [base_score]; rewrite Hz.
  - apply (Qplus_inject z 10).
  - apply (Qplus_inject z 5).
  - f_equal; lia.
Qed.

Lemma adjust_sentiment_factors (sentiment : option Q) (a : Acc) :
  exists l,
    acc_factors (adjust_sentiment sentiment a) = (acc_factors a ++ l)%list.
Proof.
  unfold adjust_sentiment.
  destruct sentiment as [s|]; [| exists []; now rewrite app_nil_r].
  destruct (Qltb s (- (6 # 10))); [| destruct (Qltb s (- (3 # 10)))];
    try (eexists; reflexivity).
  exists []; now rewrite app_nil_r.
Qed.

(** The table of emotion offsets: only joy lowers the score. *)
Lemma adjustment_range (k : string) :
  let d := dict_get emotion_adjustments k 0 in
  (d = -10 /\ k = "joy"%string) \/ 0 <= d <= 15.
Proof.
  unfold emotion_adjustments; cbn [dict_get].
  repeat match goal with
         | |- context [String.eqb ?a k] => destruct (String.eqb_spec a k)
         end; subst; try (right; lia).
  left. split; reflexivity.
Qed.

Lemma emotion_points_range (emotion : option string) :
  -10 <= emotion_points emotion <= 15.
Proof.
  unfold emotion_points.
  destruct emotion as [e|]; [destruct (truthy e) |]; try lia.
  destruct (adjustment_range (lower e)) as [[-> _] | H]; lia.
Qed.

(** Unless the label reads joy, the emotion does not lower the score. *)
Lemma emotion_points_nonneg (emotion : option string) :
  option_map lower emotion <> Some "joy"%string ->
  0 <= emotion_points emotion.
Proof.
  unfold emotion_points.
  destruct emotion as [e|]; [destruct (truthy e) |]; try lia.
  intros H. destruct (adjustment_range (lower e)) as [[_ E] | E]; [| lia].
  exfalso. apply H. simpl. now rewrite E.
Qed.

Lemma sentiment_points_range (sentiment : option Q) :
  0 <= sentiment_points sentiment <= 10.
Proof.
  unfold sentiment_points. destruct sentiment as [s|]; [| lia].
  destruct (Qltb s (- (6 # 10))); [| destruct (Qltb s (- (3 # 10)))]; lia.
Qed.

Lemma scan_points_cases (t : string) :
  (has_high t = true /\ scan_points t = 85)
  \/ (has_high t = false /\ has_medium t = true /\ scan_points t = 55)
  \/ (has_high t = false /\ has_medium t = false /\ has_low t = true
      /\ scan_points t = 25)
  \/ (has_high t = false /\ has_medium t = false /\ has_low t = false
      /\ scan_points t = 0).
Proof.
  unfold scan_points.
  destruct (has_high t), (has_medium t), (has_low t); tauto.
Qed.

Lemma level_of_inject (c : Z) :
  level_of (inject_Z c)
  = if 70 <=? c then HIGH else if 35 <=? c then MEDIUM else LOW.
Proof.
  unfold level_of.
  rewrite (Qle_bool_inject 70 c : Qle_bool 70%Q (inject_Z c) = _).
  rewrite (Qle_bool_inject 35 c : Qle_bool 35%Q (inject_Z c) = _).
  reflexivity.
Qed.

Lemma dedup_nil (l : list string) : dedup l = [] -> l = [].
Proof. destruct l; [reflexivity | discriminate]. Qed.

Lemma final_acc_base text emotion sentiment :
  base_score (final_acc text emotion sentiment)
  = inject_Z (points (lower text) emotion sentiment).
Proof.
  unfold final_acc, points.
  apply adjust_sentiment_base, adjust_emotion_base, after_scans_base.
Qed.

(** What [detect_risk] returns for a text that is not empty: the level
    and the score are those of the clamped integer [points]. *)
Lemma detect_risk_spec text emotion sentiment :
  truthy text = true ->
  let c := clamp (points (lower text) emotion sentiment) in
  detect_risk text emotion sentiment
  = mkRisk (if 70 <=? c then HIGH else if 35 <=? c then MEDIUM else LOW)
           (inject_Z c)
           (dedup (acc_factors (final_acc text emotion sentiment))).
Proof.
  intros H. unfold detect_risk. rewrite H. cbn [negb]. cbv zeta.
  fold (after_scans (lower text)). fold (final_acc text emotion sentiment).
  rewrite final_acc_base.
  rewrite (py_min_inject 100 _ : py_min 100%Q (inject_Z _) = _).
  rewrite (py_max_inject 0 _ : py_max 0%Q (inject_Z _) = _).
  rewrite level_of_inject, py_round_inject. reflexivity.
Qed.

Lemma detect_risk_empty emotion sentiment :
  detect_risk "" emotion sentiment = mkRisk LOW 0 [].
Proof. reflexivity. Qed.

Lemma truthy_false (s : string) : truthy s = false -> s = ""%string.
Proof. destruct s; [reflexivity | discriminate]. Qed.

Lemma clamp_range (z : Z) : 0 <= clamp z <= 100.
Proof. unfold clamp. lia. Qed.

End RiskScore.

(* ================================================================== *)
(** * The risk detector: keyword tiers, thresholds and factors *)
(* ================================================================== *)

Section RiskTheorems.
Import PyStr PyNum Regex RiskDetector Points.
Local Open Scope Z_scope.

Lemma has_high_truthy (text : string) :
  has_high (lower text) = true -> truthy text = true.
Proof. destruct text; [discriminate | reflexivity]. Qed.

(** With a high-risk keyword the clamped points are at least 75, and at
    least 85 when the emotion takes nothing away. *)
Lemma keyword_points (t : string) emotion sentiment :
  has_high t = true ->
  75 <= clamp (points t emotion sentiment)
  /\ (0 <= emotion_points emotion -> 85 <= clamp (points t emotion sentiment)).
Proof.
  intros H. unfold clamp, points.
  pose proof (emotion_points_range emotion).
  pose proof (sentiment_points_range sentiment).
  destruct (scan_points_cases t) as [[_ E] | [[E _] | [[E _] | [E _]]]];
    try congruence.
  lia.
Qed.

(** Without a high-risk keyword and a medium-risk pattern the clamped
    points are at most 50. *)
Lemma low_tier_points (t : string) emotion sentiment :
  has_high t = false -> has_medium t = false ->
  clamp (points t emotion sentiment) <= 50.
Proof.
  intros Hh Hm. unfold clamp, points.
  pose proof (emotion_points_range emotion).
  pose proof (sentiment_points_range sentiment).
  destruct (scan_points_cases t)
    as [[E _] | [[_ [E _]] | [[_ [_ [_ E]]] | [_ [_ [_ E]]]]]];
    try congruence; lia.
Qed.

(** Every crisis indicator has a high-risk keyword inside it. *)
Lemma crisis_phrase_has_keyword (p : string) :
  In p crisis_indicators ->
  exists k, In k HIGH_RISK_KEYWORDS /\ contains k p = true.
Proof.
  intros H.
  assert (existsb (fun k => contains k p) HIGH_RISK_KEYWORDS = true) as E.
  { unfold crisis_indicators in H. cbn [In] in H.
    repeat (destruct H as [<- | H]; [reflexivity |]). destruct H. }
  apply existsb_exists in E. exact E.
Qed.

Lemma crisis_has_high (t : string) :
  any_in crisis_indicators t = true -> has_high t = true.
Proof.
  intros H. apply existsb_exists in H as [p [Hp Hc]].
  destruct (crisis_phrase_has_keyword p Hp) as [k [Hk Hkp]].
  apply existsb_exists. exists k. split; [assumption |].
  now apply (contains_trans k p t).
Qed.

(** C1 (as amended).  A text whose lower-case form contains a high-risk
    keyword is assessed HIGH with a score of at least 75, whatever the
    emotion and the sentiment; the score is at least 85 unless the emotion
    label reads joy (in any letter case), the one entry of the table that
    takes 10 points away. *)
Theorem high_risk_keyword_is_high text emotion sentiment :
  any_in HIGH_RISK_KEYWORDS (lower text) = true ->
  let r := detect_risk text emotion sentiment in
  level r = HIGH
  /\ (75 <= score r)%Q
  /\ (option_map lower emotion <> Some "joy"%string -> (85 <= score r)%Q).
Proof.
  intros H r. subst r.
  rewrite (detect_risk_spec text emotion sentiment (has_high_truthy text H)).
  cbv zeta. cbn [level score].
  destruct (keyword_points (lower text) emotion sentiment H) as [H75 H85].
  repeat split.
  - destruct (Z.leb_spec 70 (clamp (points (lower text) emotion sentiment)));
      [reflexivity | lia].
  - change 75%Q with (inject_Z 75). rewrite <- Zle_Qle. exact H75.
  - intros Hj. change 85%Q with (inject_Z 85). rewrite <- Zle_Qle.
    apply H85. now apply emotion_points_nonneg.
Qed.

(** C2.  The score lies in [0,100] and the level is the one the
    thresholds 70 and 35 give for the returned score. *)
Theorem score_range_and_level text emotion sentiment :
  let r := detect_risk text emotion sentiment in
  (0 <= score r)%Q /\ (score r <= 100)%Q
  /\ (level r = HIGH <-> (70 <= score r)%Q)
  /\ (level r = MEDIUM <-> (35 <= score r)%Q /\ (score r < 70)%Q)
  /\ (level r = LOW <-> (score r < 35)%Q).
Proof.
  intros r. subst r. destruct (truthy text) eqn:T.
  - rewrite (detect_risk_spec text emotion sentiment T).
    cbv zeta. cbn [level score].
    pose proof (clamp_range (points (lower text) emotion sentiment)) as R.
    set (c := clamp (points (lower text) emotion sentiment)) in *.
    change 0%Q with (inject_Z 0). change 100%Q with (inject_Z 100).
    change 70%Q with (inject_Z 70). change 35%Q with (inject_Z 35).
    rewrite <- !Zle_Qle, <- !Zlt_Qlt.
    destruct (Z.leb_spec 70 c); [| destruct (Z.leb_spec 35 c)];
      repeat split; intros; try lia; try discriminate; try reflexivity.
    all: exfalso; lia.
  - apply truthy_false in T. subst text. rewrite detect_risk_empty.
    cbn [level score]. repeat split; intros; try discriminate; try lra.
    all: exfalso; lra.
Qed.

(** C6.  A text that matches a low-risk pattern only scores strictly
    below a text with a high-risk keyword, whatever emotion and sentiment
    accompany either. *)
Theorem low_tier_below_high_tier t1 t2 e1 s1 e2 s2 :
  any_in HIGH_RISK_KEYWORDS (lower t1) = false ->
  existsb (fun p => search p (lower t1)) MEDIUM_RISK_PATTERNS = false ->
  existsb (fun p => search p (lower t1)) LOW_RISK_PATTERNS = true ->
  any_in HIGH_RISK_KEYWORDS (lower t2) = true ->
  (score (detect_risk t1 e1 s1) < score (detect_risk t2 e2 s2))%Q.
Proof.
  intros Hh Hm Hl H2.
  assert (truthy t1 = true) as T1 by (destruct t1; [discriminate | reflexivity]).
  rewrite (detect_risk_spec t1 e1 s1 T1).
  rewrite (detect_risk_spec t2 e2 s2 (has_high_truthy t2 H2)).
  cbv zeta. cbn [score]. rewrite <- Zlt_Qlt.
  pose proof (low_tier_points (lower t1) e1 s1 Hh Hm).
  destruct (keyword_points (lower t2) e2 s2 H2) as [? _]. lia.
Qed.

(** C9.  What [check_for_crisis] flags, [detect_risk] assesses HIGH. *)
Theorem crisis_is_high text emotion sentiment :
  check_for_crisis text = true ->
  level (detect_risk text emotion sentiment) = HIGH.
Proof.
  intros H. apply crisis_has_high in H.
  rewrite (detect_risk_spec text emotion sentiment (has_high_truthy text H)).
  cbv zeta. cbn [level].
  destruct (keyword_points (lower text) emotion sentiment H) as [H75 _].
  destruct (Z.leb_spec 70 (clamp (points (lower text) emotion sentiment)));
    [reflexivity | lia].
Qed.

(** C10.  An assessment of MEDIUM or HIGH names at least one factor. *)
Theorem elevated_level_has_factor text emotion sentiment :
  let r := detect_risk text emotion sentiment in
  level r = MEDIUM \/ level r = HIGH -> factors r <> [].
Proof.
  intros r. subst r. destruct (truthy text) eqn:T.
  - rewrite (detect_risk_spec text emotion sentiment T).
    cbv zeta. cbn [level factors]. intros L F.
    apply dedup_nil in F. unfold final_acc in F.
    destruct (adjust_sentiment_factors sentiment
                (adjust_emotion emotion (after_scans (lower text)))) as [l2 E2].
    destruct (adjust_emotion_factors emotion (after_scans (lower text)))
      as [l1 E1].
    rewrite E2, E1 in F.
    apply app_eq_nil in F as [F _]. apply app_eq_nil in F as [F _].
    apply after_scans_no_factor in F.
    pose proof (emotion_points_range emotion).
    pose proof (sentiment_points_range sentiment).
    unfold clamp, points in L. rewrite F in L.
    destruct (Z.leb_spec 70 (Z.max 0 (Z.min 100
                (0 + emotion_points emotion + sentiment_points sentiment))));
      [lia |].
    destruct (Z.leb_spec 35 (Z.max 0 (Z.min 100
                (0 + emotion_points emotion + sentiment_points sentiment))));
      [lia |].
    destruct L; discriminate.
  - apply truthy_false in T. subst text. rewrite detect_risk_empty.
    cbn [level]. intros [L | L]; discriminate.
Qed.

(** C1 at a message of the test suite, read as sad and very negative. *)
Lemma high_risk_keyword_is_high_witness :
  any_in HIGH_RISK_KEYWORDS (lower "I want to kill myself") = true
  /\ let r := detect_risk "I want to kill myself" (Some "sadness"%string)
                (Some (- (8 # 10))%Q) in
     level r = HIGH
     /\ (75 <= score r)%Q
     /\ (option_map lower (Some "sadness"%string) <> Some "joy"%string ->
         (85 <= score r)%Q).
Proof.
  split; [reflexivity |].
  apply (high_risk_keyword_is_high "I want to kill myself"
           (Some "sadness"%string) (Some (- (8 # 10))%Q)).
  reflexivity.
Defined.

(** C1 as the specification words it fails when the emotion is joy: the
    keyword gives 85 points, joy takes 10 away, and nothing brings them
    back. *)
Lemma joy_lowers_keyword_score :
  let r := detect_risk "I love you all but I want to die"
             (Some "joy"%string) (Some 1%Q) in
  any_in HIGH_RISK_KEYWORDS (lower "I love you all but I want to die") = true
  /\ level r = HIGH
  /\ score r = 75%Q
  /\ ~ (85 <= score r)%Q.
Proof.
  assert (detect_risk "I love you all but I want to die"
            (Some "joy"%string) (Some 1%Q)
          = mkRisk HIGH 75 ["High-risk keyword detected: 'want to die'"%string])
    as E by (vm_compute; reflexivity).
  cbv zeta. rewrite E. cbn [level score].
  repeat split; try reflexivity. lra.
Qed.

Lemma low_tier_below_high_tier_witness :
  any_in HIGH_RISK_KEYWORDS (lower "Feeling stressed about exams") = false
  /\ existsb (fun p => search p (lower "Feeling stressed about exams"))
       MEDIUM_RISK_PATTERNS = false
  /\ existsb (fun p => search p (lower "Feeling stressed about exams"))
       LOW_RISK_PATTERNS = true
  /\ any_in HIGH_RISK_KEYWORDS (lower "I want to hurt myself") = true
  /\ (score (detect_risk "Feeling stressed about exams"
               (Some "sadness"%string) (Some (- 1)%Q))
      < score (detect_risk "I want to hurt myself"
                 (Some "joy"%string) None))%Q.
Proof.
  assert (any_in HIGH_RISK_KEYWORDS (lower "Feeling stressed about exams")
          = false) as H1 by (vm_compute; reflexivity).
  assert (existsb (fun p => search p (lower "Feeling stressed about exams"))
            MEDIUM_RISK_PATTERNS = false) as H2 by (vm_compute; reflexivity).
  assert (existsb (fun p => search p (lower "Feeling stressed about exams"))
            LOW_RISK_PATTERNS = true) as H3 by (vm_compute; reflexivity).
  assert (any_in HIGH_RISK_KEYWORDS (lower "I want to hurt myself") = true)
    as H4 by (vm_compute; reflexivity).
  refine (conj H1 (conj H2 (conj H3 (conj H4 _)))).
  exact (low_tier_below_high_tier "Feeling stressed about exams"
           "I want to hurt myself" (Some "sadness"%string) (Some (- 1)%Q)
           (Some "joy"%string) None H1 H2 H3 H4).
Defined.

Lemma crisis_is_high_witness :
  check_for_crisis "I think I will OVERDOSE tonight" = true
  /\ level (detect_risk "I think I will OVERDOSE tonight"
              (Some "joy"%string) None) = HIGH.
Proof.
  split; [reflexivity |].
  apply (crisis_is_high "I think I will OVERDOSE tonight"
           (Some "joy"%string) None).
  reflexivity.
Defined.

Lemma elevated_level_has_factor_witness :
  let r := detect_risk "nobody cares about me" None None in
  (level r = MEDIUM \/ level r = HIGH) /\ factors r <> [].
Proof.
  assert (level (detect_risk "nobody cares about me" None None) = MEDIUM)
    as L by (vm_compute; reflexivity).
  split; [left; exact L |].
  apply (elevated_level_has_factor "nobody cares about me" None None).
  left; exact L.
Defined.

(** C4 (as amended).  Every crisis indicator either is a high-risk
    keyword or is the phrase "going to hurt myself"; and each of them
    has a high-risk keyword inside it, so a text that contains a crisis
    indicator contains a high-risk keyword. *)
Theorem crisis_indicators_covered (p : string) :
  In p crisis_indicators ->
  (In p HIGH_RISK_KEYWORDS \/ p = "going to hurt myself"%string)
  /\ exists k, In k HIGH_RISK_KEYWORDS /\ contains k p = true.
Proof.
  intros H. split; [| now apply crisis_phrase_has_keyword].
  unfold crisis_indicators in H. cbn [In] in H.
  unfold HIGH_RISK_KEYWORDS. cbn [In].
  repeat (destruct H as [<- | H]; [tauto |]). destruct H.
Qed.

Lemma crisis_indicators_covered_witness :
  In "going to hurt myself"%string crisis_indicators
  /\ (In "going to hurt myself"%string HIGH_RISK_KEYWORDS
      \/ "going to hurt myself"%string = "going to hurt myself"%string)
  /\ exists k, In k HIGH_RISK_KEYWORDS
               /\ contains k "going to hurt myself" = true.
Proof.
  assert (In "going to hurt myself"%string crisis_indicators) as H
      by (cbn; tauto).
  split; [exact H |].
  exact (crisis_indicators_covered "going to hurt myself" H).
Defined.

(** C4 as the specification words it: one crisis indicator is not in
    the list of high-risk keywords. *)
Lemma crisis_indicator_not_a_keyword :
  In "going to hurt myself"%string crisis_indicators
  /\ ~ In "going to hurt myself"%string HIGH_RISK_KEYWORDS.
Proof.
  split; [cbn; tauto |].
  unfold HIGH_RISK_KEYWORDS. cbn [In].
  intros H. repeat (destruct H as [H | H]; [discriminate H |]). exact H.
Qed.

End RiskTheorems.

(* ================================================================== *)
(** * Blank input *)
(* ================================================================== *)

Section BlankInput.
Import PyStr PyNum Regex RiskDetector Points.

Lemma existsb_false_filter {A} (f : A -> bool) (l : list A) :
  existsb f l = false -> filter f l = [].
Proof.
  induction l as [|x l IH]; simpl; [reflexivity |].
  destruct (f x); [discriminate | exact IH].
Qed.

Lemma existsb_search_blank (pats : list regex) (s : string) :
  all_space s = true -> forallb solid pats = true ->
  existsb (fun p => search p s) pats = false.
Proof.
  intros Hs. induction pats as [|p pats IH]; simpl; [reflexivity |].
  rewrite andb_true_iff. intros [Hp Hps].
  now rewrite (search_blank p s Hs Hp), IH.
Qed.

(** Every keyword and every pattern needs a character that is not white
    space. *)
Lemma keywords_not_blank :
  forallb (fun k => negb (all_space k)) HIGH_RISK_KEYWORDS = true.
Proof. vm_compute. reflexivity. Qed.

Lemma medium_patterns_solid : forallb solid MEDIUM_RISK_PATTERNS = true.
Proof. vm_compute. reflexivity. Qed.

Lemma low_patterns_solid : forallb solid LOW_RISK_PATTERNS = true.
Proof. vm_compute. reflexivity. Qed.

(** In a blank text no stage of the scan finds anything. *)
Lemma blank_scans (t : string) :
  all_space t = true ->
  has_high t = false /\ has_medium t = false /\ has_low t = false.
Proof.
  intros H. repeat split.
  - apply any_in_blank; [assumption | exact keywords_not_blank].
  - apply existsb_search_blank; [assumption | exact medium_patterns_solid].
  - apply existsb_search_blank; [assumption | exact low_patterns_solid].
Qed.

Lemma detect_risk_blank (text : string) :
  all_space text = true -> detect_risk text None None = mkRisk LOW 0 [].
Proof.
  intros H. destruct (truthy text) eqn:T.
  - rewrite (detect_risk_spec text None None T). cbv zeta.
    destruct (blank_scans (lower text)) as [Hh [Hm Hl]];
      [now rewrite lower_blank |].
    assert (scan_points (lower text) = 0%Z) as P
        by (unfold scan_points; now rewrite Hh, Hm, Hl).
    unfold points. rewrite P. cbn [emotion_points sentiment_points].
    change (final_acc text None None) with (after_scans (lower text)).
    rewrite after_scans_factors, Hl.
    unfold has_high, any_in in Hh. unfold has_medium in Hm.
    rewrite (existsb_false_filter _ _ Hh), (existsb_false_filter _ _ Hm).
    reflexivity.
  - apply truthy_false in T. now subst text.
Qed.

(** C5.  For an empty or all-blank text the classifier answers neutral
    with confidence 0, the analyser a score of 0 with neutral polarity, and
    the detector LOW with score 0 and no factor.  The two services return
    before they look at their model (so whatever the model would do, and
    whether it loads at all, the result is a value and the global is left
    as it was). *)
Theorem blank_text_defaults (text : string)
    (load_e : Outcome EmotionClassifier.Model)
    (g_e : option EmotionClassifier.Classifier)
    (load_s : Outcome SentimentAnalyzer.Model)
    (g_s : option SentimentAnalyzer.Analyzer) :
  all_space text = true ->
  EmotionClassifier.classify_emotion load_e g_e text
  = (EmotionClassifier.mkEmotion "neutral" 0, g_e)
  /\ SentimentAnalyzer.analyze_sentiment load_s g_s text
     = (SentimentAnalyzer.mkSentiment 0 "neutral", g_s)
  /\ detect_risk text None None = mkRisk LOW 0 [].
Proof.
  intros H. repeat split.
  - unfold EmotionClassifier.classify_emotion.
    rewrite (strip_blank text H). cbn [truthy negb].
    now rewrite orb_true_r.
  - unfold SentimentAnalyzer.analyze_sentiment.
    rewrite (strip_blank text H). cbn [truthy negb].
    now rewrite orb_true_r.
  - now apply detect_risk_blank.
Qed.

(** C5 at a text of a space, a tab and a newline, with models that raise
    when they are called. *)
Lemma blank_text_defaults_witness :
  let text := String " " (String (ascii_of_nat 9) (String (ascii_of_nat 10) "")) in
  let broken_e : EmotionClassifier.Model := fun _ => Raised in
  let broken_s : SentimentAnalyzer.Model := fun _ => Raised in
  all_space text = true
  /\ EmotionClassifier.classify_emotion (Returned broken_e) None text
     = (EmotionClassifier.mkEmotion "neutral" 0, None)
  /\ SentimentAnalyzer.analyze_sentiment (Returned broken_s) None text
     = (SentimentAnalyzer.mkSentiment 0 "neutral", None)
  /\ detect_risk text None None = mkRisk LOW 0 [].
Proof.
  cbv zeta. split; [reflexivity |].
  apply (blank_text_defaults
           (String " " (String (ascii_of_nat 9) (String (ascii_of_nat 10) "")))).
  reflexivity.
Defined.

End BlankInput.

(* ================================================================== *)
(** * The trend of the risk history *)
(* ================================================================== *)

Section TrendFacts.
Import PyNum PyFloat RiskDetector RiskApi Scenario.
Local Open Scope Q_scope.

Lemma Qltb_true_iff (x y : Q) : Qltb x y = true <-> x < y.
Proof.
  unfold Qltb. rewrite negb_true_iff. split.
  - intros H. apply Qnot_le_lt. intros L. apply Qle_bool_iff in L. congruence.
  - intros H. destruct (Qle_bool y x) eqn:E; [| reflexivity].
    apply Qle_bool_iff in E. exfalso. now apply (Qlt_not_le x y).
Qed.

Lemma Qltb_false_iff (x y : Q) : Qltb x y = false <-> y <= x.
Proof. unfold Qltb. rewrite negb_false_iff. apply Qle_bool_iff. Qed.

Lemma few_scores_insufficient (sum : list Q -> Q) (scores : list RiskScore) :
  (List.length scores < 5)%nat ->
  determine_trend sum scores = "insufficient_data"%string.
Proof.
  intros L. unfold determine_trend.
  destruct (Nat.leb_spec 5 (List.length scores)); [lia | reflexivity].
Qed.

(** Every score that [collect] returns passed the validation. *)
Lemma collect_range (cursor : list RiskDoc) :
  forall scores, collect cursor = Returned scores ->
                 Forall (fun s => 0 <= score s <= 100) scores.
Proof.
  induction cursor as [|doc rest IH]; intros scores; cbn [collect].
  - intros [= <-]. constructor.
  - unfold make_RiskScore.
    destruct (parse_level (doc_level doc)); [| discriminate].
    destruct (Qle_bool 0 (doc_score doc)) eqn:A;
      [destruct (Qle_bool (doc_score doc) 100) eqn:B |];
      cbn [andb]; try discriminate.
    destruct (collect rest) as [|l]; [discriminate |].
    intros [= <-]. constructor; [| now apply IH].
    cbn [score]. apply Qle_bool_iff in A, B. tauto.
Qed.

(** The left-to-right summation is exact on whole scores. *)
Lemma sum_left_exact : exact_on_scores sum_left.
Proof.
  intros zs L F. unfold sum_left.
  apply (fold_fadd_whole zs 0); [lia | lia | assumption].
Qed.

(** The average of two whole scores, and that average moved by 5 or by
    5 + 1/16, are doubles. *)
Lemma halves_exact (m : Z) :
  (0 <= m <= 200)%Z ->
  fsub (fdiv (inject_Z m) 2) 5 == inject_Z m / 2 - 5
  /\ fadd (fdiv (inject_Z m) 2) 5 == inject_Z m / 2 + 5
  /\ fl (inject_Z m / 2 + 5 + (1 # 16)) == inject_Z m / 2 + 5 + (1 # 16).
Proof.
  intros B.
  assert (forallb
            (fun m =>
               Qeq_bool (fsub (fdiv (inject_Z m) 2) 5) (inject_Z m / 2 - 5)
               && Qeq_bool (fadd (fdiv (inject_Z m) 2) 5) (inject_Z m / 2 + 5)
               && Qeq_bool (fl (inject_Z m / 2 + 5 + (1 # 16)))
                           (inject_Z m / 2 + 5 + (1 # 16)))
            (map Z.of_nat (seq 0 201)) = true) as T
      by (vm_compute; reflexivity).
  pose proof (range_check _ _ T m ltac:(lia)) as E. cbv beta in E.
  apply andb_true_iff in E as [E E3]. apply andb_true_iff in E as [E1 E2].
  apply Qeq_bool_iff in E1, E2, E3. tauto.
Qed.

(** With a sum [S] of the five recent whole scores and a sum [m] of the
    two older ones, the rounded comparison agrees with the exact one:
    the two averages differ by 5 and at least a tenth more, and a double
    lies in between. *)
Lemma whole_averages_worsening (S m : Z) :
  (0 <= m <= 200)%Z ->
  inject_Z m / 2 + 5 < inject_Z S / 5 ->
  Qltb (fdiv (inject_Z S) 5) (fsub (fdiv (inject_Z m) 2) 5) = false
  /\ Qltb (fadd (fdiv (inject_Z m) 2) 5) (fdiv (inject_Z S) 5) = true.
Proof.
  intros B H. destruct (halves_exact m B) as [E1 [E2 E3]].
  assert (inject_Z m / 2 == inject_Z m * (1 # 2)) as Dm by field.
  assert (inject_Z S / 5 == inject_Z S * (1 # 5)) as DS by field.
  assert (inject_Z m / 2 + 5 + (1 # 16) <= inject_Z S / 5) as G.
  { assert (5 * m + 50 < 2 * S)%Z as Z1.
    { rewrite Zlt_Qlt, inject_Z_plus, !inject_Z_mult.
      change (inject_Z 5) with 5. change (inject_Z 50) with 50.
      change (inject_Z 2) with 2. rewrite Dm, DS in H. lra. }
    assert (5 * m + 51 <= 2 * S)%Z as Z2 by lia.
    rewrite Zle_Qle, inject_Z_plus, !inject_Z_mult in Z2.
    change (inject_Z 5) with 5 in Z2. change (inject_Z 51) with 51 in Z2.
    change (inject_Z 2) with 2 in Z2. rewrite Dm, DS. lra. }
  assert (inject_Z m / 2 + 5 + (1 # 16) <= fdiv (inject_Z S) 5) as G'.
  { rewrite <- E3. unfold fdiv. now apply fl_mono. }
  split.
  - apply Qltb_false_iff. rewrite E1. rewrite Dm, DS in *. lra.
  - apply Qltb_true_iff. rewrite E2. rewrite Dm in *. lra.
Qed.

(** Seven whole scores whose recent average exceeds the prior one by more
    than five points. *)
Lemma seven_whole_scores_worsening (sum : list Q -> Q)
    (scores : list RiskScore) :
  exact_on_scores sum ->
  List.length scores = 7%nat ->
  whole_scores scores ->
  Forall (fun s => 0 <= score s <= 100) scores ->
  prior_average scores + 5 < recent_average scores ->
  determine_trend sum scores = "worsening"%string.
Proof.
  intros X L W V H.
  destruct scores as [|a [|b [|c [|d [|e [|f [|g [|x scores]]]]]]]];
    try discriminate L.
  unfold whole_scores in W.
  apply Forall_cons_iff in W as [[za Ea] W].
  apply Forall_cons_iff in W as [[zb Eb] W].
  apply Forall_cons_iff in W as [[zc Ec] W].
  apply Forall_cons_iff in W as [[zd Ed] W].
  apply Forall_cons_iff in W as [[ze Ee] W].
  apply Forall_cons_iff in W as [[zf Ef] W].
  apply Forall_cons_iff in W as [[zg Eg] _].
  apply Forall_cons_iff in V as [Va V]. apply Forall_cons_iff in V as [Vb V].
  apply Forall_cons_iff in V as [Vc V]. apply Forall_cons_iff in V as [Vd V].
  apply Forall_cons_iff in V as [Ve V]. apply Forall_cons_iff in V as [Vf V].
  apply Forall_cons_iff in V as [Vg _].
  rewrite Ea in Va. rewrite Eb in Vb. rewrite Ec in Vc. rewrite Ed in Vd.
  rewrite Ee in Ve. rewrite Ef in Vf. rewrite Eg in Vg.
  assert (0 <= za <= 100)%Z as Ra by (rewrite !Zle_Qle; exact Va).
  assert (0 <= zb <= 100)%Z as Rb by (rewrite !Zle_Qle; exact Vb).
  assert (0 <= zc <= 100)%Z as Rc by (rewrite !Zle_Qle; exact Vc).
  assert (0 <= zd <= 100)%Z as Rd by (rewrite !Zle_Qle; exact Vd).
  assert (0 <= ze <= 100)%Z as Re by (rewrite !Zle_Qle; exact Ve).
  assert (0 <= zf <= 100)%Z as Rf by (rewrite !Zle_Qle; exact Vf).
  assert (0 <= zg <= 100)%Z as Rg by (rewrite !Zle_Qle; exact Vg).
  unfold prior_average, recent_average, average, py_sum in H.
  cbn [firstn skipn map fold_left List.length] in H.
  rewrite Ea, Eb, Ec, Ed, Ee, Ef, Eg in H.
  change (inject_Z (Z.of_nat 2)) with 2 in H.
  change (inject_Z (Z.of_nat 5)) with 5 in H.
  unfold determine_trend, slice.
  cbn [List.length Nat.leb Nat.ltb Nat.sub skipn firstn map].
  rewrite Ea, Eb, Ec, Ed, Ee, Ef, Eg.
  change (inject_Z (Z.min 5 (Z.of_nat 2))) with 2.
  change [inject_Z za; inject_Z zb; inject_Z zc; inject_Z zd; inject_Z ze]
    with (map inject_Z [za; zb; zc; zd; ze]).
  change [inject_Z zf; inject_Z zg] with (map inject_Z [zf; zg]).
  rewrite (X [za; zb; zc; zd; ze])
    by (cbn [List.length]; try lia; repeat constructor; lia).
  rewrite (X [zf; zg])
    by (cbn [List.length]; try lia; repeat constructor; lia).
  cbn [fold_left].
  destruct (whole_averages_worsening (0 + za + zb + zc + zd + ze)
                                     (0 + zf + zg)) as [-> ->];
    [lia | | reflexivity].
  rewrite !inject_Z_plus. change (inject_Z 0) with 0. exact H.
Qed.

(** C3 (as amended).  For a history of seven valid scores that are whole
    numbers, as the risk detector produces them, the trend is "worsening"
    when the average of the five most recent scores is more than five
    points above the average of the scores before them; for a history of
    fewer than five scores it is "insufficient_data".  All that is asked
    of the built-in [sum] is that it adds whole scores without an
    error. *)
Theorem trend_of_history (sum : list Q -> Q) (user : string)
    (cursor : list RiskDoc) (scores : list RiskScore) :
  collect cursor = Returned scores ->
  (List.length scores = 7%nat ->
   whole_scores scores ->
   exact_on_scores sum ->
   prior_average scores + 5 < recent_average scores ->
   exists h, get_risk_scores sum user cursor = Returned h
             /\ trend h = Some "worsening"%string)
  /\ ((List.length scores < 5)%nat ->
      exists h, get_risk_scores sum user cursor = Returned h
                /\ trend h = Some "insufficient_data"%string).
Proof.
  intros C. unfold get_risk_scores. rewrite C. split.
  - intros L W X H. eexists. split; [reflexivity |]. cbn [trend].
    rewrite (seven_whole_scores_worsening sum scores X L W); try assumption;
      [reflexivity |].
    now apply (collect_range cursor).
  - intros L. eexists. split; [reflexivity |]. cbn [trend].
    now rewrite few_scores_insufficient.
Qed.

Lemma trend_of_history_witness :
  (collect rising_cursor = Returned rising_scores
   /\ List.length rising_scores = 7%nat
   /\ whole_scores rising_scores
   /\ exact_on_scores sum_left
   /\ prior_average rising_scores + 5 < recent_average rising_scores
   /\ exists h, get_risk_scores sum_left "u1" rising_cursor = Returned h
                /\ trend h = Some "worsening"%string)
  /\ (collect short_cursor = Returned short_scores
      /\ (List.length short_scores < 5)%nat
      /\ exists h, get_risk_scores sum_left "u1" short_cursor = Returned h
                   /\ trend h = Some "insufficient_data"%string).
Proof.
  assert (collect rising_cursor = Returned rising_scores) as C1
      by reflexivity.
  assert (collect short_cursor = Returned short_scores) as C2
      by reflexivity.
  assert (whole_scores rising_scores) as W
      by (unfold rising_scores; repeat constructor; cbn [score];
          eexists; reflexivity).
  assert (prior_average rising_scores + 5 < recent_average rising_scores)
    as A by reflexivity.
  assert (List.length short_scores < 5)%nat as L by (cbn; lia).
  split.
  - refine (conj C1 (conj eq_refl (conj W (conj sum_left_exact (conj A _))))).
    exact (proj1 (trend_of_history sum_left "u1" rising_cursor rising_scores
                    C1)
                 eq_refl W sum_left_exact A).
  - refine (conj C2 (conj L _)).
    exact (proj2 (trend_of_history sum_left "u1" short_cursor short_scores
                    C2) L).
Defined.

(** C3 as the specification words it fails at the boundary: a recent
    average exactly five points above the prior one is "stable".  The
    scores are whole numbers and nothing is rounded on the way. *)
Lemma exactly_five_higher_is_stable :
  collect boundary_cursor = Returned boundary_scores
  /\ List.length boundary_scores = 7%nat
  /\ prior_average boundary_scores + 5 <= recent_average boundary_scores
  /\ exists h, get_risk_scores sum_left "u1" boundary_cursor = Returned h
               /\ trend h = Some "stable"%string
               /\ trend h <> Some "worsening"%string.
Proof.
  split; [reflexivity |]. split; [reflexivity |]. split.
  - unfold Qle. vm_compute. discriminate.
  - eexists. split; [reflexivity |].
    split; [vm_compute; reflexivity | vm_compute; discriminate].
Qed.

(** Why the scores of C3 are whole numbers: with the double next to 5 as
    the most recent score the recent average is above the prior one by
    more than 5, the five scores add up to the double 25, and the trend
    is "stable". *)
Lemma rounding_hides_small_excess :
  collect rounded_cursor = Returned rounded_scores
  /\ List.length rounded_scores = 7%nat
  /\ prior_average rounded_scores + 5 < recent_average rounded_scores
  /\ sum_left (map score (firstn 5 rounded_scores)) = 25
  /\ exists h, get_risk_scores sum_left "u1" rounded_cursor = Returned h
               /\ trend h = Some "stable"%string.
Proof.
  split; [reflexivity |]. split; [reflexivity |]. split; [reflexivity |].
  split; [vm_compute; reflexivity |].
  eexists. split; [reflexivity |]. vm_compute. reflexivity.
Qed.

(** And why they are seven: with ten whole scores the averages 12 / 5 and
    37 / 5 are no doubles; on paper they differ by exactly 5, and the
    rounded test finds the recent one lower by more. *)
Lemma ten_whole_scores_improving :
  whole_scores ten_scores
  /\ recent_average ten_scores == prior_average ten_scores - 5
  /\ determine_trend sum_left ten_scores = "improving"%string.
Proof.
  split; [| split].
  - unfold ten_scores. repeat constructor; cbn [score]; eexists; reflexivity.
  - reflexivity.
  - vm_compute. reflexivity.
Qed.

End TrendFacts.

(* ================================================================== *)
(** * The companion's reply *)
(* ================================================================== *)

Section ReplyFacts.
Import PyStr PyNum LlmCompanion.
Local Open Scope string_scope.

(** The template bank has no empty entry. *)
Lemma mock_response_nonempty message emotion risk_level :
  _generate_mock_response message emotion risk_level <> "".
Proof.
  unfold _generate_mock_response.
  repeat match goal with
         | |- (if ?b then _ else _) <> _ => destruct b
         end; discriminate.
Qed.

(** C7 (as amended).  The deterministic fallback always answers with a
    non-empty string, and [generate_response] returns the empty string in
    one case only: a completion service is in use, its call returns, and
    the text it returns is empty or all white space (the text is stripped
    and returned as it is). *)
Theorem reply_empty_only_from_service (api_key : string) (service : Service)
    (g : option Client) (message : string) (emotion risk_level : option string)
    (conversation_history : option (list Turn)) :
  _generate_mock_response message emotion risk_level <> ""
  /\ (fst (generate_response api_key service g message emotion risk_level
             conversation_history) = ""
      <-> exists create content,
            fst (get_client api_key service g) = OpenAI create
            /\ create (build_messages message emotion risk_level
                         conversation_history) = Returned content
            /\ all_space content = true).
Proof.
  split; [apply mock_response_nonempty |].
  unfold generate_response.
  destruct (get_client api_key service g) as [client g'] eqn:G.
  cbn [fst]. destruct client as [|create].
  - cbn [fst]. split.
    + intros H. now apply mock_response_nonempty in H.
    + intros [c [content [H _]]]. discriminate H.
  - destruct (create (build_messages message emotion risk_level
                        conversation_history)) as [|content] eqn:R;
      cbn [fst]; split.
    + intros H. now apply mock_response_nonempty in H.
    + intros [c [content [H [H' _]]]]. injection H as <-. congruence.
    + intros H. exists create, content.
      repeat split; [assumption | now apply strip_empty_iff].
    + intros [c [content' [H [H' B]]]]. injection H as <-.
      rewrite R in H'. injection H' as <-. now apply strip_empty_iff.
Qed.

(** C7 as the specification words it fails on the service path: a
    completion of two spaces is stripped to the empty reply. *)
Lemma blank_completion_gives_empty_reply :
  fst (generate_response "sk-live-key" (fun _ => Returned "  ") None
         "I had a long day" (Some "neutral") (Some "LOW") None) = "".
Proof. reflexivity. Qed.

End ReplyFacts.

(* ================================================================== *)
(** * The chat handler and its alerts *)
(* ================================================================== *)

Section AlertFacts.
Import PyNum RiskDetector ChatApi.

(** C8.  Handling a message appends exactly one alert when the assessment
    of the message is HIGH and none otherwise; the alert carries the level
    HIGH, the user, the message and the time of the request, and is
    unresolved. *)
Theorem alert_iff_high (env : Env) (AI_AVAILABLE : bool) (now1 now2 : Z)
    (g : Globals) (db : DB) (chat_message : ChatMessage) :
  let risk := assessment env AI_AVAILABLE g (cm_message chat_message) in
  let db' := snd (send_message env AI_AVAILABLE now1 now2 g db chat_message) in
  (level risk = HIGH
   /\ exists alert,
        alerts db' = alerts db ++ [alert]
        /\ risk_level alert = HIGH
        /\ alert_user_id alert = cm_user_id chat_message
        /\ trigger_message alert = cm_message chat_message
        /\ created_at alert = now1
        /\ resolved alert = false)
  \/ (level risk <> HIGH /\ alerts db' = alerts db).
Proof.
  unfold assessment, send_message.
  destruct (analyse env AI_AVAILABLE g (cm_message chat_message))
    as [[[emotion_result sentiment_result] risk_result] g1].
  cbn [fst snd].
  destruct (reply env AI_AVAILABLE g1 (cm_message chat_message)
              (EmotionClassifier.emotion emotion_result) (level risk_result))
    as [ai_response g2].
  cbv zeta. destruct (level risk_result) eqn:L; cbn [snd alerts].
  - right. split; [discriminate | reflexivity].
  - right. split; [discriminate | reflexivity].
  - left. split; [reflexivity |]. eexists. repeat split.
Qed.

End AlertFacts.

(* ================================================================== *)
(** * The scenarios of the specification, run on the model *)
(* ================================================================== *)

Section Scenarios.
Import PyStr PyNum Regex RiskDetector ChatApi Scenario.

Example lower_mixed_case : lower "I Want To DIE" = "i want to die"%string.
Proof. reflexivity. Qed.

Example strip_both_ends : strip "   a b  " = "a b"%string.
Proof. reflexivity. Qed.

Example pattern_feeling_hopeless :
  existsb (fun p => search p "i am feeling   so hopeless today")
    MEDIUM_RISK_PATTERNS = true.
Proof. vm_compute. reflexivity. Qed.

Example pattern_no_one_cares :
  existsb (fun p => search p "noone cares") MEDIUM_RISK_PATTERNS = true.
Proof. vm_compute. reflexivity. Qed.

Example pattern_needs_space :
  existsb (fun p => search p "hatemyself") MEDIUM_RISK_PATTERNS = false.
Proof. vm_compute. reflexivity. Qed.

Example pattern_cant_sleep :
  existsb (fun p => search p "i cant sleep") LOW_RISK_PATTERNS = true.
Proof. vm_compute. reflexivity. Qed.

Example round_ties_to_even :
  (py_round (25 # 100) 1 = 1 # 5 /\ py_round (35 # 100) 1 = 2 # 5)%Q.
Proof. split; reflexivity. Qed.

(** "I want to kill myself": HIGH, 85, a keyword factor, an alert. *)
Example scenario_kill_myself :
  let '(response, _, db) :=
    send_message offline true 1 2 fresh empty_db
      (mkChatMessage "u1" "I want to kill myself") in
  resp_risk_level response = Some "HIGH"%string
  /\ resp_risk_score response = Some 85%Q
  /\ map re_factors (risk_scores db)
     = [["High-risk keyword detected: 'kill myself'"%string]]
  /\ alerts db = [mkAlert "u1" HIGH "I want to kill myself" 1 false None None].
Proof. vm_compute. repeat split. Qed.

(** A happy message: joy, a positive sentiment, LOW, no alert. *)
Example scenario_happy :
  let '(response, _, db) :=
    send_message offline true 1 2 fresh empty_db
      (mkChatMessage "u1" "I'm so happy today, everything is great!") in
  resp_emotion response = Some "joy"%string
  /\ resp_sentiment_polarity response = Some "positive"%string
  /\ resp_sentiment_score response = Some 1%Q
  /\ resp_risk_level response = Some "LOW"%string
  /\ resp_risk_score response = Some 0%Q
  /\ alerts db = [].
Proof. vm_compute. repeat split. Qed.

(** The keyword score of 75 is reached through the handler: the fallback
    classifier reads "love" as joy. *)
Example scenario_joy_and_keyword :
  let '(response, _, db) :=
    send_message offline true 1 2 fresh empty_db
      (mkChatMessage "u1" "I love you all but I want to die") in
  resp_emotion response = Some "joy"%string
  /\ resp_risk_level response = Some "HIGH"%string
  /\ resp_risk_score response = Some 75%Q
  /\ List.length (alerts db) = 1%nat.
Proof. vm_compute. repeat split. Qed.

End Scenarios.

(* ================================================================== *)
(** * More on rounding and on lower case *)
(* ================================================================== *)

Section MoreNumberFacts.
Import PyStr PyNum.
Local Open Scope Q_scope.

(** [round(x, n)] keeps the order. *)
Lemma py_round_mono (x y : Q) (n : nat) :
  x <= y -> py_round x n <= py_round y n.
Proof.
  intros H. unfold py_round. rewrite !Qred_correct.
  assert (0 < 10 ^ Z.of_nat n)%Z as Hp by (apply Z.pow_pos_nonneg; lia).
  set (p := (10 ^ Z.of_nat n)%Z) in *.
  assert (inject_Z 0 < inject_Z p) as Hq by (now rewrite <- Zlt_Qlt).
  change (inject_Z 0) with 0 in Hq.
  apply Qmult_le_compat_r.
  - rewrite <- Zle_Qle. apply round_half_even_mono.
    apply Qmult_le_compat_r; [assumption | now apply Qlt_le_weak].
  - apply Qlt_le_weak. now apply Qinv_lt_0_compat.
Qed.

Lemma lower_char_idempotent (c : ascii) :
  lower_char (lower_char c) = lower_char c.
Proof. destruct c as [[] [] [] [] [] [] [] []]; vm_compute; reflexivity. Qed.

(** Lower-casing twice is lower-casing once. *)
Lemma lower_idempotent (s : string) : lower (lower s) = lower s.
Proof.
  induction s as [|c s IH]; simpl; [reflexivity |].
  now rewrite lower_char_idempotent, IH.
Qed.

Lemma truthy_lower (s : string) : truthy (lower s) = truthy s.
Proof. destruct s; reflexivity. Qed.

(** The test [not text or not text.strip()] holds for blank texts only. *)
Lemma blank_test (text : string) :
  (negb (truthy text) || negb (truthy (strip text)))%bool = all_space text.
Proof.
  destruct (all_space text) eqn:B.
  - rewrite (strip_blank text B). apply orb_true_r.
  - destruct text as [|c text]; [discriminate |]. cbn [truthy negb orb].
    destruct (strip (String c text)) eqn:S; [| reflexivity].
    apply strip_empty_iff in S. congruence.
Qed.

End MoreNumberFacts.

(* ================================================================== *)
(** * The risk detector: further properties *)
(* ================================================================== *)

Section MoreRiskFacts.
Import PyStr PyNum Regex RiskDetector Points.
Local Open Scope Z_scope.

Lemma in_dedup (l : list string) (x : string) : In x (dedup l) <-> In x l.
Proof.
  induction l as [|y l IH]; simpl; [tauto |].
  rewrite filter_In, IH, negb_true_iff, String.eqb_neq.
  destruct (string_dec y x); intuition congruence.
Qed.

Lemma dedup_NoDup (l : list string) : NoDup (dedup l).
Proof.
  induction l as [|y l IH]; simpl; constructor.
  - rewrite filter_In, negb_true_iff, String.eqb_neq. tauto.
  - now apply NoDup_filter.
Qed.

(** X1.  The factors of an assessment are pairwise different. *)
Theorem detect_risk_factors_nodup text emotion sentiment :
  NoDup (factors (detect_risk text emotion sentiment)).
Proof.
  destruct (truthy text) eqn:T.
  - rewrite (detect_risk_spec text emotion sentiment T). cbv zeta.
    cbn [factors]. apply dedup_NoDup.
  - apply truthy_false in T. subst text. rewrite detect_risk_empty. constructor.
Qed.

(** X2.  Without a high-risk keyword and without a medium-risk pattern the
    score is at most 50 and the level is never HIGH; when no low-risk
    pattern matches either, the score is at most 25 and the level is LOW,
    whatever the emotion and the sentiment. *)
Theorem no_keyword_no_pattern_not_high text emotion sentiment :
  any_in HIGH_RISK_KEYWORDS (lower text) = false ->
  existsb (fun p => search p (lower text)) MEDIUM_RISK_PATTERNS = false ->
  let r := detect_risk text emotion sentiment in
  (score r <= 50)%Q /\ level r <> HIGH
  /\ (existsb (fun p => search p (lower text)) LOW_RISK_PATTERNS = false ->
      (score r <= 25)%Q /\ level r = LOW).
Proof.
  intros Hh Hm r. subst r. destruct (truthy text) eqn:T.
  - rewrite (detect_risk_spec text emotion sentiment T). cbv zeta.
    cbn [level score].
    pose proof (low_tier_points (lower text) emotion sentiment Hh Hm) as B.
    change 50%Q with (inject_Z 50). change 25%Q with (inject_Z 25).
    rewrite <- !Zle_Qle.
    set (c := clamp (points (lower text) emotion sentiment)) in *.
    split; [exact B |]. split.
    + destruct (Z.leb_spec 70 c); [lia |].
      destruct (35 <=? c); discriminate.
    + intros Hl.
      pose proof (emotion_points_range emotion).
      pose proof (sentiment_points_range sentiment).
      assert (c <= 25) as B25.
      { subst c. unfold clamp, points, scan_points, has_high, has_medium,
          has_low. rewrite Hh, Hm, Hl. lia. }
      split; [exact B25 |].
      destruct (Z.leb_spec 70 c); [lia |].
      destruct (Z.leb_spec 35 c); [lia | reflexivity].
  - apply truthy_false in T. subst text. rewrite detect_risk_empty.
    cbn [level score]. repeat split; try discriminate; lra.
Qed.

Lemma no_keyword_no_pattern_not_high_witness :
  any_in HIGH_RISK_KEYWORDS (lower "Thanks for listening") = false
  /\ existsb (fun p => search p (lower "Thanks for listening"))
       MEDIUM_RISK_PATTERNS = false
  /\ let r := detect_risk "Thanks for listening" (Some "sadness"%string)
                (Some (- 1)%Q) in
     (score r <= 50)%Q /\ level r <> HIGH
     /\ (existsb (fun p => search p (lower "Thanks for listening"))
           LOW_RISK_PATTERNS = false ->
         (score r <= 25)%Q /\ level r = LOW).
Proof.
  assert (any_in HIGH_RISK_KEYWORDS (lower "Thanks for listening") = false)
    as H1 by (vm_compute; reflexivity).
  assert (existsb (fun p => search p (lower "Thanks for listening"))
            MEDIUM_RISK_PATTERNS = false) as H2 by (vm_compute; reflexivity).
  refine (conj H1 (conj H2 _)).
  exact (no_keyword_no_pattern_not_high "Thanks for listening"
           (Some "sadness"%string) (Some (- 1)%Q) H1 H2).
Defined.

(** X3.  A text with a medium-risk pattern scores at least 45 and is assessed
    MEDIUM or HIGH, whatever the emotion and the sentiment. *)
Theorem medium_pattern_at_least_medium text emotion sentiment :
  existsb (fun p => search p (lower text)) MEDIUM_RISK_PATTERNS = true ->
  let r := detect_risk text emotion sentiment in
  (45 <= score r)%Q /\ level r <> LOW.
Proof.
  intros Hm r. subst r.
  assert (truthy text = true) as T by (destruct text; [discriminate | reflexivity]).
  rewrite (detect_risk_spec text emotion sentiment T). cbv zeta.
  cbn [level score].
  pose proof (emotion_points_range emotion).
  pose proof (sentiment_points_range sentiment).
  assert (45 <= clamp (points (lower text) emotion sentiment)) as B.
  { unfold clamp, points.
    destruct (scan_points_cases (lower text))
      as [[_ E] | [[_ [_ E]] | [[_ [E _]] | [_ [E _]]]]];
      unfold has_medium in *; try congruence; lia. }
  change 45%Q with (inject_Z 45). rewrite <- Zle_Qle.
  split; [exact B |].
  destruct (Z.leb_spec 70 (clamp (points (lower text) emotion sentiment)));
    [discriminate |].
  destruct (Z.leb_spec 35 (clamp (points (lower text) emotion sentiment)));
    [discriminate | lia].
Qed.

Lemma medium_pattern_at_least_medium_witness :
  existsb (fun p => search p (lower "I can't cope any more"))
    MEDIUM_RISK_PATTERNS = true
  /\ let r := detect_risk "I can't cope any more" (Some "joy"%string) None in
     (45 <= score r)%Q /\ level r <> LOW.
Proof.
  assert (existsb (fun p => search p (lower "I can't cope any more"))
            MEDIUM_RISK_PATTERNS = true) as H by (vm_compute; reflexivity).
  refine (conj H _).
  exact (medium_pattern_at_least_medium "I can't cope any more"
           (Some "joy"%string) None H).
Defined.

Lemma emotion_points_lower (label : string) :
  emotion_points (Some (lower label)) = emotion_points (Some label).
Proof.
  unfold emotion_points. now rewrite truthy_lower, lower_idempotent.
Qed.

(** X4.  The assessment does not depend on the letter case of the text, and
    its level and score do not depend on the letter case of the emotion
    label. *)
Theorem detect_risk_ignores_case text label sentiment :
  (forall emotion,
     detect_risk (lower text) emotion sentiment
     = detect_risk text emotion sentiment)
  /\ level (detect_risk text (Some (lower label)) sentiment)
     = level (detect_risk text (Some label) sentiment)
  /\ score (detect_risk text (Some (lower label)) sentiment)
     = score (detect_risk text (Some label) sentiment).
Proof.
  split.
  - intros emotion. unfold detect_risk.
    now rewrite truthy_lower, lower_idempotent.
  - destruct (truthy text) eqn:T.
    + rewrite !(detect_risk_spec text _ sentiment T). cbv zeta.
      cbn [level score]. unfold points. rewrite emotion_points_lower.
      split; reflexivity.
    + apply truthy_false in T. subst text. split; reflexivity.
Qed.

Lemma sentiment_points_mono (s1 s2 : Q) :
  (s1 <= s2)%Q -> sentiment_points (Some s2) <= sentiment_points (Some s1).
Proof.
  intros H. unfold sentiment_points.
  destruct (Qltb s2 (- (6 # 10))) eqn:A2.
  - apply Qltb_true_iff in A2.
    assert (Qltb s1 (- (6 # 10)) = true) as -> by (apply Qltb_true_iff; lra).
    lia.
  - destruct (Qltb s2 (- (3 # 10))) eqn:B2.
    + apply Qltb_true_iff in B2.
      destruct (Qltb s1 (- (6 # 10))); [lia |].
      assert (Qltb s1 (- (3 # 10)) = true) as -> by (apply Qltb_true_iff; lra).
      lia.
    + destruct (Qltb s1 (- (6 # 10))); [lia |].
      destruct (Qltb s1 (- (3 # 10))); lia.
Qed.

(** X5.  A more negative sentiment never lowers the score, and a sentiment
    adds at most 10 points to the score obtained without one. *)
Theorem sentiment_never_lowers text emotion (s1 s2 : Q) :
  (s1 <= s2)%Q ->
  (score (detect_risk text emotion (Some s2))
   <= score (detect_risk text emotion (Some s1)))%Q
  /\ (score (detect_risk text emotion None)
      <= score (detect_risk text emotion (Some s1)))%Q
  /\ (score (detect_risk text emotion (Some s1))
      <= score (detect_risk text emotion None) + 10)%Q.
Proof.
  intros H. destruct (truthy text) eqn:T.
  - rewrite !(detect_risk_spec text emotion _ T). cbv zeta. cbn [score].
    pose proof (sentiment_points_mono s1 s2 H) as M.
    pose proof (sentiment_points_range (Some s1)) as R.
    change 10%Q with (inject_Z 10). rewrite Qplus_inject, <- !Zle_Qle.
    unfold clamp, points in *. cbn [sentiment_points] in *.
    repeat split; lia.
  - apply truthy_false in T. subst text. rewrite !detect_risk_empty.
    cbn [score]. repeat split; lra.
Qed.

Lemma sentiment_never_lowers_witness :
  (- (7 # 10) <= - (4 # 10))%Q
  /\ (score (detect_risk "I feel so empty" None (Some (- (4 # 10))%Q))
      <= score (detect_risk "I feel so empty" None (Some (- (7 # 10))%Q)))%Q
  /\ (score (detect_risk "I feel so empty" None None)
      <= score (detect_risk "I feel so empty" None (Some (- (7 # 10))%Q)))%Q
  /\ (score (detect_risk "I feel so empty" None (Some (- (7 # 10))%Q))
      <= score (detect_risk "I feel so empty" None None) + 10)%Q.
Proof.
  assert (- (7 # 10) <= - (4 # 10))%Q as H by (unfold Qle; simpl; lia).
  refine (conj H _).
  exact (sentiment_never_lowers "I feel so empty" None
           (- (7 # 10))%Q (- (4 # 10))%Q H).
Defined.

(** X6.  The guidance suggests resources for the level "HIGH" and for no other
    string; for the level of an assessment that is exactly when the score
    is at least 70. *)
Theorem guidance_resources_iff_high text emotion sentiment :
  (forall risk_level : string,
     suggest_resources (get_risk_response_guidance risk_level) = true
     <-> risk_level = "HIGH"%string)
  /\ let r := detect_risk text emotion sentiment in
     (suggest_resources (get_risk_response_guidance (level_name (level r)))
      = true <-> (70 <= score r)%Q).
Proof.
  split.
  - intros risk_level. unfold get_risk_response_guidance.
    destruct (String.eqb_spec risk_level "HIGH") as [E | E].
    + cbn. tauto.
    + destruct (String.eqb risk_level "MEDIUM"); cbn;
        split; [discriminate | tauto | discriminate | tauto].
  - intros r. subst r. destruct (truthy text) eqn:T.
    + rewrite (detect_risk_spec text emotion sentiment T). cbv zeta.
      cbn [level score]. change 70%Q with (inject_Z 70). rewrite <- Zle_Qle.
      destruct (Z.leb_spec 70 (clamp (points (lower text) emotion sentiment)));
        [cbn; tauto |].
      destruct (35 <=? _); cbn; split; try discriminate; lia.
    + apply truthy_false in T. subst text. rewrite detect_risk_empty. cbn.
      split; [discriminate |]. intros H. exfalso. revert H.
      unfold Qle. simpl. lia.
Qed.

End MoreRiskFacts.

(* ================================================================== *)
(** * The emotion classifier *)
(* ================================================================== *)

Section EmotionFacts.
Import PyStr PyNum RiskDetector EmotionClassifier Links.

(** X7.  Once loading the model has failed, the process stays on the keyword
    classifier: the first call on a text that is not blank sets the global
    to the fallback, and every later call answers from the keywords (or
    with the blank default) and leaves the global as it is, also when the
    model could be loaded by then. *)
Theorem emotion_fallback_is_permanent (text text' : string)
    (load' : Outcome Model) :
  all_space text = false ->
  let g1 := snd (classify_emotion Raised None text) in
  g1 = Some Fallback
  /\ classify_emotion load' g1 text'
     = (if all_space text' then mkEmotion "neutral" 0
        else _fallback_classify text', g1).
Proof.
  intros H g1. subst g1. unfold classify_emotion.
  rewrite !blank_test, H. cbn [get_classifier snd fst].
  split; [reflexivity |]. destruct (all_space text'); reflexivity.
Qed.

Lemma emotion_fallback_is_permanent_witness :
  all_space "I am worried" = false
  /\ let g1 := snd (classify_emotion Raised None "I am worried") in
     g1 = Some Fallback
     /\ classify_emotion (Returned (fun _ => Returned [])) g1 "so angry"
        = (if all_space "so angry" then mkEmotion "neutral" 0
           else _fallback_classify "so angry", g1).
Proof.
  split; [reflexivity |].
  exact (emotion_fallback_is_permanent "I am worried" "so angry"
           (Returned (fun _ => Returned [])) eq_refl).
Defined.




Lemma first_emotion_cases (t : string) :
  let r := first_emotion emotion_keywords t in
  (emotion r = "neutral"%string /\ confidence r = 5 # 10
   /\ forallb (fun item => negb (any_in (snd item) t)) emotion_keywords = true)
  \/ (In (emotion r) ["joy"; "sadness"; "anger"; "fear"; "surprise"; "disgust"]%string
      /\ confidence r = 6 # 10
      /\ forallb (fun item => negb (any_in (snd item) t)) emotion_keywords
         = false).
Proof.
  unfold emotion_keywords. cbn [first_emotion forallb snd].
  repeat match goal with
         | |- context [any_in ?k t] => destruct (any_in k t)
         end; cbn; tauto.
Qed.

(** X9.  The keyword classifier answers one of the seven labels; neutral, with
    confidence 0.5, exactly when no keyword of any emotion occurs in the
    lower-cased text, and otherwise with confidence 0.6. *)
Theorem fallback_classify_labels (text : string) :
  let r := _fallback_classify text in
  In (emotion r) emotion_labels
  /\ (emotion r = "neutral"%string
      <-> forallb (fun item => negb (any_in (snd item) (lower text)))
            emotion_keywords = true)
  /\ confidence r
     = if String.eqb (emotion r) "neutral" then 5 # 10 else 6 # 10.
Proof.
  unfold _fallback_classify.
  destruct (first_emotion_cases (lower text)) as [[E [C F]] | [E [C F]]];
    cbv zeta in *; rewrite C, F.
  - rewrite E. cbn. tauto.
  - unfold emotion_labels. split; [| split].
    + cbn [In] in *. tauto.
    + split; [| discriminate]. intros N. rewrite N in E.
      cbn [In] in E. repeat (destruct E as [E | E]; [discriminate E |]).
      destruct E.
    + cbn [In] in E.
      repeat (destruct E as [<- | E]; [reflexivity |]). destruct E.
Qed.

Lemma first_emotion_lower (t : string) :
  lower (emotion (first_emotion emotion_keywords t))
  = emotion (first_emotion emotion_keywords t).
Proof.
  destruct (first_emotion_cases t) as [[E _] | [E _]]; cbv zeta in *.
  - now rewrite E.
  - cbn [In] in E. repeat (destruct E as [<- | E]; [reflexivity |]). destruct E.
Qed.

(** X10.  Whatever the model answers, the label [classify_emotion] returns is
    in lower case. *)
Theorem classify_emotion_label_lower (load : Outcome Model)
    (g : option Classifier) (text : string) :
  let r := fst (classify_emotion load g text) in
  lower (emotion r) = emotion r.
Proof.
  unfold classify_emotion.
  destruct (negb (truthy text) || negb (truthy (strip text)))%bool;
    [reflexivity |].
  destruct (get_classifier load g) as [[|m] g'].
  - apply first_emotion_lower.
  - unfold try_model.
    destruct (m (take 512 text)) as [|[|[p|[|p l]] rest]]; cbn [fst emotion];
      try apply first_emotion_lower; apply lower_idempotent.
Qed.

Lemma severity_and_adjustment (k : string) :
  let s := dict_get EMOTION_SEVERITY k 2%Z in
  let a := dict_get emotion_adjustments k 0%Z in
  ((s = 0 /\ a = -10) \/ (s = 1 /\ a = 0) \/ (s = 2 /\ a = 0)
   \/ (s = 3 /\ a = 8) \/ (s = 3 /\ a = 5) \/ (s = 4 /\ a = 12)
   \/ (s = 5 /\ a = 15))%Z.
Proof.
  unfold EMOTION_SEVERITY, emotion_adjustments. cbn [dict_get].
  repeat match goal with
         | |- context [String.eqb ?a k] =>
             destruct (String.eqb_spec a k); [subst k; cbn; tauto |]
         end.
  cbn. tauto.
Qed.

(** X11.  The severity of an emotion lies between 0 and 5 and does not depend
    on the letter case of the label. *)
Theorem emotion_severity_range (emotion : string) :
  (0 <= get_emotion_severity emotion <= 5)%Z
  /\ get_emotion_severity (lower emotion) = get_emotion_severity emotion.
Proof.
  unfold get_emotion_severity. rewrite lower_idempotent.
  split; [| reflexivity].
  pose proof (severity_and_adjustment (lower emotion)) as H.
  cbv zeta in H. lia.
Qed.

(** X12.  The two tables agree: an emotion of strictly higher severity never
    has the smaller effect on the risk score. *)
Theorem severity_orders_adjustments (e1 e2 : string) :
  (get_emotion_severity e1 < get_emotion_severity e2)%Z ->
  (dict_get emotion_adjustments (lower e1) 0
   <= dict_get emotion_adjustments (lower e2) 0)%Z.
Proof.
  unfold get_emotion_severity.
  pose proof (severity_and_adjustment (lower e1)) as H1.
  pose proof (severity_and_adjustment (lower e2)) as H2.
  cbv zeta in H1, H2. lia.
Qed.

Lemma severity_orders_adjustments_witness :
  (get_emotion_severity "Anger" < get_emotion_severity "FEAR")%Z
  /\ (dict_get emotion_adjustments (lower "Anger") 0
      <= dict_get emotion_adjustments (lower "FEAR") 0)%Z.
Proof.
  assert (get_emotion_severity "Anger" < get_emotion_severity "FEAR")%Z
    as H by (vm_compute; reflexivity).
  refine (conj H _).
  exact (severity_orders_adjustments "Anger" "FEAR" H).
Defined.

End EmotionFacts.

(* ================================================================== *)
(** * The sentiment analyser *)
(* ================================================================== *)

Section SentimentFacts.
Import PyStr PyNum SentimentAnalyzer Links.
Local Open Scope Q_scope.

Lemma count_in_nonneg (words : list string) (t : string) :
  (0 <= count_in words t)%Z.
Proof. unfold count_in. lia. Qed.

(** A difference of two counts over their sum lies between -1 and 1. *)
Lemma ratio_range (p n : Z) :
  (0 <= p)%Z -> (0 <= n)%Z -> (0 < p + n)%Z ->
  - (1) <= inject_Z (p - n) / inject_Z (p + n) <= 1.
Proof.
  intros Hp Hn Ht.
  assert (inject_Z 0 < inject_Z (p + n)) as Hq by (now rewrite <- Zlt_Qlt).
  change (inject_Z 0) with 0 in Hq. split.
  - apply Qle_shift_div_l; [assumption |].
    change (- (1)) with (inject_Z (-1)).
    rewrite <- inject_Z_mult, <- Zle_Qle. lia.
  - apply Qle_shift_div_r; [assumption |].
    change 1 with (inject_Z 1).
    rewrite <- inject_Z_mult, <- Zle_Qle. lia.
Qed.

(** X13.  The keyword analyser answers a score between -1 and 1 whose side of
    0.2 agrees with the polarity: at least 0.2 when positive, at most -0.2
    when negative, and between the two when neutral. *)
Theorem fallback_analyze_range (text : string) :
  let r := _fallback_analyze text in
  - (1) <= sscore r <= 1
  /\ ((polarity r = "positive"%string /\ 2 # 10 <= sscore r)
      \/ (polarity r = "negative"%string /\ sscore r <= - (2 # 10))
      \/ (polarity r = "neutral"%string
          /\ - (2 # 10) <= sscore r <= 2 # 10)).
Proof.
  unfold _fallback_analyze. cbv zeta.
  pose proof (count_in_nonneg positive_words (lower text)) as Hp.
  pose proof (count_in_nonneg negative_words (lower text)) as Hn.
  set (p := count_in positive_words (lower text)) in *.
  set (n := count_in negative_words (lower text)) in *.
  destruct (Z.eqb_spec (p + n) 0) as [E | E].
  - cbn [sscore polarity]. split; [lra |]. right. right. split; [reflexivity | lra].
  - assert (0 < p + n)%Z as Ht by lia.
    replace (Z.max (p + n) 1) with (p + n)%Z by lia.
    destruct (ratio_range p n Hp Hn Ht) as [Lo Hi].
    set (s := inject_Z (p - n) / inject_Z (p + n)) in *.
    assert (py_round (- (1)) 4 = - (1)) as R1 by (vm_compute; reflexivity).
    assert (py_round 1 4 = 1) as R2 by (vm_compute; reflexivity).
    assert (py_round (2 # 10) 4 = 1 # 5) as R3 by (vm_compute; reflexivity).
    assert (py_round (- (2 # 10)) 4 = - (1 # 5)) as R4
        by (vm_compute; reflexivity).
    pose proof (py_round_mono _ _ 4 Lo) as M1. rewrite R1 in M1.
    pose proof (py_round_mono _ _ 4 Hi) as M2. rewrite R2 in M2.
    split; [cbn [sscore]; split; assumption |].
    destruct (Qltb (2 # 10) s) eqn:A.
    + left. apply Qltb_true_iff in A. cbn [sscore polarity].
      split; [reflexivity |].
      assert (2 # 10 <= s) as A' by lra.
      pose proof (py_round_mono _ _ 4 A') as M. rewrite R3 in M. lra.
    + apply Qltb_false_iff in A. destruct (Qltb s (- (2 # 10))) eqn:B.
      * right. left. apply Qltb_true_iff in B. cbn [sscore polarity].
        split; [reflexivity |].
        assert (s <= - (2 # 10)) as B' by lra.
        pose proof (py_round_mono _ _ 4 B') as M. rewrite R4 in M. lra.
      * right. right. apply Qltb_false_iff in B. cbn [sscore polarity].
        split; [reflexivity |].
        pose proof (py_round_mono _ _ 4 A) as Ma. rewrite R3 in Ma.
        pose proof (py_round_mono _ _ 4 B) as Mb. rewrite R4 in Mb. lra.
Qed.

(** X14.  A model that raises, or answers with no prediction, costs one call
    only: that call is answered from the keywords, and the model stays in
    the global for the calls that follow. *)
Theorem sentiment_model_failure_is_per_call (m : Model) (text : string) :
  all_space text = false ->
  m (take 512 text) = Raised \/ m (take 512 text) = Returned [] ->
  analyze_sentiment (Returned m) None text
  = (_fallback_analyze text, Some (Loaded m)).
Proof.
  intros B H. unfold analyze_sentiment. rewrite blank_test, B.
  cbn [get_analyzer]. unfold try_model.
  destruct H as [-> | ->]; reflexivity.
Qed.

Lemma sentiment_model_failure_is_per_call_witness :
  let m : Model := fun _ => Raised in
  all_space "what a great day" = false
  /\ (m (take 512 "what a great day") = Raised
      \/ m (take 512 "what a great day") = Returned [])
  /\ analyze_sentiment (Returned m) None "what a great day"
     = (_fallback_analyze "what a great day", Some (Loaded m)).
Proof.
  intros m.
  assert (m (take 512 "what a great day") = Raised
          \/ m (take 512 "what a great day") = Returned []) as H
      by (left; reflexivity).
  refine (conj eq_refl (conj H _)).
  exact (sentiment_model_failure_is_per_call m "what a great day" eq_refl H).
Defined.

Lemma Qabs_opp_eq (x : Q) : Qabs (- x) = Qabs x.
Proof. destruct x as [n d]. unfold Qabs, Qopp. cbn. now rewrite Z.abs_opp. Qed.

(** X15.  The intensity depends on the absolute value of the score only, and a
    score of larger absolute value never has the weaker intensity. *)
Theorem sentiment_intensity_monotone (x y : Q) :
  Qabs x <= Qabs y ->
  get_sentiment_intensity (- x) = get_sentiment_intensity x
  /\ (intensity_rank (get_sentiment_intensity x)
      <= intensity_rank (get_sentiment_intensity y))%nat.
Proof.
  intros H. split.
  - unfold get_sentiment_intensity. now rewrite Qabs_opp_eq.
  - unfold get_sentiment_intensity. cbv zeta.
    repeat match goal with
           | |- context [Qle_bool ?a ?b] =>
               let E := fresh "E" in
               destruct (Qle_bool a b) eqn:E;
               [ apply Qle_bool_iff in E
               | apply not_true_iff_false in E; rewrite Qle_bool_iff in E;
                 apply Qnot_le_lt in E ]
           end; cbn; try lia; exfalso; lra.
Qed.

Lemma sentiment_intensity_monotone_witness :
  Qabs (3 # 10) <= Qabs (- (7 # 10))
  /\ get_sentiment_intensity (- (3 # 10)) = get_sentiment_intensity (3 # 10)
  /\ (intensity_rank (get_sentiment_intensity (3 # 10))
      <= intensity_rank (get_sentiment_intensity (- (7 # 10))))%nat.
Proof.
  assert (Qabs (3 # 10) <= Qabs (- (7 # 10))) as H
      by (unfold Qle; simpl; lia).
  refine (conj H _).
  exact (sentiment_intensity_monotone (3 # 10) (- (7 # 10)) H).
Defined.

End SentimentFacts.

(* ================================================================== *)
(** * The companion: client and context *)
(* ================================================================== *)

Section CompanionFacts.
Import PyStr PyNum LlmCompanion.
Local Open Scope string_scope.



End CompanionFacts.

(* ================================================================== *)
(** * The risk history *)
(* ================================================================== *)

Section HistoryFacts.
Import PyNum PyFloat RiskDetector RiskApi.
Local Open Scope Q_scope.

Lemma parse_level_name (s : string) (l : RiskLevel) :
  parse_level s = Some l -> level_name l = s.
Proof.
  unfold parse_level.
  destruct (String.eqb_spec s "LOW"); [intros [= <-]; now subst |].
  destruct (String.eqb_spec s "MEDIUM"); [intros [= <-]; now subst |].
  destruct (String.eqb_spec s "HIGH"); [intros [= <-]; now subst |].
  discriminate.
Qed.

Lemma make_RiskScore_spec (doc : RiskDoc) :
  (make_RiskScore doc = Raised
   /\ (parse_level (doc_level doc) = None
       \/ ~ (0 <= doc_score doc <= 100)))
  \/ (exists s, make_RiskScore doc = Returned s
                /\ score s = doc_score doc
                /\ level_name (level s) = doc_level doc
                /\ (0 <= doc_score doc <= 100)
                /\ parse_level (doc_level doc) = Some (level s)).
Proof.
  unfold make_RiskScore.
  destruct (parse_level (doc_level doc)) as [l|] eqn:P; [| left; tauto].
  destruct (Qle_bool 0 (doc_score doc)) eqn:A;
    [destruct (Qle_bool (doc_score doc) 100) eqn:B |]; cbn [andb].
  - right. eexists. split; [reflexivity |]. cbn [score level].
    apply Qle_bool_iff in A, B. apply parse_level_name in P. tauto.
  - left. split; [reflexivity |]. right. intros [_ H].
    apply Qle_bool_iff in H. congruence.
  - left. split; [reflexivity |]. right. intros [H _].
    apply Qle_bool_iff in H. congruence.
Qed.

Lemma collect_spec (cursor : list RiskDoc) :
  (collect cursor = Raised
   /\ exists doc, In doc cursor
                  /\ (parse_level (doc_level doc) = None
                      \/ ~ (0 <= doc_score doc <= 100)))
  \/ (exists l, collect cursor = Returned l
                /\ map score l = map doc_score cursor
                /\ map (fun s => level_name (level s)) l = map doc_level cursor
                /\ forall doc, In doc cursor ->
                     parse_level (doc_level doc) <> None
                     /\ 0 <= doc_score doc <= 100).
Proof.
  induction cursor as [|doc rest IH]; cbn [collect].
  - right. exists []. repeat split; try reflexivity; contradiction.
  - destruct (make_RiskScore_spec doc) as [[-> B] | [s [-> [S [N [R P]]]]]].
    + left. split; [reflexivity |]. exists doc. split; [now left | exact B].
    + destruct IH as [[-> [d [I B]]] | [l [-> [Sl [Nl V]]]]].
      * left. split; [reflexivity |]. exists d. split; [now right | exact B].
      * right. exists (s :: l). cbn [map]. rewrite S, N, Sl, Nl.
        repeat split; try reflexivity.
        -- destruct H as [<- | H]; [congruence | now apply V].
        -- destruct H as [<- | H]; [tauto | now apply V].
        -- destruct H as [<- | H]; [tauto | now apply V].
Qed.

(** X17.  [get_risk_scores] raises exactly when some document of the cursor has
    a level outside LOW, MEDIUM, HIGH or a score outside [0,100];
    otherwise it returns the scores and levels of the documents in the
    order of the cursor. *)
Theorem get_risk_scores_validates (sum : list Q -> Q) (user : string)
    (cursor : list RiskDoc) :
  (get_risk_scores sum user cursor = Raised
   <-> exists doc, In doc cursor
                   /\ (parse_level (doc_level doc) = None
                       \/ ~ (0 <= doc_score doc <= 100)))
  /\ (forall h, get_risk_scores sum user cursor = Returned h ->
        history_user_id h = user
        /\ map score (scores h) = map doc_score cursor
        /\ map (fun s => level_name (level s)) (scores h)
           = map doc_level cursor).
Proof.
  unfold get_risk_scores.
  destruct (collect_spec cursor) as [[-> B] | [l [-> [S [N V]]]]].
  - split; [tauto |]. discriminate.
  - split.
    + split; [discriminate |]. intros [doc [I B]].
      destruct (V doc I) as [P R]. tauto.
    + intros h [= <-]. cbn [history_user_id scores]. tauto.
Qed.

(** X18.  With exactly five scores there is nothing to compare with, and the
    trend is "stable" whatever the scores are and however they are
    summed. *)
Theorem five_scores_always_stable (sum : list Q -> Q)
    (scores : list RiskScore) :
  List.length scores = 5%nat -> determine_trend sum scores = "stable"%string.
Proof.
  intros L.
  destruct scores as [|a [|b [|c [|d [|e [|f scores]]]]]]; try discriminate L.
  unfold determine_trend. cbn [List.length Nat.leb Nat.ltb].
  unfold fdiv, fsub, fadd.
  set (q := sum _ / 5).
  assert (Qltb (fl q) (fl (fl q - 5)) = false) as ->.
  { apply Qltb_false_iff, fl_le_double. lra. }
  assert (Qltb (fl (fl q + 5)) (fl q) = false) as ->.
  { apply Qltb_false_iff, fl_ge_double. lra. }
  reflexivity.
Qed.

Lemma five_scores_always_stable_witness :
  List.length [ mkRiskScore "u1" HIGH 95 5 None; mkRiskScore "u1" HIGH 90 4 None;
                mkRiskScore "u1" LOW 10 3 None; mkRiskScore "u1" LOW 5 2 None;
                mkRiskScore "u1" LOW 0 1 None ] = 5%nat
  /\ determine_trend PyFloat.sum_left
       [ mkRiskScore "u1" HIGH 95 5 None; mkRiskScore "u1" HIGH 90 4 None;
         mkRiskScore "u1" LOW 10 3 None; mkRiskScore "u1" LOW 5 2 None;
         mkRiskScore "u1" LOW 0 1 None ] = "stable"%string.
Proof.
  split; [reflexivity |].
  exact (five_scores_always_stable PyFloat.sum_left
           [ mkRiskScore "u1" HIGH 95 5 None; mkRiskScore "u1" HIGH 90 4 None;
             mkRiskScore "u1" LOW 10 3 None; mkRiskScore "u1" LOW 5 2 None;
             mkRiskScore "u1" LOW 0 1 None ] eq_refl).
Defined.

(** X19.  The trend looks at the ten most recent scores and at nothing older. *)
Theorem trend_uses_ten_most_recent (sum : list Q -> Q)
    (scores : list RiskScore) :
  determine_trend sum (firstn 10 scores) = determine_trend sum scores.
Proof.
  unfold determine_trend, slice.
  assert ((5 <=? List.length (firstn 10 scores))%nat
          = (5 <=? List.length scores)%nat) as ->.
  { rewrite length_firstn.
    destruct (Nat.leb_spec 5 (List.length scores));
      destruct (Nat.leb_spec 5 (Nat.min 10 (List.length scores)));
      try reflexivity; lia. }
  assert ((5 <? List.length (firstn 10 scores))%nat
          = (5 <? List.length scores)%nat) as ->.
  { rewrite length_firstn.
    destruct (Nat.ltb_spec 5 (List.length scores));
      destruct (Nat.ltb_spec 5 (Nat.min 10 (List.length scores)));
      try reflexivity; lia. }
  change (5 - 0)%nat with 5%nat. change (10 - 5)%nat with 5%nat.
  rewrite !skipn_O.
  assert (firstn 5 (firstn 10 scores) = firstn 5 scores) as ->
      by (rewrite firstn_firstn; reflexivity).
  assert (firstn 5 (skipn 5 (firstn 10 scores)) = firstn 5 (skipn 5 scores))
    as ->.
  { rewrite skipn_firstn_comm. cbn [Nat.sub]. now rewrite firstn_firstn. }
  reflexivity.
Qed.

End HistoryFacts.

(* ================================================================== *)
(** * The chat handler: what it writes and what it keeps *)
(* ================================================================== *)

Section HandlerFacts.
Import PyStr PyNum RiskDetector ChatApi Links.

Lemma detect_risk_score_range text emotion sentiment :
  (0 <= score (detect_risk text emotion sentiment) <= 100)%Q.
Proof.
  destruct (truthy text) eqn:T.
  - rewrite (detect_risk_spec text emotion sentiment T). cbv zeta.
    cbn [score].
    pose proof (clamp_range
                  (Points.points (lower text) emotion sentiment)) as R.
    change 0%Q with (inject_Z 0). change 100%Q with (inject_Z 100).
    rewrite <- !Zle_Qle. exact R.
  - apply truthy_false in T. subst text. rewrite detect_risk_empty.
    cbn [score]. lra.
Qed.

Lemma assessment_score_range env AI_AVAILABLE g message :
  (0 <= score (assessment env AI_AVAILABLE g message) <= 100)%Q.
Proof.
  unfold assessment, analyse. destruct AI_AVAILABLE.
  - destruct (EmotionClassifier.classify_emotion _ _ _) as [er ge].
    destruct (SentimentAnalyzer.analyze_sentiment _ _ _) as [sr gs].
    cbn [fst snd]. apply detect_risk_score_range.
  - cbn [fst snd score]. lra.
Qed.

(** X20.  One request appends, and only appends: the user's message and then
    the reply to the chat log, and one entry to the risk history that
    carries the level, score and factors of the assessment and keeps the
    message only when the level is MEDIUM or HIGH; the response reports the
    same level, score and reply. *)
Theorem send_message_appends (env : Env) (AI_AVAILABLE : bool)
    (now1 now2 : Z) (g : Globals) (db : DB) (chat_message : ChatMessage) :
  let out := send_message env AI_AVAILABLE now1 now2 g db chat_message in
  let response := fst (fst out) in
  let db' := snd out in
  let risk := assessment env AI_AVAILABLE g (cm_message chat_message) in
  (exists user_log ai_log,
     chat_logs db' = chat_logs db ++ [user_log; ai_log]
     /\ log_role user_log = "user"%string
     /\ log_message user_log = cm_message chat_message
     /\ log_timestamp user_log = now1
     /\ log_role ai_log = "ai"%string
     /\ log_message ai_log = ai_response response
     /\ log_emotion ai_log = None)
  /\ (exists entry,
        risk_scores db' = risk_scores db ++ [entry]
        /\ re_level entry = level risk
        /\ re_score entry = score risk
        /\ re_factors entry = factors risk
        /\ re_trigger_message entry
           = match level risk with
             | LOW => None
             | _ => Some (cm_message chat_message)
             end)
  /\ resp_risk_level response = Some (level_name (level risk))
  /\ resp_risk_score response = Some (score risk)
  /\ user_message response = cm_message chat_message.
Proof.
  unfold assessment, send_message.
  destruct (analyse env AI_AVAILABLE g (cm_message chat_message))
    as [[[emotion_result sentiment_result] risk_result] g1].
  cbn [fst snd].
  destruct (reply env AI_AVAILABLE g1 (cm_message chat_message)
              (EmotionClassifier.emotion emotion_result) (level risk_result))
    as [reply_text g2].
  cbv zeta. split; [| split].
  - eexists. eexists.
    destruct (level risk_result); cbn [snd fst chat_logs];
      rewrite <- app_assoc; cbn [app]; repeat split.
  - destruct (level risk_result); eexists; cbn [snd fst risk_scores];
      repeat split.
  - destruct (level risk_result); cbn; repeat split.
Qed.

(** X21.  What the handler writes to the risk history can be read back: the
    stored document of the new entry passes the validation of
    [RiskScore], with the level and the score of the assessment. *)
Theorem stored_entry_is_valid (env : Env) (AI_AVAILABLE : bool)
    (now1 now2 : Z) (g : Globals) (db : DB) (chat_message : ChatMessage) :
  let db' := snd (send_message env AI_AVAILABLE now1 now2 g db chat_message) in
  let risk := assessment env AI_AVAILABLE g (cm_message chat_message) in
  exists entry,
    risk_scores db' = risk_scores db ++ [entry]
    /\ RiskApi.make_RiskScore (stored_doc entry)
       = Returned (RiskApi.mkRiskScore (cm_user_id chat_message) (level risk)
                     (score risk) now1 (Some (factors risk))).
Proof.
  pose proof (assessment_score_range env AI_AVAILABLE g
                (cm_message chat_message)) as R.
  revert R. unfold assessment, send_message.
  destruct (analyse env AI_AVAILABLE g (cm_message chat_message))
    as [[[emotion_result sentiment_result] risk_result] g1].
  cbn [fst snd].
  destruct (reply env AI_AVAILABLE g1 (cm_message chat_message)
              (EmotionClassifier.emotion emotion_result) (level risk_result))
    as [reply_text g2].
  cbv zeta. intros [R0 R100].
  apply Qle_bool_iff in R0, R100.
  destruct (level risk_result); eexists;
    (split; [cbn [snd fst risk_scores]; reflexivity |]);
    unfold RiskApi.make_RiskScore, stored_doc;
    cbn [RiskApi.doc_level RiskApi.doc_score RiskApi.doc_user_id
         RiskApi.doc_timestamp RiskApi.doc_factors re_level re_score
         re_user_id re_timestamp re_factors level_name RiskApi.parse_level
         String.eqb Ascii.eqb Bool.eqb];
    rewrite R0, R100; reflexivity.
Qed.

Lemma classify_keeps_global load c text :
  snd (EmotionClassifier.classify_emotion load (Some c) text) = Some c.
Proof.
  unfold EmotionClassifier.classify_emotion.
  destruct (negb (truthy text) || negb (truthy (strip text)))%bool;
    [reflexivity |].
  cbn [EmotionClassifier.get_classifier]. destruct c; [reflexivity |].
  destruct (EmotionClassifier.try_model _ _) as [|[r|]]; reflexivity.
Qed.

Lemma classify_sets_global load g text :
  all_space text = false ->
  snd (EmotionClassifier.classify_emotion load g text) <> None.
Proof.
  intros B. unfold EmotionClassifier.classify_emotion.
  rewrite blank_test, B.
  destruct g as [c|]; cbn [EmotionClassifier.get_classifier].
  - destruct c; [discriminate |].
    destruct (EmotionClassifier.try_model _ _) as [|[r|]]; discriminate.
  - destruct load as [|m]; [discriminate |].
    destruct (EmotionClassifier.try_model _ _) as [|[r|]]; discriminate.
Qed.

Lemma analyze_keeps_global load c text :
  snd (SentimentAnalyzer.analyze_sentiment load (Some c) text) = Some c.
Proof.
  unfold SentimentAnalyzer.analyze_sentiment.
  destruct (negb (truthy text) || negb (truthy (strip text)))%bool;
    [reflexivity |].
  cbn [SentimentAnalyzer.get_analyzer]. destruct c; [reflexivity |].
  destruct (SentimentAnalyzer.try_model _ _) as [|[r|]]; reflexivity.
Qed.

Lemma analyze_sets_global load g text :
  all_space text = false ->
  snd (SentimentAnalyzer.analyze_sentiment load g text) <> None.
Proof.
  intros B. unfold SentimentAnalyzer.analyze_sentiment.
  rewrite blank_test, B.
  destruct g as [c|]; cbn [SentimentAnalyzer.get_analyzer].
  - destruct c; [discriminate |].
    destruct (SentimentAnalyzer.try_model _ _) as [|[r|]]; discriminate.
  - destruct load as [|m]; [discriminate |].
    destruct (SentimentAnalyzer.try_model _ _) as [|[r|]]; discriminate.
Qed.

Lemma generate_keeps_global api_key service c message emotion risk_level h :
  snd (LlmCompanion.generate_response api_key service (Some c) message
         emotion risk_level h) = Some c.
Proof.
  unfold LlmCompanion.generate_response. cbn [LlmCompanion.get_client].
  destruct c as [|create]; [reflexivity |].
  destruct (create _); reflexivity.
Qed.

Lemma generate_sets_global api_key service g message emotion risk_level h :
  snd (LlmCompanion.generate_response api_key service g message
         emotion risk_level h) <> None.
Proof.
  unfold LlmCompanion.generate_response.
  destruct g as [c|]; cbn [LlmCompanion.get_client].
  - destruct c as [|create]; [discriminate |].
    destruct (create _); discriminate.
  - destruct (truthy api_key && _)%bool; [| discriminate].
    destruct (service _); discriminate.
Qed.

(** The globals of the three services after a request. *)
Lemma send_message_globals env now1 now2 g db chat_message :
  snd (fst (send_message env true now1 now2 g db chat_message))
  = mkGlobals
      (snd (EmotionClassifier.classify_emotion (load_emotion env)
              (_emotion_classifier g) (cm_message chat_message)))
      (snd (SentimentAnalyzer.analyze_sentiment (load_sentiment env)
              (_sentiment_analyzer g) (cm_message chat_message)))
      (snd (LlmCompanion.generate_response (api_key env) (service env)
              (_client g) (cm_message chat_message)
              (Some (EmotionClassifier.emotion
                       (fst (EmotionClassifier.classify_emotion
                               (load_emotion env) (_emotion_classifier g)
                               (cm_message chat_message)))))
              (Some (level_name
                       (level (assessment env true g
                                 (cm_message chat_message)))))
              None)).
Proof.
  unfold send_message, assessment, analyse, reply.
  destruct (EmotionClassifier.classify_emotion _ _ _) as [er ge].
  destruct (SentimentAnalyzer.analyze_sentiment _ _ _) as [sr gs].
  cbn [fst snd _client _emotion_classifier _sentiment_analyzer].
  destruct (LlmCompanion.generate_response _ _ _ _ _ _ _) as [txt gc].
  cbv zeta. destruct (level (detect_risk _ _ _)); reflexivity.
Qed.

(** X22.  The three service globals are set once: a request never changes a
    global that is set, and a request with a text that is not blank
    leaves all three set. *)
Theorem globals_are_set_once (env : Env) (now1 now2 : Z) (g : Globals)
    (db : DB) (chat_message : ChatMessage) :
  let g' := snd (fst (send_message env true now1 now2 g db chat_message)) in
  (forall c, _emotion_classifier g = Some c -> _emotion_classifier g' = Some c)
  /\ (forall c, _sentiment_analyzer g = Some c ->
                _sentiment_analyzer g' = Some c)
  /\ (forall c, _client g = Some c -> _client g' = Some c)
  /\ (all_space (cm_message chat_message) = false ->
      _emotion_classifier g' <> None /\ _sentiment_analyzer g' <> None
      /\ _client g' <> None).
Proof.
  cbv zeta. rewrite send_message_globals.
  cbn [_emotion_classifier _sentiment_analyzer _client].
  repeat split.
  - intros c ->. apply classify_keeps_global.
  - intros c ->. apply analyze_keeps_global.
  - intros c ->. apply generate_keeps_global.
  - now apply classify_sets_global.
  - now apply analyze_sets_global.
  - apply generate_sets_global.
Qed.

(** X23.  Without a usable completion client, a message assessed HIGH is
    answered with the crisis message of the template bank, whatever the
    message and the detected emotion are. *)
Theorem high_risk_gets_crisis_reply (env : Env) (now1 now2 : Z)
    (g : Globals) (db : DB) (chat_message : ChatMessage) :
  fst (LlmCompanion.get_client (api_key env) (service env) (_client g))
  = LlmCompanion.Mock ->
  level (assessment env true g (cm_message chat_message)) = HIGH ->
  ai_response (fst (fst (send_message env true now1 now2 g db chat_message)))
  = crisis_reply.
Proof.
  unfold send_message, assessment, analyse, reply.
  destruct (EmotionClassifier.classify_emotion _ _ _) as [er ge].
  destruct (SentimentAnalyzer.analyze_sentiment _ _ _) as [sr gs].
  cbn [fst snd _client _emotion_classifier _sentiment_analyzer].
  unfold LlmCompanion.generate_response.
  destruct (LlmCompanion.get_client _ _ _) as [client gc].
  cbn [fst]. intros -> L. rewrite L. reflexivity.
Qed.

Lemma high_risk_gets_crisis_reply_witness :
  fst (LlmCompanion.get_client (api_key Scenario.offline)
         (service Scenario.offline) (_client Scenario.fresh))
  = LlmCompanion.Mock
  /\ level (assessment Scenario.offline true Scenario.fresh
              "hello, I want to end my life") = HIGH
  /\ ai_response
       (fst (fst (send_message Scenario.offline true 1 2 Scenario.fresh
                    Scenario.empty_db
                    (mkChatMessage "u1" "hello, I want to end my life"))))
     = crisis_reply.
Proof.
  assert (level (assessment Scenario.offline true Scenario.fresh
                   "hello, I want to end my life") = HIGH) as L
      by (vm_compute; reflexivity).
  refine (conj eq_refl (conj L _)).
  exact (high_risk_gets_crisis_reply Scenario.offline 1 2 Scenario.fresh
           Scenario.empty_db
           (mkChatMessage "u1" "hello, I want to end my life") eq_refl L).
Defined.

End HandlerFacts.

(* ================================================================== *)
(** * Alerts: resolving and reopening *)
(* ================================================================== *)

Section AlertFacts2.
Import PyNum RiskDetector AlertsApi.

Lemma update_one_unmatched oid set alerts :
  find_one oid alerts = None -> update_one oid set alerts = (0%nat, alerts).
Proof.
  induction alerts as [|doc rest IH]; cbn [find_one update_one];
    [reflexivity |].
  destruct (String.eqb (_id doc) oid); [discriminate |].
  intros H. now rewrite (IH H).
Qed.

Lemma update_one_matched oid set alerts doc :
  find_one oid alerts = Some doc ->
  fst (update_one oid set alerts) = 1%nat
  /\ find_one oid (snd (update_one oid set alerts))
     = Some (mkAlertDoc (_id doc) (set (fields doc)))
  /\ (forall oid', oid' <> oid ->
        find_one oid' (snd (update_one oid set alerts)) = find_one oid' alerts)
  /\ map _id (snd (update_one oid set alerts)) = map _id alerts
  /\ List.length (snd (update_one oid set alerts)) = List.length alerts.
Proof.
  induction alerts as [|d rest IH]; cbn [find_one update_one];
    [discriminate |].
  destruct (String.eqb_spec (_id d) oid) as [E | E].
  - intros [= <-]. cbn [fst snd find_one _id map List.length].
    rewrite E, String.eqb_refl. repeat split.
    intros oid' N. destruct (String.eqb_spec oid oid'); congruence.
  - intros H. destruct (IH H) as [M [F [O [I L]]]].
    destruct (update_one oid set rest) as [matched_count rest'].
    cbn [fst snd find_one map List.length] in *.
    destruct (String.eqb_spec (_id d) oid); [contradiction |].
    repeat split; try congruence.
    intros oid' N. rewrite (O oid' N). reflexivity.
Qed.

(** X24.  [resolve_alert] answers 400 when the id is not an object id and 404
    when no alert has it, and then leaves the collection as it is.
    Otherwise the alert with that id becomes resolved, with the time of the
    request and the given notes; its user, level, message and creation
    time stay, and so does every other alert. *)
Theorem resolve_alert_outcome (ObjectId : Parser) (now1 now2 : Z)
    (alert_id : string) (notes : option string) (alerts : list AlertDoc) :
  let out := resolve_alert ObjectId now1 now2 alert_id notes alerts in
  match fst out with
  | HttpError status _ =>
      snd out = alerts
      /\ ((status = 400%Z /\ ObjectId alert_id = Raised)
          \/ (status = 404%Z
              /\ exists oid, ObjectId alert_id = Returned oid
                             /\ find_one oid alerts = None))
  | Ok answer =>
      exists oid doc,
        ObjectId alert_id = Returned oid
        /\ find_one oid alerts = Some doc
        /\ find_one oid (snd out)
           = Some (mkAlertDoc (_id doc)
                     (ChatApi.mkAlert
                        (ChatApi.alert_user_id (fields doc))
                        (ChatApi.risk_level (fields doc))
                        (ChatApi.trigger_message (fields doc))
                        (ChatApi.created_at (fields doc))
                        true (Some now1) notes))
        /\ (forall oid', oid' <> oid ->
              find_one oid' (snd out) = find_one oid' alerts)
        /\ map _id (snd out) = map _id alerts
        /\ answer = mkResolved "Alert resolved" alert_id now2
  end.
Proof.
  cbv zeta. unfold resolve_alert.
  destruct (ObjectId alert_id) as [|oid] eqn:P.
  - cbn [fst snd]. split; [reflexivity |]. left. split; reflexivity.
  - destruct (find_one oid alerts) as [doc|] eqn:F.
    + destruct (update_one_matched oid (set_resolved now1 notes) alerts doc F)
        as [M [F' [O [I _]]]].
      destruct (update_one oid (set_resolved now1 notes) alerts)
        as [matched_count alerts'].
      cbn [fst snd] in *. subst matched_count. cbn [Nat.eqb fst snd].
      exists oid, doc. repeat split; assumption.
    + rewrite (update_one_unmatched oid _ alerts F). cbn [Nat.eqb fst snd].
      split; [reflexivity |]. right. split; [reflexivity |].
      exists oid. split; [reflexivity | assumption].
Qed.

(** X25.  Resolving an alert and reopening it does not bring it back as it
    was: it is unresolved again, without a resolution time, but it keeps
    the notes of the resolution; its user, level, message and creation
    time never change, and no other alert is touched. *)
Theorem reopen_keeps_notes (ObjectId : Parser) (now1 now2 : Z)
    (alert_id oid : string) (notes : option string)
    (alerts : list AlertDoc) (doc : AlertDoc) :
  ObjectId alert_id = Returned oid ->
  find_one oid alerts = Some doc ->
  let resolved := snd (resolve_alert ObjectId now1 now2 alert_id notes alerts) in
  let out := unresolve_alert ObjectId alert_id resolved in
  fst out = Ok ("Alert reopened"%string, alert_id)
  /\ get_alert ObjectId alert_id (snd out)
     = Ok (mkAlertDoc (_id doc)
             (ChatApi.mkAlert
                (ChatApi.alert_user_id (fields doc))
                (ChatApi.risk_level (fields doc))
                (ChatApi.trigger_message (fields doc))
                (ChatApi.created_at (fields doc))
                false None notes))
  /\ (forall other oid', ObjectId other = Returned oid' -> oid' <> oid ->
        get_alert ObjectId other (snd out) = get_alert ObjectId other alerts).
Proof.
  intros P F. cbv zeta. unfold resolve_alert, unresolve_alert, get_alert.
  rewrite P.
  destruct (update_one_matched oid (set_resolved now1 notes) alerts doc F)
    as [M [F1 [O1 _]]].
  destruct (update_one oid (set_resolved now1 notes) alerts)
    as [matched_count alerts1].
  cbn [fst snd] in *. subst matched_count. cbn [Nat.eqb snd].
  destruct (update_one_matched oid set_unresolved alerts1 _ F1)
    as [M2 [F2 [O2 _]]].
  destruct (update_one oid set_unresolved alerts1) as [matched_count alerts2].
  cbn [fst snd] in *. subst matched_count. cbn [Nat.eqb fst snd].
  split; [reflexivity |]. split.
  - rewrite F2. reflexivity.
  - intros other oid' P' N. rewrite P'.
    rewrite (O2 oid' N), (O1 oid' N). reflexivity.
Qed.

Lemma reopen_keeps_notes_witness :
  hex24 "65A1B2C3D4E5F60718293A4B" = Returned "65a1b2c3d4e5f60718293a4b"%string
  /\ find_one "65a1b2c3d4e5f60718293a4b" sample_alerts
     = Some (mkAlertDoc "65a1b2c3d4e5f60718293a4b"
               (ChatApi.mkAlert "u1" HIGH "I want to die" 10 false None None))
  /\ let resolved :=
       snd (resolve_alert hex24 30 31 "65A1B2C3D4E5F60718293A4B"
              (Some "called the family"%string) sample_alerts) in
     let out := unresolve_alert hex24 "65A1B2C3D4E5F60718293A4B" resolved in
     fst out = Ok ("Alert reopened"%string, "65A1B2C3D4E5F60718293A4B"%string)
     /\ get_alert hex24 "65A1B2C3D4E5F60718293A4B" (snd out)
        = Ok (mkAlertDoc "65a1b2c3d4e5f60718293a4b"
                (ChatApi.mkAlert "u1" HIGH "I want to die" 10 false None
                   (Some "called the family"%string)))
     /\ (forall other oid', hex24 other = Returned oid' ->
           oid' <> "65a1b2c3d4e5f60718293a4b"%string ->
           get_alert hex24 other (snd out)
           = get_alert hex24 other sample_alerts).
Proof.
  refine (conj eq_refl (conj eq_refl _)).
  exact (reopen_keeps_notes hex24 30 31 "65A1B2C3D4E5F60718293A4B"
           "65a1b2c3d4e5f60718293a4b" (Some "called the family"%string)
           sample_alerts
           (mkAlertDoc "65a1b2c3d4e5f60718293a4b"
              (ChatApi.mkAlert "u1" HIGH "I want to die" 10 false None None))
           eq_refl eq_refl).
Defined.

Lemma update_one_identity oid set alerts :
  (forall a, ChatApi.alert_user_id (set a) = ChatApi.alert_user_id a
             /\ ChatApi.risk_level (set a) = ChatApi.risk_level a
             /\ ChatApi.trigger_message (set a) = ChatApi.trigger_message a
             /\ ChatApi.created_at (set a) = ChatApi.created_at a) ->
  let identity := fun d =>
    (_id d, ChatApi.alert_user_id (fields d), ChatApi.risk_level (fields d),
     ChatApi.trigger_message (fields d), ChatApi.created_at (fields d)) in
  map identity (snd (update_one oid set alerts)) = map identity alerts.
Proof.
  intros S identity. induction alerts as [|d rest IH]; cbn [update_one];
    [reflexivity |].
  destruct (String.eqb (_id d) oid).
  - cbn [snd map]. f_equal. subst identity. cbn [_id fields].
    destruct (S (fields d)) as [-> [-> [-> ->]]]. reflexivity.
  - destruct (update_one oid set rest) as [matched_count rest'].
    cbn [snd map] in *. now rewrite IH.
Qed.

(** X26.  Neither resolving nor reopening, whatever their answer, changes the
    number of alerts, their ids, or the user, risk level, message and
    creation time of any alert. *)
Theorem alert_identity_is_preserved (ObjectId : Parser) (now1 now2 : Z)
    (alert_id : string) (notes : option string) (alerts : list AlertDoc) :
  let identity := fun d =>
    (_id d, ChatApi.alert_user_id (fields d), ChatApi.risk_level (fields d),
     ChatApi.trigger_message (fields d), ChatApi.created_at (fields d)) in
  map identity (snd (resolve_alert ObjectId now1 now2 alert_id notes alerts))
  = map identity alerts
  /\ map identity (snd (unresolve_alert ObjectId alert_id alerts))
     = map identity alerts.
Proof.
  intros identity. unfold resolve_alert, unresolve_alert.
  destruct (ObjectId alert_id) as [|oid]; [split; reflexivity |].
  pose proof (update_one_identity oid (set_resolved now1 notes) alerts) as R.
  pose proof (update_one_identity oid set_unresolved alerts) as U.
  destruct (update_one oid (set_resolved now1 notes) alerts) as [m1 a1].
  destruct (update_one oid set_unresolved alerts) as [m2 a2].
  cbn [snd] in *. split.
  - destruct (m1 =? 0)%nat; cbn [snd]; apply R; intros a; repeat split.
  - destruct (m2 =? 0)%nat; cbn [snd]; apply U; intros a; repeat split.
Qed.

End AlertFacts2.

(* ================================================================== *)
(** * The conversation history *)
(* ================================================================== *)

Section ChatHistoryFacts.
Import PyNum ChatApi ChatHistoryApi.

Lemma history_collect_spec (cursor : list ChatLogInDB) :
  (collect cursor = Raised
   /\ exists doc, In doc cursor /\ log_role doc <> "user"%string
                  /\ log_role doc <> "ai"%string)
  \/ (collect cursor = Returned cursor
      /\ forall doc, In doc cursor ->
           log_role doc = "user"%string \/ log_role doc = "ai"%string).
Proof.
  induction cursor as [|doc rest IH]; cbn [collect].
  - right. split; [reflexivity | contradiction].
  - unfold make_ChatLogInDB.
    destruct (String.eqb_spec (log_role doc) "user") as [U | U];
      [| destruct (String.eqb_spec (log_role doc) "ai") as [A | A]];
      cbn [orb].
    + destruct IH as [[-> [d [I B]]] | [-> V]].
      * left. split; [reflexivity |]. exists d. split; [now right | exact B].
      * right. split; [reflexivity |].
        intros d [<- | I]; [now left | now apply V].
    + destruct IH as [[-> [d [I B]]] | [-> V]].
      * left. split; [reflexivity |]. exists d. split; [now right | exact B].
      * right. split; [reflexivity |].
        intros d [<- | I]; [now right | now apply V].
    + left. split; [reflexivity |]. exists doc. split; [now left | tauto].
Qed.

Lemma StronglySorted_snoc {A} (R : A -> A -> Prop) (l : list A) (x : A) :
  StronglySorted R l -> (forall y, In y l -> R y x) ->
  StronglySorted R (l ++ [x]).
Proof.
  induction 1 as [|a l S IH F]; intros H; cbn.
  - constructor; constructor.
  - constructor.
    + apply IH. intros y I. apply H. now right.
    + apply Forall_app. split; [assumption |].
      constructor; [apply H; now left | constructor].
Qed.

Lemma StronglySorted_rev {A} (R : A -> A -> Prop) (l : list A) :
  StronglySorted R l -> StronglySorted (fun a b => R b a) (rev l).
Proof.
  induction 1 as [|a l S IH F]; cbn; [constructor |].
  apply StronglySorted_snoc; [assumption |].
  intros y I. apply in_rev in I. rewrite Forall_forall in F. now apply F.
Qed.

(** X27.  [get_chat_history] raises exactly when a document has a role other
    than "user" and "ai"; otherwise it returns the documents of the cursor
    in reverse, all of them, and when the cursor is latest first (as the
    query sorts it) the messages are in chronological order. *)
Theorem chat_history_is_chronological (user : string)
    (cursor : list ChatLogInDB) :
  StronglySorted (fun a b => (log_timestamp b <= log_timestamp a)%Z) cursor ->
  (get_chat_history user cursor = Raised
   <-> exists doc, In doc cursor /\ log_role doc <> "user"%string
                   /\ log_role doc <> "ai"%string)
  /\ (forall h, get_chat_history user cursor = Returned h ->
        messages h = rev cursor
        /\ total_count h = List.length cursor
        /\ StronglySorted
             (fun a b => (log_timestamp a <= log_timestamp b)%Z)
             (messages h)).
Proof.
  intros S. unfold get_chat_history.
  destruct (history_collect_spec cursor) as [[-> B] | [-> V]].
  - split; [tauto | discriminate].
  - split.
    + split; [discriminate |]. intros [doc [I [U A]]].
      destruct (V doc I); contradiction.
    + intros h [= <-]. cbn [messages total_count].
      rewrite length_rev. repeat split.
      now apply (StronglySorted_rev
                   (fun a b => (log_timestamp b <= log_timestamp a)%Z)).
Qed.

Lemma chat_history_is_chronological_witness :
  StronglySorted (fun a b => (log_timestamp b <= log_timestamp a)%Z)
    sample_cursor
  /\ (get_chat_history "u1" sample_cursor = Raised
      <-> exists doc, In doc sample_cursor /\ log_role doc <> "user"%string
                      /\ log_role doc <> "ai"%string)
  /\ (forall h, get_chat_history "u1" sample_cursor = Returned h ->
        messages h = rev sample_cursor
        /\ total_count h = List.length sample_cursor
        /\ StronglySorted
             (fun a b => (log_timestamp a <= log_timestamp b)%Z)
             (messages h)).
Proof.
  assert (StronglySorted (fun a b => (log_timestamp b <= log_timestamp a)%Z)
            sample_cursor) as S.
  { unfold sample_cursor. repeat constructor. cbn. lia. }
  refine (conj S _).
  exact (chat_history_is_chronological "u1" sample_cursor S).
Defined.

End ChatHistoryFacts.

(* ================================================================== *)
(** * The weekly analysis *)
(* ================================================================== *)

Section AnalysisFacts.
Import PyNum PyFloat RiskDetector RiskAnalysisApi.
Local Open Scope Q_scope.

Lemma py_min_cases (a b : Q) :
  (py_min a b = a /\ a <= b) \/ (py_min a b = b /\ b < a).
Proof.
  unfold py_min. destruct (Qltb b a) eqn:E.
  - right. apply Qltb_true_iff in E. tauto.
  - left. apply Qltb_false_iff in E. tauto.
Qed.

Lemma py_max_cases (a b : Q) :
  (py_max a b = a /\ b <= a) \/ (py_max a b = b /\ a < b).
Proof.
  unfold py_max. destruct (Qltb a b) eqn:E.
  - right. apply Qltb_true_iff in E. tauto.
  - left. apply Qltb_false_iff in E. tauto.
Qed.

Lemma max_of_range (lo hi : Q) (rest : list Q) :
  forall first, lo <= first <= hi ->
  Forall (fun x => lo <= x <= hi) rest ->
  lo <= max_of first rest <= hi.
Proof.
  unfold max_of. induction rest as [|x rest IH]; intros first H F;
    cbn [fold_left]; [assumption |].
  inversion F as [|? ? Hx F']; subst. apply IH; [| assumption].
  destruct (py_max_cases first x) as [[-> _] | [-> _]]; assumption.
Qed.

Lemma fold_add_shift (l : list Z) (a : Z) :
  fold_left Z.add l a = (a + fold_left Z.add l 0)%Z.
Proof.
  revert a; induction l as [|x l IH]; intros a; cbn [fold_left]; [lia |].
  rewrite (IH (a + x)%Z), (IH (0 + x)%Z). lia.
Qed.

Lemma sum_Z_range (lo hi : Z) (l : list Z) :
  Forall (fun x => lo <= x <= hi)%Z l ->
  (lo * Z.of_nat (List.length l) <= sum_Z l
   <= hi * Z.of_nat (List.length l))%Z.
Proof.
  unfold sum_Z. induction 1 as [|x l Hx F IH]; cbn [fold_left List.length];
    [lia |].
  rewrite fold_add_shift. lia.
Qed.

(** An average of integers between [lo] and [hi] lies between them. *)
Lemma average_range (lo hi : Z) (l : list Z) :
  Forall (fun x => lo <= x <= hi)%Z l -> l <> [] ->
  inject_Z lo <= inject_Z (sum_Z l) / inject_Z (Z.of_nat (List.length l))
  <= inject_Z hi.
Proof.
  intros F N. pose proof (sum_Z_range lo hi l F) as [Lo Hi].
  assert (0 < Z.of_nat (List.length l))%Z as P
      by (destruct l; [contradiction | cbn [List.length]; lia]).
  assert (inject_Z 0 < inject_Z (Z.of_nat (List.length l))) as Pq
      by (now rewrite <- Zlt_Qlt).
  change (inject_Z 0) with 0 in Pq. split.
  - apply Qle_shift_div_l; [assumption |].
    rewrite <- inject_Z_mult, <- Zle_Qle. assumption.
  - apply Qle_shift_div_r; [assumption |].
    rewrite <- inject_Z_mult, <- Zle_Qle. assumption.
Qed.

Lemma ratio_of_filter {A} (f : A -> bool) (l : list A) :
  l <> [] ->
  0 <= inject_Z (Z.of_nat (List.length (filter f l)))
       / inject_Z (Z.of_nat (List.length l)) <= 1.
Proof.
  intros N. pose proof (filter_length_le f l) as L.
  assert (0 < Z.of_nat (List.length l))%Z as P
      by (destruct l; [contradiction | cbn [List.length]; lia]).
  assert (inject_Z 0 < inject_Z (Z.of_nat (List.length l))) as Pq
      by (now rewrite <- Zlt_Qlt).
  change (inject_Z 0) with 0 in Pq. split.
  - apply Qle_shift_div_l; [assumption |].
    change 0 with (inject_Z 0).
    rewrite <- inject_Z_mult, <- Zle_Qle. lia.
  - apply Qle_shift_div_r; [assumption |].
    change 1 with (inject_Z 1).
    rewrite <- inject_Z_mult, <- Zle_Qle. lia.
Qed.

(** The weighted sum of [overall_score] grows with the three factors and
    falls with the average mood: every rounding keeps the order. *)
Lemma weighted_sum_mono (ef ef' sf sf' kf kf' am am' : Q) :
  ef <= ef' -> sf <= sf' -> kf <= kf' -> am' <= am ->
  fadd (fadd (fadd (fmul ef (fl (2 # 10))) (fmul sf (fl (2 # 10))))
             (fmul kf (fl (4 # 10))))
       (fmul (fsub 100 (fmul am 10)) (fl (2 # 10)))
  <= fadd (fadd (fadd (fmul ef' (fl (2 # 10))) (fmul sf' (fl (2 # 10))))
                (fmul kf' (fl (4 # 10))))
          (fmul (fsub 100 (fmul am' 10)) (fl (2 # 10))).
Proof.
  intros He Hs Hk Ha.
  assert (0 <= fl (2 # 10)) as C2
      by (apply Qle_bool_iff; vm_compute; reflexivity).
  assert (0 <= fl (4 # 10)) as C4
      by (apply Qle_bool_iff; vm_compute; reflexivity).
  unfold fadd, fmul, fsub.
  apply fl_mono, Qplus_le_compat.
  - apply fl_mono, Qplus_le_compat.
    + apply fl_mono, Qplus_le_compat;
        apply fl_mono, Qmult_le_compat_r; assumption.
    + apply fl_mono, Qmult_le_compat_r; assumption.
  - apply fl_mono, Qmult_le_compat_r; [| assumption].
    apply fl_mono. unfold Qminus.
    apply Qplus_le_compat; [apply Qle_refl |].
    apply Qopp_le_compat, fl_mono.
    apply Qmult_le_compat_r; [assumption | discriminate].
Qed.

(** A rounded average of integers between 1 and 10 lies between them. *)
Lemma rounded_average_range (l : list Z) :
  Forall (fun x => 1 <= x <= 10)%Z l ->
  1 <= (if (Z.of_nat (List.length l) =? 0)%Z then 5
        else fdiv (inject_Z (sum_Z l)) (inject_Z (Z.of_nat (List.length l))))
  <= 10.
Proof.
  intros F. destruct l as [|x l]; [cbn; lra |].
  replace (Z.of_nat (List.length (x :: l)) =? 0)%Z
    with false by (cbn [List.length]; symmetry; apply Z.eqb_neq; lia).
  unfold fdiv.
  apply (fl_between 1 10); [vm_compute; reflexivity .. |].
  apply (average_range 1 10); [assumption | discriminate].
Qed.

(** X28.  The list of recommendations is never empty; it names the immediate
    review exactly when the overall risk is HIGH, and "continue
    monitoring" only when there is nothing else to say. *)
Theorem analysis_recommendations (user : string)
    (risks : list RiskApi.RiskDoc) (moods : list MoodDoc)
    (chats : list ChatDoc) :
  let a := get_risk_analysis user risks moods chats in
  recommendations a <> []
  /\ (overall_risk a = HIGH
      <-> In "Immediate professional review recommended"%string
             (recommendations a))
  /\ (In "Continue monitoring - no immediate concerns"%string
         (recommendations a) ->
      recommendations a
      = [ "Continue monitoring - no immediate concerns"%string ]).
Proof.
  cbv zeta. unfold get_risk_analysis. cbv zeta.
  cbn [recommendations overall_risk].
  destruct (Qle_bool 70 _); [| destruct (Qle_bool 40 _)];
    destruct (Qltb 7 _); destruct (Qltb (fl (6 # 10)) _); cbn [app In];
    (split; [discriminate |]); (split; [split |]); intros H;
    try reflexivity; try discriminate H; try tauto;
    repeat (destruct H as [H | H]; [discriminate H |]); try destruct H.
Qed.

(** X29.  The level is decided before the score is rounded, and still agrees
    with the rounded score that is returned: HIGH has a score of at least
    70, MEDIUM one between 40 and 70, LOW one of at most 40. *)
Theorem analysis_level_matches_score (user : string)
    (risks : list RiskApi.RiskDoc) (moods : list MoodDoc)
    (chats : list ChatDoc) :
  let a := get_risk_analysis user risks moods chats in
  match overall_risk a with
  | HIGH => 70 <= risk_score a
  | MEDIUM => 40 <= risk_score a <= 70
  | LOW => risk_score a <= 40
  end.
Proof.
  cbv zeta. unfold get_risk_analysis. cbv zeta.
  cbn [risk_score overall_risk].
  match goal with
  | |- context [round_float ?x 1] => set (overall := x)
  end.
  assert (forall x, 70 <= x -> 70 <= round_float x 1) as Up70.
  { intros x H. unfold round_float.
    apply Qle_trans with (fl (py_round 70 1));
      [vm_compute; discriminate | apply fl_mono, py_round_mono, H]. }
  assert (forall x, x <= 70 -> round_float x 1 <= 70) as Lo70.
  { intros x H. unfold round_float.
    apply Qle_trans with (fl (py_round 70 1));
      [apply fl_mono, py_round_mono, H | vm_compute; discriminate]. }
  assert (forall x, 40 <= x -> 40 <= round_float x 1) as Up40.
  { intros x H. unfold round_float.
    apply Qle_trans with (fl (py_round 40 1));
      [vm_compute; discriminate | apply fl_mono, py_round_mono, H]. }
  assert (forall x, x <= 40 -> round_float x 1 <= 40) as Lo40.
  { intros x H. unfold round_float.
    apply Qle_trans with (fl (py_round 40 1));
      [apply fl_mono, py_round_mono, H | vm_compute; discriminate]. }
  destruct (Qle_bool 70 overall) eqn:A.
  - apply Qle_bool_iff in A. now apply Up70.
  - assert (overall <= 70) as A'.
    { apply Qlt_le_weak, Qnot_le_lt. intros H.
      apply Qle_bool_iff in H. congruence. }
    destruct (Qle_bool 40 overall) eqn:B.
    + apply Qle_bool_iff in B. split; [now apply Up40 | now apply Lo70].
    + assert (overall <= 40) as B'.
      { apply Qlt_le_weak, Qnot_le_lt. intros H.
        apply Qle_bool_iff in H. congruence. }
      now apply Lo40.
Qed.

(** X30.  For mood and stress scores between 1 and 10 and risk scores between
    0 and 100 (what the models of the collections admit), the overall
    score lies between 0 and 100; and a week without a risk score is never
    assessed HIGH. *)
Theorem analysis_score_range (user : string)
    (risks : list RiskApi.RiskDoc) (moods : list MoodDoc)
    (chats : list ChatDoc) :
  Forall (fun m => (1 <= mood_score m <= 10)%Z
                   /\ (1 <= stress_score m <= 10)%Z) moods ->
  Forall (fun r => 0 <= RiskApi.doc_score r <= 100) risks ->
  let a := get_risk_analysis user risks moods chats in
  0 <= risk_score a <= 100
  /\ (risks = [] -> overall_risk a <> HIGH).
Proof.
  intros Fm Fr. cbv zeta. unfold get_risk_analysis. cbv zeta.
  cbn [risk_score overall_risk].
  (* the averages *)
  assert (exists am, (if (Z.of_nat (List.length moods) =? 0)%Z then 5
                      else fdiv (inject_Z (sum_Z (map mood_score moods)))
                                (inject_Z (Z.of_nat (List.length moods)))) = am
                     /\ 1 <= am <= 10) as [am [-> Ham]].
  { eexists. split; [reflexivity |].
    rewrite <- (length_map mood_score). apply rounded_average_range.
    apply Forall_map. eapply Forall_impl; [| exact Fm]. cbv beta. tauto. }
  assert (exists st, (if (Z.of_nat (List.length moods) =? 0)%Z then 5
                      else fdiv (inject_Z (sum_Z (map stress_score moods)))
                                (inject_Z (Z.of_nat (List.length moods)))) = st
                     /\ 1 <= st <= 10) as [st [-> Hst]].
  { eexists. split; [reflexivity |].
    rewrite <- (length_map stress_score). apply rounded_average_range.
    apply Forall_map. eapply Forall_impl; [| exact Fm]. cbv beta. tauto. }
  (* the share of negative emotions *)
  match goal with
  | |- context [if (Z.of_nat (List.length chats) =? 0)%Z then 0 else ?r] =>
      assert (exists nr, (if (Z.of_nat (List.length chats) =? 0)%Z then 0
                          else r) = nr /\ 0 <= nr <= 1) as [nr [-> Hnr]]
  end.
  { eexists. split; [reflexivity |].
    destruct chats as [|c chats']; [cbn; lra |].
    replace (Z.of_nat (List.length (c :: chats')) =? 0)%Z
      with false by (cbn [List.length]; symmetry; apply Z.eqb_neq; lia).
    unfold fdiv. apply (fl_between 0 1); [vm_compute; reflexivity .. |].
    apply ratio_of_filter. discriminate. }
  (* the highest risk score *)
  assert (exists kf, match map RiskApi.doc_score risks with
                     | [] => 0
                     | first :: rest => max_of first rest
                     end = kf
                     /\ 0 <= kf <= 100 /\ (risks = [] -> kf = 0))
    as [kf [-> [Hkf Hk0]]].
  { eexists. split; [reflexivity |].
    destruct risks as [|r risks']; cbn [map].
    - split; [lra | reflexivity].
    - split; [| discriminate].
      inversion Fr as [|? ? Hr Fr']; subst.
      apply max_of_range; [assumption |]. now apply Forall_map. }
  set (ef := py_min 100 (fmul (fmul nr 100) (15 # 10))).
  set (sf := py_min 100 (fmul st 10)).
  assert (0 <= ef <= 100) as Hef.
  { assert (0 <= fmul (fmul nr 100) (15 # 10)) as P.
    { unfold fmul. change 0 with (fl 0) at 1. apply fl_mono.
      apply Qmult_le_0_compat; [| discriminate].
      change 0 with (fl 0) at 1. apply fl_mono.
      apply Qmult_le_0_compat; [tauto | discriminate]. }
    subst ef. destruct (py_min_cases 100 (fmul (fmul nr 100) (15 # 10)))
      as [[-> _] | [-> L]]; lra. }
  assert (10 <= sf <= 100) as Hsf.
  { assert (10 <= fmul st 10) as P.
    { unfold fmul. apply Qle_trans with (fl 10); [vm_compute; discriminate |].
      apply fl_mono. lra. }
    subst sf. destruct (py_min_cases 100 (fmul st 10)) as [[-> L] | [-> L]];
      lra. }
  match goal with
  | |- context [round_float ?x 1] => set (overall := x)
  end.
  pose proof (weighted_sum_mono 0 ef 10 sf 0 kf 10 am
                (proj1 Hef) (proj1 Hsf) (proj1 Hkf) (proj2 Ham)) as Lo.
  pose proof (weighted_sum_mono ef 100 sf 100 kf 100 am 1
                (proj2 Hef) (proj2 Hsf) (proj2 Hkf) (proj1 Ham)) as Hi.
  fold overall in Lo, Hi.
  assert (0 <= overall <= 100) as Ho.
  { split.
    - eapply Qle_trans; [| exact Lo]. vm_compute. discriminate.
    - eapply Qle_trans; [exact Hi |]. vm_compute. discriminate. }
  split.
  - unfold round_float. apply (fl_between 0 100); [vm_compute; reflexivity .. |].
    destruct Ho as [L H]. split.
    + apply Qle_trans with (py_round 0 1); [vm_compute; discriminate |].
      now apply py_round_mono.
    + apply Qle_trans with (py_round 100 1); [| vm_compute; discriminate].
      now apply py_round_mono.
  - intros E. specialize (Hk0 E).
    pose proof (weighted_sum_mono ef 100 sf 100 kf 0 am 1
                  (proj2 Hef) (proj2 Hsf)) as Hi0.
    rewrite Hk0 in Hi0. specialize (Hi0 (Qle_refl 0) (proj1 Ham)).
    fold overall in Hi0. subst kf. fold overall in Hi0.
    assert (overall < 70) as Lt.
    { eapply Qle_lt_trans; [exact Hi0 |]. vm_compute. reflexivity. }
    destruct (Qle_bool 70 overall) eqn:A.
    + apply Qle_bool_iff in A. lra.
    + destruct (Qle_bool 40 overall); discriminate.
Qed.

Lemma analysis_score_range_witness :
  Forall (fun m => (1 <= mood_score m <= 10)%Z
                   /\ (1 <= stress_score m <= 10)%Z) sample_moods
  /\ Forall (fun r => 0 <= RiskApi.doc_score r <= 100) sample_risks
  /\ 0 <= risk_score (get_risk_analysis "u1" sample_risks sample_moods
                        sample_chats) <= 100
  /\ (sample_risks = [] ->
      overall_risk (get_risk_analysis "u1" sample_risks sample_moods
                      sample_chats) <> HIGH).
Proof.
  assert (Forall (fun m => (1 <= mood_score m <= 10)%Z
                           /\ (1 <= stress_score m <= 10)%Z) sample_moods)
    as Fm by (unfold sample_moods; repeat constructor; cbn; lia).
  assert (Forall (fun r => 0 <= RiskApi.doc_score r <= 100) sample_risks)
    as Fr by (unfold sample_risks; repeat constructor; unfold Qle; cbn; lia).
  refine (conj Fm (conj Fr _)).
  exact (analysis_score_range "u1" sample_risks sample_moods sample_chats
           Fm Fr).
Defined.

(** The level is decided on the unrounded doubles.  The weighted sum of
    this week is 40 on paper (12 + 22 / 3 + 14 + 20 / 3); the doubles add
    up to a little less, the level is LOW, and the score that is returned
    is rounded to 40. *)
Lemma level_decided_before_rounding :
  overall_risk (get_risk_analysis "u1" forty_risks forty_moods forty_chats)
  = LOW
  /\ risk_score (get_risk_analysis "u1" forty_risks forty_moods forty_chats)
     = 40.
Proof. split; vm_compute; reflexivity. Qed.

End AnalysisFacts.
